(** * CSV big-to-small file converter: the split-and-transform engine

    A shallow embedding of the converter's core (csvparser.js, formatters/index.js,
    transformers/index.js, workers/csv-worker.js) and the properties its
    specification states about it.

    Modelling conventions.
    - A JavaScript string is a [string]: a sequence of code units below 256.
    - A JavaScript number is an IEEE-754 binary64 value, Rocq's primitive [float];
      counters and sizes that only ever hold integers are in [Z].
    - A JavaScript object used as a record of columns is an association list in
      insertion order; enumeration ([Obj.entries]) puts canonical array-index keys
      first, as OwnPropertyKeys does.  Column names are taken not to collide with
      the members of [Object.prototype].
    - [null] returned by a transformer is [None]; an exception is [Throw].
    - Built-ins whose results depend on number formatting, number parsing, regular
      expressions, dates, URLs and upper-casing are the fields of [Runtime].  A
      validation pattern is a regular expression, so [RegExp_test] is total; with
      that, no transformer of the pipeline raises.  What the validator does with
      a pattern that is no regular expression is
      [DataValidator.transformOrRaise].
    - A write stream is the text written to it so far, that is, the text handed
      to its [write], kept in the world in creation order; the record count the
      engine holds for a file when it ends the stream is kept with it.  When
      the text reaches the disk is not modelled.  The console is not modelled.
    - csv-parser is outside the repository: a readable source comes with the
      header list and the rows csv-parser reads from it.  The text of a byte
      range is the bytes of the range, as it is for an ASCII source.  The
      worker pool's concurrent dispatch is a function of the environment. *)

From Stdlib Require Import Floats.PrimFloat Floats.FloatOps Floats.SpecFloat.
From Stdlib Require Import ZArith NArith String Ascii List Bool Lia DecimalString.
From Stdlib Require Import Permutation.
From Stdlib Require DecimalZ DecimalPos.
Import ListNotations.

Local Open Scope string_scope.
Local Open Scope Z_scope.

(* ================================================================== *)
(** * Part I: the embedding *)
(* ================================================================== *)

(** ** Control: normal completion or a raised exception *)

Inductive outcome (A : Type) : Type :=
| Ret (a : A)
| Throw (message : string).
Arguments Ret {A} a.
Arguments Throw {A} message.

Definition bind {A B} (m : outcome A) (k : A -> outcome B) : outcome B :=
  match m with
  | Ret a => k a
  | Throw e => Throw e
  end.

Notation "x <- m ;; k" := (bind m (fun x => k))
  (at level 61, m at next level, right associativity).

(** ** Characters and strings *)

Module Str.

Definition dquote : ascii := "034"%char.
Definition LF : ascii := "010"%char.
Definition CR : ascii := "013"%char.
Definition TAB : ascii := "009"%char.
Definition comma : ascii := ","%char.
Definition backslash : ascii := "\"%char.

Definition chr (c : ascii) : string := String c EmptyString.

(** [s.includes(c)] for a one-character needle. *)
Fixpoint includes (c : ascii) (s : string) : bool :=
  match s with
  | EmptyString => false
  | String d s' => if Ascii.eqb d c then true else includes c s'
  end.

(** [s.replace(/c/g, by)]. *)
Fixpoint replaceAll (c : ascii) (by_ : string) (s : string) : string :=
  match s with
  | EmptyString => EmptyString
  | String d s' =>
      if Ascii.eqb d c then by_ ++ replaceAll c by_ s'
      else String d (replaceAll c by_ s')
  end.

(** [a.join(sep)] on an array of strings. *)
Definition join (sep : string) (l : list string) : string := String.concat sep l.

(** [s.split(sep)] for a one-character separator: never empty. *)
Fixpoint split (sep : ascii) (s : string) : list string :=
  match s with
  | EmptyString => [EmptyString]
  | String c s' =>
      if Ascii.eqb c sep then EmptyString :: split sep s'
      else match split sep s' with
           | h :: t => String c h :: t
           | [] => [chr c]
           end
  end.

(** White space and line terminators below 256, as [trim] sees them. *)
Definition is_space (c : ascii) : bool :=
  existsb (N.eqb (N_of_ascii c)) [9; 10; 11; 12; 13; 32; 160]%N.

Fixpoint trimStart (s : string) : string :=
  match s with
  | EmptyString => EmptyString
  | String c s' => if is_space c then trimStart s' else s
  end.

Fixpoint trimEnd (s : string) : string :=
  match s with
  | EmptyString => EmptyString
  | String c s' =>
      match trimEnd s' with
      | EmptyString => if is_space c then EmptyString else chr c
      | t => String c t
      end
  end.

Definition trim (s : string) : string := trimEnd (trimStart s).

(** [s.toLowerCase()] on code units below 256. *)
Definition lower_char (c : ascii) : ascii :=
  let n := N_of_ascii c in
  if ((65 <=? n) && (n <=? 90))%N then ascii_of_N (n + 32)
  else if ((192 <=? n) && (n <=? 222) && negb (n =? 215))%N then ascii_of_N (n + 32)
  else c.

Fixpoint toLowerCase (s : string) : string :=
  match s with
  | EmptyString => EmptyString
  | String c s' => String (lower_char c) (toLowerCase s')
  end.

Definition isEmptyString (s : string) : bool :=
  match s with EmptyString => true | _ => false end.

(** [s.replace(/^"|"$/g, '')]: one leading and one trailing double quote. *)
Fixpoint stripTrailingQuote (s : string) : string :=
  match s with
  | EmptyString => EmptyString
  | String c EmptyString => if Ascii.eqb c dquote then EmptyString else s
  | String c s' => String c (stripTrailingQuote s')
  end.

Definition stripQuotes (s : string) : string :=
  match s with
  | String c s' => if Ascii.eqb c dquote then stripTrailingQuote s' else stripTrailingQuote s
  | EmptyString => EmptyString
  end.

Definition len (s : string) : Z := Z.of_nat (String.length s).

(** [s.split('T')[0]]. *)
Definition beforeT (s : string) : string := hd EmptyString (split "T"%char s).

End Str.

(** ** JavaScript values *)

Inductive value : Type :=
| VUndefined
| VNull
| VBool (b : bool)
| VNumber (f : float)
| VString (s : string).

Module Num.

Definition isNaN (f : float) : bool := negb (PrimFloat.eqb f f).
Definition NaN : float := PrimFloat.nan.
Definition isFinite (f : float) : bool :=
  negb (isNaN f) && negb (PrimFloat.is_infinity f).
(** ToBoolean on a number: +0, -0 and NaN are falsy. *)
Definition truthy (f : float) : bool := negb (PrimFloat.eqb f 0 || isNaN f).
Definition ofZ (z : Z) : float := PrimFloat.of_uint63 (Uint63Axioms.of_Z z).
Definition lt (a b : float) : bool := PrimFloat.ltb a b.
Definition gt (a b : float) : bool := PrimFloat.ltb b a.

End Num.

(** ToBoolean. *)
Definition truthy (v : value) : bool :=
  match v with
  | VUndefined | VNull => false
  | VBool b => b
  | VNumber f => Num.truthy f
  | VString s => negb (Str.isEmptyString s)
  end.

Definition falsy (v : value) : bool := negb (truthy v).

(** [a || b]. *)
Definition or_else (a b : value) : value := if truthy a then a else b.

(** SameValueZero, the equality of [Array.prototype.includes] and [Set]. *)
Definition sameValueZero (a b : value) : bool :=
  match a, b with
  | VUndefined, VUndefined => true
  | VNull, VNull => true
  | VBool x, VBool y => Bool.eqb x y
  | VNumber x, VNumber y => PrimFloat.eqb x y || (Num.isNaN x && Num.isNaN y)
  | VString x, VString y => String.eqb x y
  | _, _ => false
  end.

Definition array_includes (l : list value) (v : value) : bool :=
  existsb (sameValueZero v) l.

Definition str_in (l : list string) (s : string) : bool := existsb (String.eqb s) l.

(** ** The built-ins left to the runtime *)

Class Runtime : Type := {
  (** [String(n)] for a number. *)
  Number_toString : float -> string;
  (** [Number(s)] for a string. *)
  StringToNumber : string -> float;
  (** [parseFloat(s)] and [parseInt(s)] on the string form of the argument. *)
  parseFloat : string -> float;
  parseInt : string -> float;
  Number_isInteger : float -> bool;
  (** [new RegExp(pattern).test(s)]. *)
  RegExp_test : string -> string -> bool;
  (** [new RegExp(pattern)]: raises SyntaxError when the pattern is no regular
      expression. *)
  RegExp_new : string -> outcome unit;
  (** [Date.parse(s)]; NaN when [s] is not a date. *)
  Date_parse : string -> float;
  (** [new Date(v).toISOString()]; raises RangeError on an invalid date. *)
  Date_toISOString : value -> outcome string;
  (** [new URL(s)] succeeds. *)
  URL_ok : string -> bool;
  (** [s.toUpperCase()]. *)
  toUpperCase : string -> string
}.

Section Conversions.
Context {R : Runtime}.

(** [String(v)]. *)
Definition toString (v : value) : string :=
  match v with
  | VUndefined => "undefined"
  | VNull => "null"
  | VBool true => "true"
  | VBool false => "false"
  | VNumber f => Number_toString f
  | VString s => s
  end.

(** [Number(v)]. *)
Definition toNumber (v : value) : float :=
  match v with
  | VUndefined => Num.NaN
  | VNull => 0%float
  | VBool true => 1%float
  | VBool false => 0%float
  | VNumber f => f
  | VString s => StringToNumber s
  end.

End Conversions.

(** ** Objects as records of columns *)

Module Obj.
Section Obj.
Context {A : Type}.

Definition t := list (string * A).

Fixpoint get (o : t) (k : string) : option A :=
  match o with
  | [] => None
  | (k', v) :: o' => if String.eqb k' k then Some v else get o' k
  end.

(** [o[k] = v]: an existing key keeps its place, a new one goes last. *)
Fixpoint set (o : t) (k : string) (v : A) : t :=
  match o with
  | [] => [(k, v)]
  | (k', v') :: o' =>
      if String.eqb k' k then (k', v) :: o' else (k', v') :: set o' k v
  end.

(** [delete o[k]]. *)
Fixpoint delete (o : t) (k : string) : t :=
  match o with
  | [] => []
  | (k', v') :: o' =>
      if String.eqb k' k then delete o' k else (k', v') :: delete o' k
  end.

Definition is_digit (c : ascii) : bool :=
  let n := N_of_ascii c in ((48 <=? n) && (n <=? 57))%N.

Fixpoint digits_value (acc : N) (s : string) : option N :=
  match s with
  | EmptyString => Some acc
  | String c s' =>
      if is_digit c then digits_value (acc * 10 + (N_of_ascii c - 48))%N s'
      else None
  end.

(** A canonical array index: decimal, no leading zero, below 2^32 - 1. *)
Definition arrayIndex (k : string) : option N :=
  match k with
  | EmptyString => None
  | String c s' =>
      if Ascii.eqb c "0"%char && negb (Str.isEmptyString s') then None
      else match digits_value 0%N k with
           | Some n => if (n <? 4294967295)%N then Some n else None
           | None => None
           end
  end.

Fixpoint insertIndexed (n : N) (e : string * A) (l : list (N * (string * A)))
  : list (N * (string * A)) :=
  match l with
  | [] => [(n, e)]
  | (m, e') :: l' =>
      if (n <? m)%N then (n, e) :: l else (m, e') :: insertIndexed n e l'
  end.

Fixpoint indexed (o : t) : list (N * (string * A)) :=
  match o with
  | [] => []
  | (k, v) :: o' =>
      match arrayIndex k with
      | Some n => insertIndexed n (k, v) (indexed o')
      | None => indexed o'
      end
  end.

Fixpoint named (o : t) : t :=
  match o with
  | [] => []
  | (k, v) :: o' =>
      match arrayIndex k with
      | Some _ => named o'
      | None => (k, v) :: named o'
      end
  end.

(** [Object.entries(o)]: array-index keys ascending, then the others in
    insertion order. *)
Definition entries (o : t) : t := (map snd (indexed o) ++ named o)%list.

End Obj.
Arguments t A : clear implicits.
End Obj.

Definition Row := Obj.t value.

(** [row[column]]. *)
Definition field (row : Row) (column : string) : value :=
  match Obj.get row column with
  | Some v => v
  | None => VUndefined
  end.

(** ** transformers/index.js *)

(** [{ ...row }]: a copy with the same entries. *)
Definition spread (row : Row) : Row := row.

Module ColumnFilter.

Record t : Type := {
  includeColumns : list string;
  excludeColumns : list string
}.

Definition transform (self : t) (row : Row) (headers : list string) : Row :=
  let result := spread row in
  let result :=
    if (0 <? Z.of_nat (length (includeColumns self))) then
      fold_left
        (fun filtered col =>
           match field result col with
           | VUndefined => filtered
           | v => Obj.set filtered col v
           end)
        (includeColumns self) []
    else result in
  if (0 <? Z.of_nat (length (excludeColumns self))) then
    fold_left (fun res col => Obj.delete res col) (excludeColumns self) result
  else result.

Definition getOutputHeaders (self : t) (inputHeaders : list string) : list string :=
  let outputHeaders := inputHeaders in
  let outputHeaders :=
    if (0 <? Z.of_nat (length (includeColumns self))) then
      filter (fun col => str_in inputHeaders col) (includeColumns self)
    else outputHeaders in
  if (0 <? Z.of_nat (length (excludeColumns self))) then
    filter (fun col => negb (str_in (excludeColumns self) col)) outputHeaders
  else outputHeaders.

End ColumnFilter.

Module DataTypeConverter.
Section WithRuntime.
Context {R : Runtime}.

Definition parseBoolean (v : value) : bool :=
  match v with
  | VBool b => b
  | _ => str_in ["true"; "1"; "yes"; "y"; "on"]
           (Str.trim (Str.toLowerCase (toString v)))
  end.

(** The body of the [switch] on [type.toLowerCase()]; a type that matches no
    case leaves the value as it is. *)
Definition convert (type : string) (v : value) : outcome value :=
  let ty := Str.toLowerCase type in
  if str_in ["number"; "float"] ty then
    let f := parseFloat (toString v) in
    Ret (VNumber (if Num.truthy f then f else 0%float))
  else if str_in ["integer"; "int"] ty then
    let f := parseInt (toString v) in
    Ret (VNumber (if Num.truthy f then f else 0%float))
  else if str_in ["boolean"; "bool"] ty then Ret (VBool (parseBoolean v))
  else if String.eqb ty "date" then
    iso <- Date_toISOString v ;; Ret (VString (Str.beforeT iso))
  else if String.eqb ty "datetime" then
    iso <- Date_toISOString v ;; Ret (VString iso)
  else if String.eqb ty "uppercase" then Ret (VString (toUpperCase (toString v)))
  else if String.eqb ty "lowercase" then Ret (VString (Str.toLowerCase (toString v)))
  else if String.eqb ty "trim" then Ret (VString (Str.trim (toString v)))
  else if String.eqb ty "string" then Ret (VString (toString v))
  else Ret v.

Definition present (v : value) : bool :=
  match v with
  | VUndefined | VNull => false
  | VString s => negb (Str.isEmptyString s)
  | _ => true
  end.

(** One turn of the [forEach]: the [catch] keeps the field unconverted. *)
Definition convertColumn (result : Row) (entry : string * string) : Row :=
  let (column, type) := entry in
  if present (field result column) then
    match convert type (field result column) with
    | Ret v => Obj.set result column v
    | Throw _ => result
    end
  else result.

Definition transform (conversions : Obj.t string) (row : Row) (headers : list string)
  : Row :=
  fold_left convertColumn (Obj.entries conversions) (spread row).

End WithRuntime.
End DataTypeConverter.

Module DataValidator.

Record Rule : Type := {
  required : bool;
  type : option string;
  minLength : option float;
  maxLength : option float;
  pattern : option string;
  min : option float;
  max : option float;
  enum : option (list value)
}.

Definition noRule : Rule :=
  {| required := false; type := None; minLength := None; maxLength := None;
     pattern := None; min := None; max := None; enum := None |}.

Section WithRuntime.
Context {R : Runtime}.

Definition isEmpty (v : value) : bool :=
  match v with
  | VNull | VUndefined => true
  | _ => Str.isEmptyString (Str.trim (toString v))
  end.

Definition emailPattern : string := "^[^\s@]+@[^\s@]+\.[^\s@]+$".

Definition validateType (v : value) (type : string) : bool :=
  let ty := Str.toLowerCase type in
  if str_in ["number"; "float"] ty then negb (Num.isNaN (toNumber v))
  else if str_in ["integer"; "int"] ty then Number_isInteger (toNumber v)
  else if str_in ["boolean"; "bool"] ty then
    str_in ["true"; "false"; "1"; "0"; "yes"; "no"; "y"; "n"; "on"; "off"]
      (Str.toLowerCase (toString v))
  else if String.eqb ty "date" then negb (Num.isNaN (Date_parse (toString v)))
  else if String.eqb ty "email" then RegExp_test emailPattern (toString v)
  else if String.eqb ty "url" then URL_ok (toString v)
  else true.

(** The tests of the loop body, one per [if]; each is true when its
    [return null] is reached. *)
Definition failsRequired (rule : Rule) (v : value) : bool :=
  required rule && isEmpty v.

Definition failsType (rule : Rule) (v : value) : bool :=
  match type rule with
  | Some ty =>
      negb (Str.isEmptyString ty) && negb (isEmpty v) && negb (validateType v ty)
  | None => false
  end.

Definition failsMinLength (rule : Rule) (v : value) : bool :=
  match minLength rule with
  | Some n =>
      Num.truthy n && negb (isEmpty v) && Num.lt (Num.ofZ (Str.len (toString v))) n
  | None => false
  end.

Definition failsMaxLength (rule : Rule) (v : value) : bool :=
  match maxLength rule with
  | Some n =>
      Num.truthy n && negb (isEmpty v) && Num.gt (Num.ofZ (Str.len (toString v))) n
  | None => false
  end.

Definition failsPattern (rule : Rule) (v : value) : bool :=
  match pattern rule with
  | Some p =>
      negb (Str.isEmptyString p) && negb (isEmpty v) && negb (RegExp_test p (toString v))
  | None => false
  end.

Definition failsMin (rule : Rule) (v : value) : bool :=
  match min rule with
  | Some bound =>
      negb (isEmpty v) &&
      (let numValue := toNumber v in negb (Num.isNaN numValue) && Num.lt numValue bound)
  | None => false
  end.

Definition failsMax (rule : Rule) (v : value) : bool :=
  match max rule with
  | Some bound =>
      negb (isEmpty v) &&
      (let numValue := toNumber v in negb (Num.isNaN numValue) && Num.gt numValue bound)
  | None => false
  end.

Definition failsEnum (rule : Rule) (v : value) : bool :=
  match enum rule with
  | Some allowed => negb (isEmpty v) && negb (array_includes allowed v)
  | None => false
  end.

(** The [for ... of Object.entries(this.rules)] loop; [None] is [null]. *)
Fixpoint validate (rules : list (string * Rule)) (row : Row) : option Row :=
  match rules with
  | [] => Some row
  | (column, rule) :: rest =>
      let v := field row column in
      if failsRequired rule v then None
      else if failsType rule v then None
      else if failsMinLength rule v then None
      else if failsMaxLength rule v then None
      else if failsPattern rule v then None
      else if failsMin rule v then None
      else if failsMax rule v then None
      else if failsEnum rule v then None
      else validate rest row
  end.

Definition transform (rules : Obj.t Rule) (row : Row) (headers : list string)
  : option Row :=
  validate (Obj.entries rules) row.

(** The pattern test with [new RegExp(rule.pattern)] as it is: the pattern is
    compiled when the test is reached, and a pattern that is no regular
    expression raises there. *)
Definition testsPattern (rule : Rule) (v : value) : outcome bool :=
  match pattern rule with
  | Some p =>
      if negb (Str.isEmptyString p) && negb (isEmpty v) then
        bind (RegExp_new p) (fun _ => Ret (negb (RegExp_test p (toString v))))
      else Ret false
  | None => Ret false
  end.

(** The loop of [transform] for any rule map: [validate] when every pattern
    is a regular expression, an exception when one that is not is reached
    ([transform] has no [try]). *)
Fixpoint validateOrRaise (rules : list (string * Rule)) (row : Row)
  : outcome (option Row) :=
  match rules with
  | [] => Ret (Some row)
  | (column, rule) :: rest =>
      let v := field row column in
      if failsRequired rule v then Ret None
      else if failsType rule v then Ret None
      else if failsMinLength rule v then Ret None
      else if failsMaxLength rule v then Ret None
      else
        noMatch <- testsPattern rule v ;;
        if noMatch then Ret None
        else if failsMin rule v then Ret None
        else if failsMax rule v then Ret None
        else if failsEnum rule v then Ret None
        else validateOrRaise rest row
  end.

Definition transformOrRaise (rules : Obj.t Rule) (row : Row) (headers : list string)
  : outcome (option Row) :=
  validateOrRaise (Obj.entries rules) row.

End WithRuntime.
End DataValidator.

Module CustomTransformer.

(** The wrapped function may return a row or [null], or raise; the [catch]
    hands back the row it was given. *)
Definition t : Type := Row -> list string -> outcome (option Row).

Definition transform (transformFunction : t) (row : Row) (headers : list string)
  : option Row :=
  match transformFunction row headers with
  | Ret r => r
  | Throw _ => Some row
  end.

End CustomTransformer.

Module Aggregator.

Record ColumnStat : Type := {
  count : Z;
  nullCount : Z;
  uniqueValues : list value;
  numericValues : list float;
  minLength : option Z;  (* [None] is [Infinity] *)
  maxLength : Z
}.

Record t : Type := {
  stats : Obj.t ColumnStat;
  rowCount : Z
}.

Definition new : t := {| stats := []; rowCount := 0 |}.

Definition emptyStat : ColumnStat :=
  {| count := 0; nullCount := 0; uniqueValues := []; numericValues := [];
     minLength := None; maxLength := 0 |}.

Definition setAdd (s : list value) (v : value) : list value :=
  if array_includes s v then s else (s ++ [v])%list.

Definition isNullish (v : value) : bool :=
  match v with
  | VNull | VUndefined => true
  | VString s => Str.isEmptyString s
  | _ => false
  end.

Section WithRuntime.
Context {R : Runtime}.

Definition observe (stat : ColumnStat) (v : value) : ColumnStat :=
  let n := count stat + 1 in
  if isNullish v then
    {| count := n; nullCount := nullCount stat + 1;
       uniqueValues := uniqueValues stat; numericValues := numericValues stat;
       minLength := minLength stat; maxLength := maxLength stat |}
  else
    let strLength := Str.len (toString v) in
    let numValue := toNumber v in
    {| count := n; nullCount := nullCount stat;
       uniqueValues := setAdd (uniqueValues stat) v;
       numericValues :=
         if Num.isNaN numValue then numericValues stat
         else (numericValues stat ++ [numValue])%list;
       minLength :=
         match minLength stat with
         | None => Some strLength
         | Some m => Some (Z.min m strLength)
         end;
       maxLength := Z.max (maxLength stat) strLength |}.

Definition processHeader (row : Row) (st : Obj.t ColumnStat) (header : string)
  : Obj.t ColumnStat :=
  let stat :=
    match Obj.get st header with
    | Some s => s
    | None => emptyStat
    end in
  Obj.set st header (observe stat (field row header)).

Definition process (self : t) (row : Row) (headers : list string) : t :=
  {| stats := fold_left (processHeader row) headers (stats self);
     rowCount := rowCount self + 1 |}.

End WithRuntime.
End Aggregator.

Inductive Transformer : Type :=
| ColumnFilterT (self : ColumnFilter.t)
| DataTypeConverterT (conversions : Obj.t string)
| DataValidatorT (rules : Obj.t DataValidator.Rule)
| CustomTransformerT (transformFunction : CustomTransformer.t).

Module TransformationPipeline.

Record t : Type := {
  transformers : list Transformer;
  aggregator : option Aggregator.t
}.

Definition new : t := {| transformers := []; aggregator := None |}.

Definition addTransformer (self : t) (transformer : Transformer) : t :=
  {| transformers := (transformers self ++ [transformer])%list;
     aggregator := aggregator self |}.

Definition enableAggregation (self : t) : t :=
  {| transformers := transformers self; aggregator := Some Aggregator.new |}.

(** One call [transformer.transform(row, headers)], as the pipeline sees it. *)
Record call : Type := {
  callee : Transformer;
  argument : Row
}.

Section WithRuntime.
Context {R : Runtime}.

(** [transformer.transform(row, headers)], dispatched on the transformer
    (the objects are duck-typed); [None] is [null]. *)
Definition transformWith (transformer : Transformer) (row : Row)
    (headers : list string) : option Row :=
  match transformer with
  | ColumnFilterT self => Some (ColumnFilter.transform self row headers)
  | DataTypeConverterT conversions =>
      Some (DataTypeConverter.transform conversions row headers)
  | DataValidatorT rules => DataValidator.transform rules row headers
  | CustomTransformerT f => CustomTransformer.transform f row headers
  end.

(** The [for] loop of [transform]: the result and the calls made, in order. *)
Fixpoint applyAll (ts : list Transformer) (result : Row) (headers : list string)
  : option Row * list call :=
  match ts with
  | [] => (Some result, [])
  | transformer :: rest =>
      let here := {| callee := transformer; argument := result |} in
      match transformWith transformer result headers with
      | None => (None, [here])
      | Some result' =>
          let (final, calls) := applyAll rest result' headers in
          (final, here :: calls)
      end
  end.

(** [transform(row, headers)]: the row or [null], the pipeline with its
    aggregator after the call, and the transformer calls made. *)
Definition transform (self : t) (row : Row) (headers : list string)
  : option Row * t * list call :=
  match applyAll (transformers self) row headers with
  | (None, calls) => (None, self, calls)
  | (Some result, calls) =>
      (Some result,
       {| transformers := transformers self;
          aggregator :=
            match aggregator self with
            | Some agg => Some (Aggregator.process agg result headers)
            | None => None
            end |},
       calls)
  end.

Definition getOutputHeaders (self : t) (inputHeaders : list string) : list string :=
  fold_left
    (fun headers transformer =>
       match transformer with
       | ColumnFilterT f => ColumnFilter.getOutputHeaders f headers
       | _ => headers
       end)
    (transformers self) inputHeaders.

End WithRuntime.
End TransformationPipeline.

(** ** [JSON.stringify] on rows *)

Module JSON.

Definition hexDigit (n : N) : ascii :=
  if (n <? 10)%N then ascii_of_N (48 + n) else ascii_of_N (87 + n).

(** A code unit inside a JSON string literal. *)
Definition escapeChar (c : ascii) : string :=
  let n := N_of_ascii c in
  if Ascii.eqb c Str.dquote then String Str.backslash (Str.chr Str.dquote)
  else if Ascii.eqb c Str.backslash then String Str.backslash (Str.chr Str.backslash)
  else if (n =? 8)%N then String Str.backslash "b"
  else if (n =? 12)%N then String Str.backslash "f"
  else if (n =? 10)%N then String Str.backslash "n"
  else if (n =? 13)%N then String Str.backslash "r"
  else if (n =? 9)%N then String Str.backslash "t"
  else if (n <? 32)%N then
    String Str.backslash
      ("u00" ++ String (hexDigit (n / 16)) (Str.chr (hexDigit (n mod 16))))
  else Str.chr c.

Fixpoint escape (s : string) : string :=
  match s with
  | EmptyString => EmptyString
  | String c s' => escapeChar c ++ escape s'
  end.

Definition quote (s : string) : string :=
  String Str.dquote (escape s ++ Str.chr Str.dquote).

Section WithRuntime.
Context {R : Runtime}.

(** A property value; [None] for [undefined], whose property is left out. *)
Definition stringifyValue (v : value) : option string :=
  match v with
  | VUndefined => None
  | VNull => Some "null"
  | VBool true => Some "true"
  | VBool false => Some "false"
  | VNumber f => Some (if Num.isFinite f then Number_toString f else "null")
  | VString s => Some (quote s)
  end.

Fixpoint properties (es : list (string * value)) : list string :=
  match es with
  | [] => []
  | (k, v) :: rest =>
      match stringifyValue v with
      | Some text => (quote k ++ ":" ++ text) :: properties rest
      | None => properties rest
      end
  end.

(** [JSON.stringify(row)]. *)
Definition stringify (row : Row) : string :=
  "{" ++ Str.join "," (properties (Obj.entries row)) ++ "}".

Definition stringifyStrings (l : list string) : string :=
  "[" ++ Str.join "," (map quote l) ++ "]".

Definition stringifyRows (l : list Row) : string :=
  "[" ++ Str.join "," (map stringify l) ++ "]".

End WithRuntime.
End JSON.

(** ** formatters/index.js *)

Definition nl : string := Str.chr Str.LF.
Definition tab : string := Str.chr Str.TAB.
Definition dq : string := Str.chr Str.dquote.

Module CSVFormatter.
Section WithRuntime.
Context {R : Runtime}.

Definition escapeCSVValue (v : value) : string :=
  match v with
  | VNull | VUndefined => ""
  | _ =>
      let str := toString v in
      if Str.includes Str.comma str || Str.includes Str.dquote str
         || Str.includes Str.LF str || Str.includes Str.CR str
      then dq ++ Str.replaceAll Str.dquote (dq ++ dq) str ++ dq
      else str
  end.

Definition writeHeader (stream : string) (headers : list string) : string :=
  stream ++ (Str.join "," headers ++ nl).

Definition rowValues (row : Row) (headers : list string) : list string :=
  map (fun header => escapeCSVValue (or_else (field row header) (VString ""))) headers.

Definition writeRow (stream : string) (row : Row) (headers : list string) : string :=
  stream ++ (Str.join "," (rowValues row headers) ++ nl).

Definition getFileExtension : string := ".csv".

End WithRuntime.
End CSVFormatter.

Module JSONFormatter.

Record t : Type := {
  isFirstRow : bool;
  format : string
}.

(** The constructor: [options.format || 'jsonl']. *)
Definition new (optionsFormat : option string) : t :=
  {| isFirstRow := true;
     format :=
       match optionsFormat with
       | Some f => if Str.isEmptyString f then "jsonl" else f
       | None => "jsonl"
       end |}.

Section WithRuntime.
Context {R : Runtime}.

Definition writeHeader (self : t) (stream : string) (headers : list string)
  : t * string :=
  ({| isFirstRow := true; format := format self |},
   if String.eqb (format self) "array" then stream ++ ("[" ++ nl) else stream).

Definition writeRow (self : t) (stream : string) (row : Row) (headers : list string)
  : t * string :=
  if String.eqb (format self) "jsonl" then
    (self, stream ++ (JSON.stringify row ++ nl))
  else if String.eqb (format self) "array" then
    let stream := if isFirstRow self then stream else stream ++ ("," ++ nl) in
    ({| isFirstRow := false; format := format self |},
     stream ++ ("  " ++ JSON.stringify row))
  else (self, stream).

Definition writeFooter (self : t) (stream : string) : string :=
  if String.eqb (format self) "array" then stream ++ (nl ++ "]" ++ nl) else stream.

Definition getFileExtension (self : t) : string :=
  if String.eqb (format self) "jsonl" then ".jsonl" else ".json".

End WithRuntime.
End JSONFormatter.

Module XMLFormatter.

Record t : Type := {
  rootElement : string;
  rowElement : string
}.

Definition orDefault (o : option string) (d : string) : string :=
  match o with
  | Some s => if Str.isEmptyString s then d else s
  | None => d
  end.

Definition new (root row : option string) : t :=
  {| rootElement := orDefault root "data"; rowElement := orDefault row "row" |}.

Definition xmlDeclaration : string :=
  "<?xml version=" ++ dq ++ "1.0" ++ dq ++ " encoding=" ++ dq ++ "UTF-8" ++ dq ++ "?>".

Definition writeHeader (self : t) (stream : string) (headers : list string) : string :=
  (stream ++ (xmlDeclaration ++ nl)) ++ ("<" ++ rootElement self ++ ">" ++ nl).

Definition writeFooter (self : t) (stream : string) : string :=
  stream ++ ("</" ++ rootElement self ++ ">" ++ nl).

Definition getFileExtension : string := ".xml".

End XMLFormatter.

Module TSVFormatter.
Section WithRuntime.
Context {R : Runtime}.

Definition escapeTSVValue (v : value) : string :=
  match v with
  | VNull | VUndefined => ""
  | _ =>
      let str := toString v in
      Str.replaceAll Str.CR (String Str.backslash "r")
        (Str.replaceAll Str.LF (String Str.backslash "n")
           (Str.replaceAll Str.TAB (String Str.backslash "t") str))
  end.

Definition writeHeader (stream : string) (headers : list string) : string :=
  stream ++ (Str.join tab headers ++ nl).

Definition rowValues (row : Row) (headers : list string) : list string :=
  map (fun header => escapeTSVValue (or_else (field row header) (VString ""))) headers.

Definition writeRow (stream : string) (row : Row) (headers : list string) : string :=
  stream ++ (Str.join tab (rowValues row headers) ++ nl).

Definition getFileExtension : string := ".tsv".

End WithRuntime.
End TSVFormatter.

Module ParquetFormatter.

Record t : Type := {
  headers : option (list string);
  rows : list Row;
  batchSize : Z
}.

(** The constructor: [options.batchSize || 10000]. *)
Definition new (optionsBatchSize : option Z) : t :=
  {| headers := None; rows := [];
     batchSize :=
       match optionsBatchSize with
       | Some n => if n =? 0 then 10000 else n
       | None => 10000
       end |}.

Section WithRuntime.
Context {R : Runtime}.

Definition writeHeader (self : t) (stream : string) (hs : list string) : t * string :=
  ({| headers := Some hs; rows := []; batchSize := batchSize self |}, stream).

(** [JSON.stringify({ schema, data })] and the reset of the buffer. *)
Definition writeBatch (self : t) (stream : string) : t * string :=
  let schema :=
    match headers self with
    | Some hs => [JSON.quote "schema" ++ ":" ++ JSON.stringifyStrings hs]
    | None => []
    end in
  let data := [JSON.quote "data" ++ ":" ++ JSON.stringifyRows (rows self)] in
  ({| headers := headers self; rows := []; batchSize := batchSize self |},
   stream ++ (("{" ++ Str.join "," (schema ++ data)%list ++ "}") ++ nl)).

Definition writeRow (self : t) (stream : string) (row : Row) (hs : list string)
  : t * string :=
  let self' :=
    {| headers := headers self; rows := (rows self ++ [row])%list;
       batchSize := batchSize self |} in
  if Z.of_nat (length (rows self')) >=? batchSize self' then writeBatch self' stream
  else (self', stream).

Definition writeFooter (self : t) (stream : string) : t * string :=
  if 0 <? Z.of_nat (length (rows self)) then writeBatch self stream
  else (self, stream).

Definition getFileExtension : string := ".parquet.json".

End WithRuntime.
End ParquetFormatter.

Inductive Formatter : Type :=
| CSVFormatterF
| JSONFormatterF (self : JSONFormatter.t)
| XMLFormatterF (self : XMLFormatter.t)
| TSVFormatterF
| ParquetFormatterF (self : ParquetFormatter.t).

Record FormatterOptions : Type := {
  rootElementOption : option string;
  rowElementOption : option string;
  batchSizeOption : option Z
}.

Definition getFileExtension (formatter : Formatter) : string :=
  match formatter with
  | CSVFormatterF => CSVFormatter.getFileExtension
  | JSONFormatterF self => JSONFormatter.getFileExtension self
  | XMLFormatterF _ => XMLFormatter.getFileExtension
  | TSVFormatterF => TSVFormatter.getFileExtension
  | ParquetFormatterF _ => ParquetFormatter.getFileExtension
  end.

(** The factory: the [switch] on [format.toLowerCase()]. *)
Definition createFormatter (format : string) (options : FormatterOptions)
  : outcome Formatter :=
  let name := Str.toLowerCase format in
  if String.eqb name "csv" then Ret CSVFormatterF
  else if String.eqb name "json" || String.eqb name "jsonl" then
    Ret (JSONFormatterF (JSONFormatter.new (Some name)))
  else if String.eqb name "xml" then
    Ret (XMLFormatterF (XMLFormatter.new (rootElementOption options) (rowElementOption options)))
  else if String.eqb name "tsv" then Ret TSVFormatterF
  else if String.eqb name "parquet" then
    Ret (ParquetFormatterF (ParquetFormatter.new (batchSizeOption options)))
  else Throw ("Unsupported output format: " ++ format).

Definition getSupportedFormats : list string :=
  ["csv"; "json"; "jsonl"; "xml"; "tsv"; "parquet"].

(** ** The world outside the engine *)

(** A write stream made by [fs.createWriteStream]: its path, the text written so
    far, whether [end()] was called, and the record count the engine held for it
    at that call. *)
Record Stream : Type := {
  path : string;
  content : string;
  ended : bool;
  records : Z
}.

Record World : Type := {
  directories : list string;
  streams : list Stream  (* in creation order *)
}.

(** The input file: its bytes, and the header list and rows csv-parser reads
    from it. *)
Record Source : Type := {
  bytes : string;
  parsedHeaders : list string;
  parsedRows : list Row
}.

(** What one worker reports back. *)
Record PartitionResult : Type := {
  chunkIndex : Z;
  rowsProcessed : Z;
  filesCreated : list string;
  errors : list string
}.

Record Transformations : Type := {
  includeColumns : option (list string);
  excludeColumns : option (list string);
  typeConversions : option (Obj.t string);
  validation : option (Obj.t DataValidator.Rule)
}.

(** The data handed to every worker. *)
Record WorkerData : Type := {
  wd_inputFilePath : string;
  wd_outputDirectory : string;
  wd_headers : list string;
  wd_maxRowsPerFile : Z;
  wd_outputFormat : string;
  wd_transformations : option Transformations
}.

(** The environment of a run: the date part of [new Date().toISOString()], the
    files that can be read, and the outcome of dispatching the byte ranges to
    the worker pool: [dispatch maxWorkers chunks workerData] is
    [new WorkerPool(maxWorkers).processChunks(chunks, workerData)] (worker
    threads run concurrently; the pool's scheduling is not embedded). *)
Record Env : Type := {
  today : string;
  sources : string -> option Source;
  dispatch : Z -> list (Z * Z) -> WorkerData -> World
             -> World * outcome (list PartitionResult)
}.

Definition decimal (z : Z) : string := NilZero.string_of_int (Z.to_int z).

(** [path.join(directory, name)]. *)
Definition pathJoin (directory name : string) : string := directory ++ "/" ++ name.

Definition updateNth {A} (n : nat) (f : A -> A) (l : list A) : list A :=
  (firstn n l ++ match nth_error l n with
                 | Some a => f a :: skipn (S n) l
                 | None => []
                 end)%list.

Definition streamWrite (text : string) (s : Stream) : Stream :=
  {| path := path s; content := content s ++ text; ended := ended s;
     records := records s |}.

Definition streamEnd (count : Z) (s : Stream) : Stream :=
  {| path := path s; content := content s; ended := true; records := count |}.

(** ** csvparser.js: the split engine *)

Module Options.
Record t : Type := {
  inputFilePath : option string;
  outputDirectory : option string;
  maxRowsPerFile : option Z;
  useMultipleProcesses : bool;
  processCount : option Z;
  outputFormat : option string;
  transformations : option Transformations;
  generateStats : bool;
  quiet : bool;
  chunkSizeBytes : option Z
}.
End Options.

Module CSVParser.

Record t : Type := {
  inputFilePath : string;
  outputDirectory : string;
  maxRowsPerFile : Z;
  useMultipleProcesses : bool;
  processCount : Z;
  outputFormat : string;
  transformations : option Transformations;
  generateStats : bool;
  quiet : bool;
  chunkSizeBytes : Z;
  currentFileIndex : Z;
  currentRowCount : Z;
  totalRowsProcessed : Z;
  currentOutputStream : option nat;  (* a handle: the stream's place in the world *)
  headers : list string;
  outputHeaders : list string;
  formatter : option Formatter;
  transformationPipeline : option TransformationPipeline.t
}.

(** [x || d] on a string option and on a number option. *)
Definition stringOr (o : option string) (d : string) : string :=
  match o with
  | Some s => if Str.isEmptyString s then d else s
  | None => d
  end.

Definition numberOr (o : option Z) (d : Z) : Z :=
  match o with
  | Some n => if n =? 0 then d else n
  | None => d
  end.

Definition constructor (options : Options.t) : t :=
  {| inputFilePath := stringOr (Options.inputFilePath options) "users_202506020651.csv";
     outputDirectory := stringOr (Options.outputDirectory options) "./split_csv_output";
     maxRowsPerFile := numberOr (Options.maxRowsPerFile options) 100000;
     useMultipleProcesses := Options.useMultipleProcesses options;
     processCount := numberOr (Options.processCount options) 4;
     outputFormat := stringOr (Options.outputFormat options) "csv";
     transformations := Options.transformations options;
     generateStats := Options.generateStats options;
     quiet := Options.quiet options;
     chunkSizeBytes := numberOr (Options.chunkSizeBytes options) (50 * 1024 * 1024);
     currentFileIndex := 1;
     currentRowCount := 0;
     totalRowsProcessed := 0;
     currentOutputStream := None;
     headers := [];
     outputHeaders := [];
     formatter := None;
     transformationPipeline := None |}.

(** Assignments to the fields that change after construction. *)
Definition assign (self : t)
    (index count total : Z) (stream : option nat) (hs outs : list string)
    (fmt : option Formatter) (pipeline : option TransformationPipeline.t) : t :=
  {| inputFilePath := inputFilePath self;
     outputDirectory := outputDirectory self;
     maxRowsPerFile := maxRowsPerFile self;
     useMultipleProcesses := useMultipleProcesses self;
     processCount := processCount self;
     outputFormat := outputFormat self;
     transformations := transformations self;
     generateStats := generateStats self;
     quiet := quiet self;
     chunkSizeBytes := chunkSizeBytes self;
     currentFileIndex := index;
     currentRowCount := count;
     totalRowsProcessed := total;
     currentOutputStream := stream;
     headers := hs;
     outputHeaders := outs;
     formatter := fmt;
     transformationPipeline := pipeline |}.

Definition setCurrentFileIndex (self : t) (index : Z) : t :=
  assign self index (currentRowCount self) (totalRowsProcessed self)
    (currentOutputStream self) (headers self) (outputHeaders self) (formatter self)
    (transformationPipeline self).

Definition setCurrentRowCount (self : t) (count : Z) : t :=
  assign self (currentFileIndex self) count (totalRowsProcessed self)
    (currentOutputStream self) (headers self) (outputHeaders self) (formatter self)
    (transformationPipeline self).

Definition setTotalRowsProcessed (self : t) (total : Z) : t :=
  assign self (currentFileIndex self) (currentRowCount self) total
    (currentOutputStream self) (headers self) (outputHeaders self) (formatter self)
    (transformationPipeline self).

Definition setCurrentOutputStream (self : t) (stream : option nat) : t :=
  assign self (currentFileIndex self) (currentRowCount self) (totalRowsProcessed self)
    stream (headers self) (outputHeaders self) (formatter self)
    (transformationPipeline self).

Definition setHeaders (self : t) (hs outs : list string) : t :=
  assign self (currentFileIndex self) (currentRowCount self) (totalRowsProcessed self)
    (currentOutputStream self) hs outs (formatter self) (transformationPipeline self).

Definition setFormatter (self : t) (fmt : option Formatter) : t :=
  assign self (currentFileIndex self) (currentRowCount self) (totalRowsProcessed self)
    (currentOutputStream self) (headers self) (outputHeaders self) fmt
    (transformationPipeline self).

Definition setTransformationPipeline (self : t)
    (pipeline : option TransformationPipeline.t) : t :=
  assign self (currentFileIndex self) (currentRowCount self) (totalRowsProcessed self)
    (currentOutputStream self) (headers self) (outputHeaders self) (formatter self)
    pipeline.

(** *** The engine's computations: state and exceptions

    A method runs on the parser object and the world, and either completes or
    raises; what it changed before raising stays changed. *)

Definition Eng (A : Type) : Type := t * World -> (t * World) * outcome A.

Definition ret {A} (a : A) : Eng A := fun st => (st, Ret a).
Definition throw {A} (message : string) : Eng A := fun st => (st, Throw message).

Definition andThen {A B} (m : Eng A) (k : A -> Eng B) : Eng B :=
  fun st =>
    match m st with
    | (st', Ret a) => k a st'
    | (st', Throw e) => (st', Throw e)
    end.

Definition tryCatch {A} (m : Eng A) (handler : string -> Eng A) : Eng A :=
  fun st =>
    match m st with
    | (st', Ret a) => (st', Ret a)
    | (st', Throw e) => handler e st'
    end.

Definition this : Eng t := fun st => (st, Ret (fst st)).
Definition update (f : t -> t) : Eng unit := fun st => ((f (fst st), snd st), Ret tt).
Definition inWorld (f : World -> World) : Eng unit :=
  fun st => ((fst st, f (snd st)), Ret tt).

Fixpoint forEach {A} (l : list A) (body : A -> Eng unit) : Eng unit :=
  match l with
  | [] => ret tt
  | a :: rest => andThen (body a) (fun _ => forEach rest body)
  end.

Declare Scope eng_scope.
Delimit Scope eng_scope with eng.
Notation "x <-- m ;; k" := (andThen m (fun x => k))
  (at level 61, m at next level, right associativity) : eng_scope.
Notation "m ;;; k" := (andThen m (fun _ => k))
  (at level 61, right associativity) : eng_scope.
Local Open Scope eng_scope.

(** [this.currentOutputStream.write(text)]. *)
Definition write (text : string) : Eng unit :=
  self <-- this ;;
  match currentOutputStream self with
  | Some h =>
      inWorld (fun w => {| directories := directories w;
                           streams := updateNth h (streamWrite text) (streams w) |})
  | None => throw "Cannot read properties of null (reading 'write')"
  end.

(** [this.currentOutputStream.end()], the file completed with
    [this.currentRowCount] records. *)
Definition endStream : Eng unit :=
  self <-- this ;;
  match currentOutputStream self with
  | Some h =>
      inWorld (fun w => {| directories := directories w;
                           streams := updateNth h (streamEnd (currentRowCount self))
                                        (streams w) |})
  | None => throw "Cannot read properties of null (reading 'end')"
  end.

Section WithRuntime.
Context {R : Runtime}.
Variable env : Env.

Definition ensureOutputDirectory : Eng unit :=
  self <-- this ;;
  inWorld (fun w =>
    if str_in (directories w) (outputDirectory self) then w
    else {| directories := (directories w ++ [outputDirectory self])%list;
            streams := streams w |}).

Definition initializeFormatter : Eng unit :=
  self <-- this ;;
  match createFormatter (outputFormat self)
          {| rootElementOption := Some "data"; rowElementOption := Some "row";
             batchSizeOption := None |} with
  | Ret f => update (fun self => setFormatter self (Some f))
  | Throw e => throw e
  end.

Definition initializeTransformations : Eng unit :=
  self <-- this ;;
  match transformations self with
  | None => ret tt
  | Some tr =>
      let pipeline := TransformationPipeline.new in
      let pipeline :=
        match includeColumns tr, excludeColumns tr with
        | None, None => pipeline
        | inc, exc =>
            TransformationPipeline.addTransformer pipeline
              (ColumnFilterT
                 {| ColumnFilter.includeColumns := match inc with Some l => l | None => [] end;
                    ColumnFilter.excludeColumns := match exc with Some l => l | None => [] end |})
        end in
      let pipeline :=
        match typeConversions tr with
        | Some conversions =>
            TransformationPipeline.addTransformer pipeline (DataTypeConverterT conversions)
        | None => pipeline
        end in
      let pipeline :=
        match validation tr with
        | Some rules =>
            TransformationPipeline.addTransformer pipeline (DataValidatorT rules)
        | None => pipeline
        end in
      let pipeline :=
        if generateStats self then TransformationPipeline.enableAggregation pipeline
        else pipeline in
      update (fun self => setTransformationPipeline self (Some pipeline))
  end.

Definition writeHeaderSync : Eng unit :=
  self <-- this ;;
  let fmt := outputFormat self in
  if String.eqb fmt "csv" then write (Str.join "," (outputHeaders self) ++ nl)
  else if String.eqb fmt "json" || String.eqb fmt "jsonl" then ret tt
  else if String.eqb fmt "xml" then
    write (XMLFormatter.xmlDeclaration ++ nl ++ "<data>" ++ nl)
  else if String.eqb fmt "tsv" then write (Str.join tab (outputHeaders self) ++ nl)
  else ret tt.

Definition escapeCSVValue (v : value) : string := CSVFormatter.escapeCSVValue v.

Definition escapeXMLValue (v : value) : string :=
  match v with
  | VNull | VUndefined => ""
  | _ =>
      Str.replaceAll "'"%char "&apos;"
        (Str.replaceAll Str.dquote "&quot;"
           (Str.replaceAll ">"%char "&gt;"
              (Str.replaceAll "<"%char "&lt;"
                 (Str.replaceAll "&"%char "&amp;" (toString v)))))
  end.

Definition escapeTSVValue (v : value) : string := TSVFormatter.escapeTSVValue v.

Definition writeRowSync (row : Row) : Eng unit :=
  self <-- this ;;
  let fmt := outputFormat self in
  if String.eqb fmt "csv" then
    let rowValues :=
      map (fun header => escapeCSVValue (or_else (field row header) (VString "")))
        (outputHeaders self) in
    write (Str.join "," rowValues ++ nl)
  else if String.eqb fmt "json" || String.eqb fmt "jsonl" then
    write (JSON.stringify row ++ nl)
  else if String.eqb fmt "xml" then
    write ("  <row>" ++ nl) ;;;
    forEach (outputHeaders self)
      (fun header =>
         let v := escapeXMLValue (or_else (field row header) (VString "")) in
         write ("    <" ++ header ++ ">" ++ v ++ "</" ++ header ++ ">" ++ nl)) ;;;
    write ("  </row>" ++ nl)
  else if String.eqb fmt "tsv" then
    let rowValues :=
      map (fun header => escapeTSVValue (or_else (field row header) (VString "")))
        (outputHeaders self) in
    write (Str.join tab rowValues ++ nl)
  else ret tt.

Definition writeFooterSync : Eng unit :=
  self <-- this ;;
  if String.eqb (outputFormat self) "xml" then write ("</data>" ++ nl) else ret tt.

(** [fs.createWriteStream(path)]: a new stream, whose handle is returned. *)
Definition createWriteStream (p : string) : Eng nat :=
  fun st =>
    let w := snd st in
    ((fst st,
      {| directories := directories w;
         streams := (streams w ++ [{| path := p; content := ""; ended := false;
                                      records := 0 |}])%list |}),
     Ret (length (streams w))).

Definition createNewOutputStreamSync : Eng unit :=
  self <-- this ;;
  (match currentOutputStream self with
   | Some _ => writeFooterSync ;;; endStream
   | None => ret tt
   end) ;;;
  self <-- this ;;
  match formatter self with
  | None => throw "Cannot read properties of null (reading 'getFileExtension')"
  | Some f =>
      let timestamp := today env in
      let fileExtension := getFileExtension f in
      let outputFileName :=
        "split_part_" ++ decimal (currentFileIndex self) ++ "_" ++ timestamp
          ++ fileExtension in
      let outputFilePath := pathJoin (outputDirectory self) outputFileName in
      h <-- createWriteStream outputFilePath ;;
      update (fun self => setCurrentOutputStream self (Some h)) ;;;
      (if 0 <? Z.of_nat (length (outputHeaders self)) then writeHeaderSync else ret tt) ;;;
      update (fun self => setCurrentRowCount self 0) ;;;
      update (fun self => setCurrentFileIndex self (currentFileIndex self + 1))
  end.

Definition getFileStats : Eng Source :=
  self <-- this ;;
  match sources env (inputFilePath self) with
  | Some src => ret src
  | None => throw ("Cannot access input file: " ++ inputFilePath self)
  end.

(** The source is one with a header line: csv-parser announces the headers.
    (For a source without one, such as an empty file, it announces nothing and
    the promise of [detectHeaders] never settles; such sources are not
    embedded.) *)
Definition detectHeaders : Eng unit :=
  self <-- this ;;
  match sources env (inputFilePath self) with
  | Some src =>
      let hs := parsedHeaders src in
      let outs :=
        match transformationPipeline self with
        | Some pipeline => TransformationPipeline.getOutputHeaders pipeline hs
        | None => hs
        end in
      update (fun self => setHeaders self hs outs)
  | None => throw ("ENOENT: no such file or directory, open '" ++ inputFilePath self ++ "'")
  end.

(** [this.transformationPipeline.transform(row, this.headers)], keeping the
    pipeline's aggregator in the parser. *)
Definition runPipeline (pipeline : TransformationPipeline.t) (row : Row)
  : Eng (option Row) :=
  self <-- this ;;
  let '(result, pipeline', _) :=
    TransformationPipeline.transform pipeline row (headers self) in
  update (fun self => setTransformationPipeline self (Some pipeline')) ;;;
  ret result.

(** The body of the ['data'] handler's [try] block. *)
Definition onDataBody (row : Row) : Eng unit :=
  self <-- this ;;
  transformedRow <--
    (match transformationPipeline self with
     | Some pipeline => runPipeline pipeline row
     | None => ret (Some row)
     end) ;;
  match transformedRow with
  | None => ret tt
  | Some transformedRow =>
      writeRowSync transformedRow ;;;
      update (fun self => setCurrentRowCount self (currentRowCount self + 1)) ;;;
      update (fun self => setTotalRowsProcessed self (totalRowsProcessed self + 1)) ;;;
      self <-- this ;;
      if currentRowCount self >=? maxRowsPerFile self then createNewOutputStreamSync
      else ret tt
  end.

(** The ['data'] handler: an error in the body is logged and the row left. *)
Definition onData (row : Row) : Eng unit :=
  tryCatch (onDataBody row) (fun _ => ret tt).

(** The ['end'] handler. *)
Definition onEnd : Eng unit :=
  self <-- this ;;
  match currentOutputStream self with
  | Some _ => writeFooterSync ;;; endStream
  | None => ret tt
  end.

Definition processSingleThread : Eng unit :=
  createNewOutputStreamSync ;;;
  self <-- this ;;
  match sources env (inputFilePath self) with
  | Some src => forEach (parsedRows src) onData ;;; onEnd
  | None => throw ("ENOENT: no such file or directory, open '" ++ inputFilePath self ++ "'")
  end.

(** The [for] loop of [createFileChunks], run at most [fuel] times. *)
Fixpoint chunksFrom (fuel : nat) (start chunkSize fileSize : Z) : list (Z * Z) :=
  match fuel with
  | O => []
  | S fuel' =>
      if start <? fileSize then
        (start, Z.min (start + chunkSize - 1) (fileSize - 1))
          :: chunksFrom fuel' (start + chunkSize) chunkSize fileSize
      else []
  end.

(** [createFileChunks(fileSize)]: the byte ranges [(startByte, endByte)].  With
    a chunk size below 1 and a non-empty file the loop never ends: [None]. *)
Definition createFileChunks (self : t) (fileSize : Z) : option (list (Z * Z)) :=
  let chunkSize := Z.min (chunkSizeBytes self) (- ((- fileSize) / processCount self)) in
  if (chunkSize <? 1) && (0 <? fileSize) then None
  else Some (chunksFrom (Z.to_nat fileSize) 0 chunkSize fileSize).

Definition sumRows (results : list PartitionResult) : Z :=
  fold_left (fun total result => total + rowsProcessed result) results 0.

Definition sumFiles (results : list PartitionResult) : Z :=
  fold_left (fun total result => total + Z.of_nat (length (filesCreated result)))
    results 0.

(** [this.workerPool.processChunks(chunks, workerData)] on the pool made by
    [new WorkerPool(this.processCount)]: the environment's [dispatch]. *)
Definition processChunks (maxWorkers : Z) (chunks : list (Z * Z))
    (workerData : WorkerData) : Eng (list PartitionResult) :=
  fun st =>
    let (w', r) := dispatch env maxWorkers chunks workerData (snd st) in
    ((fst st, w'), r).

(** What marks a run in which [createFileChunks] never returns. *)
Definition neverReturns : string := "createFileChunks does not return".

(** The byte ranges of [createFileChunks(stats.size)] go to the pool with the
    worker data, and the workers' results are summed; a failure anywhere in the
    [try] block falls back to sequential mode.  When the loop of
    [createFileChunks] never ends, nothing after it runs, the [catch]
    included, and the call does not return.  The engine's computations have no
    outcome for that: such a run is marked with [neverReturns], which the
    fallback does not catch, and nothing is stated about it. *)
Definition processMultiThread : Eng unit :=
  returned <--
    tryCatch
      (stats <-- getFileStats ;;
       self <-- this ;;
       match createFileChunks self (Str.len (bytes stats)) with
       | None => ret false
       | Some chunks =>
           results <--
             processChunks (processCount self) chunks
               {| wd_inputFilePath := inputFilePath self;
                  wd_outputDirectory := outputDirectory self;
                  wd_headers := headers self;
                  wd_maxRowsPerFile := maxRowsPerFile self;
                  wd_outputFormat := outputFormat self;
                  wd_transformations := transformations self |} ;;
           update (fun self => setTotalRowsProcessed self (sumRows results)) ;;;
           update (fun self => setCurrentFileIndex self (sumFiles results + 1)) ;;;
           ret true
       end)
      (fun _ => processSingleThread ;;; ret true) ;;
  if returned : bool then ret tt else throw neverReturns.

Definition process : Eng unit :=
  initializeFormatter ;;;
  initializeTransformations ;;;
  _ <-- getFileStats ;;
  ensureOutputDirectory ;;;
  detectHeaders ;;;
  self <-- this ;;
  if useMultipleProcesses self then processMultiThread else processSingleThread.

(** [CSVParser.run(options)] from a given world. *)
Definition run (options : Options.t) (w : World) : (t * World) * outcome unit :=
  process (constructor options, w).

End WithRuntime.
End CSVParser.

(** ** workers/csv-worker.js: one partition *)

Module Worker.

Record State : Type := {
  results : PartitionResult;
  currentFileIndex : Z;
  currentRowCount : Z;
  currentOutputStream : option nat;
  world : World
}.

Definition pushFile (r : PartitionResult) (name : string) : PartitionResult :=
  {| chunkIndex := chunkIndex r; rowsProcessed := rowsProcessed r;
     filesCreated := (filesCreated r ++ [name])%list; errors := errors r |}.

Definition pushError (r : PartitionResult) (message : string) : PartitionResult :=
  {| chunkIndex := chunkIndex r; rowsProcessed := rowsProcessed r;
     filesCreated := filesCreated r; errors := (errors r ++ [message])%list |}.

Definition countRow (r : PartitionResult) : PartitionResult :=
  {| chunkIndex := chunkIndex r; rowsProcessed := rowsProcessed r + 1;
     filesCreated := filesCreated r; errors := errors r |}.

Definition onStream (f : Stream -> Stream) (st : State) : World :=
  match currentOutputStream st with
  | Some h =>
      {| directories := directories (world st);
         streams := updateNth h f (streams (world st)) |}
  | None => world st
  end.

Section WithRuntime.
Context {R : Runtime}.
Variable timestamp : string.
Variable wd : WorkerData.
Variable index : Z.  (* [chunkIndex] *)

Definition createNewOutputStream (st : State) : State :=
  let w := match currentOutputStream st with
           | Some _ => onStream (streamEnd (currentRowCount st)) st
           | None => world st
           end in
  let outputFileName :=
    "split_part_" ++ decimal index ++ "_" ++ decimal (currentFileIndex st) ++ "_"
      ++ timestamp ++ ".csv" in
  let outputFilePath := pathJoin (wd_outputDirectory wd) outputFileName in
  let h := length (streams w) in
  let header :=
    if String.eqb (wd_outputFormat wd) "csv" && (0 <? Z.of_nat (length (wd_headers wd)))
    then Str.join "," (wd_headers wd) ++ nl
    else "" in
  {| results := pushFile (results st) outputFileName;
     currentFileIndex := currentFileIndex st + 1;
     currentRowCount := 0;
     currentOutputStream := Some h;
     world := {| directories := directories w;
                 streams := (streams w ++ [{| path := outputFilePath; content := header;
                                              ended := false; records := 0 |}])%list |} |}.

Definition escapeCSVValue (v : value) : string := CSVFormatter.escapeCSVValue v.

(** One turn of the conversions' [forEach]; [new Date(...)] may raise. *)
Definition convertColumn (transformedRow : outcome Row) (entry : string * string)
  : outcome Row :=
  row <- transformedRow ;;
  let (column, type) := entry in
  match field row column with
  | VUndefined => Ret row
  | v =>
      if String.eqb type "number" then
        let f := toNumber v in
        Ret (Obj.set row column (VNumber (if Num.truthy f then f else 0%float)))
      else if String.eqb type "boolean" then
        Ret (Obj.set row column (VBool (truthy v)))
      else if String.eqb type "date" then
        iso <- Date_toISOString v ;; Ret (Obj.set row column (VString iso))
      else if String.eqb type "uppercase" then
        Ret (Obj.set row column (VString (toUpperCase (toString v))))
      else if String.eqb type "lowercase" then
        Ret (Obj.set row column (VString (Str.toLowerCase (toString v))))
      else Ret row
  end.

Fixpoint validate (rules : list (string * DataValidator.Rule)) (row : Row)
  : option Row :=
  match rules with
  | [] => Some row
  | (column, rule) :: rest =>
      let v := field row column in
      if DataValidator.required rule
         && (falsy v || Str.isEmptyString (Str.trim (toString v)))
      then None
      else if match DataValidator.minLength rule with
              | Some n => Num.truthy n && truthy v
                          && Num.lt (Num.ofZ (Str.len (toString v))) n
              | None => false
              end
      then None
      else if match DataValidator.pattern rule with
              | Some p => negb (Str.isEmptyString p) && truthy v
                          && negb (RegExp_test p (toString v))
              | None => false
              end
      then None
      else validate rest row
  end.

Definition applyTransformations (row : Row) : outcome (option Row) :=
  let transformedRow := spread row in
  match wd_transformations wd with
  | None => Ret (Some transformedRow)
  | Some tr =>
      let transformedRow :=
        match includeColumns tr with
        | Some cols =>
            fold_left
              (fun filtered col =>
                 match field transformedRow col with
                 | VUndefined => filtered
                 | v => Obj.set filtered col v
                 end)
              cols []
        | None => transformedRow
        end in
      transformedRow <-
        match typeConversions tr with
        | Some conversions =>
            fold_left convertColumn (Obj.entries conversions) (Ret transformedRow)
        | None => Ret transformedRow
        end ;;
      match validation tr with
      | Some rules => Ret (validate (Obj.entries rules) transformedRow)
      | None => Ret (Some transformedRow)
      end
  end.

(** [line.split(',').map(val => val.replace(/^"|"$/g, ''))] laid on the headers. *)
Definition parseLine (line : string) : Row :=
  let values := map Str.stripQuotes (Str.split Str.comma line) in
  fst (fold_left
         (fun (acc : Row * nat) header =>
            let (row, i) := acc in
            (Obj.set row header
               (or_else (match nth_error values i with
                         | Some s => VString s
                         | None => VUndefined
                         end) (VString "")),
             S i))
         (wd_headers wd) ([], 0%nat)).

(** [currentOutputStream.write(text)]: the text is handed to the stream.  The
    worker nowhere waits for a stream to be flushed. *)
Definition writeLine (text : string) (st : State) : State :=
  {| results := results st; currentFileIndex := currentFileIndex st;
     currentRowCount := currentRowCount st;
     currentOutputStream := currentOutputStream st;
     world := onStream (streamWrite text) st |}.

(** The loop body for [lines[i]]. *)
Definition processLine (i : Z) (rawLine : string) (st : State) : State :=
  let line := Str.trim rawLine in
  if Str.isEmptyString line then st
  else
    match applyTransformations (parseLine line) with
    | Throw message =>
        {| results := pushError (results st)
                        ("Error processing line " ++ decimal i ++ ": " ++ message);
           currentFileIndex := currentFileIndex st;
           currentRowCount := currentRowCount st;
           currentOutputStream := currentOutputStream st;
           world := world st |}
    | Ret None => st
    | Ret (Some transformedRow) =>
        let st :=
          if String.eqb (wd_outputFormat wd) "csv" then
            let rowValues :=
              map (fun header =>
                     escapeCSVValue (or_else (field transformedRow header) (VString "")))
                (wd_headers wd) in
            writeLine (Str.join "," rowValues ++ nl) st
          else if String.eqb (wd_outputFormat wd) "json" then
            writeLine (JSON.stringify transformedRow ++ nl) st
          else st in
        let st :=
          {| results := countRow (results st);
             currentFileIndex := currentFileIndex st;
             currentRowCount := currentRowCount st + 1;
             currentOutputStream := currentOutputStream st;
             world := world st |} in
        if currentRowCount st >=? wd_maxRowsPerFile wd then createNewOutputStream st
        else st
    end.

(** [for (let i = startIndex; i < lines.length; i++)] over the lines left. *)
Fixpoint loop (i : Z) (lines : list string) (st : State) : State :=
  match lines with
  | [] => st
  | line :: rest => loop (i + 1) rest (processLine i line st)
  end.

(** The ['end'] handler of the read stream, on the partition's text. *)
Definition onEnd (startByte : Z) (buffer : string) (w : World) : State :=
  let lines := Str.split Str.LF buffer in
  let isFirstChunk := startByte =? 0 in
  let startIndex := if isFirstChunk then 1%nat else 0%nat in
  let st :=
    createNewOutputStream
      {| results := {| chunkIndex := index; rowsProcessed := 0; filesCreated := [];
                       errors := [] |};
         currentFileIndex := 1; currentRowCount := 0; currentOutputStream := None;
         world := w |} in
  let st := loop (Z.of_nat startIndex) (skipn startIndex lines) st in
  {| results := results st; currentFileIndex := currentFileIndex st;
     currentRowCount := currentRowCount st;
     currentOutputStream := currentOutputStream st;
     world := match currentOutputStream st with
              | Some _ => onStream (streamEnd (currentRowCount st)) st
              | None => world st
              end |}.

(** The lines the partition's loop takes as data rows. *)
Definition dataLines (startByte : Z) (buffer : string) : list string :=
  let lines := Str.split Str.LF buffer in
  filter (fun line => negb (Str.isEmptyString (Str.trim line)))
    (skipn (if startByte =? 0 then 1%nat else 0%nat) lines).

(** [processChunk]: the bytes [startByte..endByte] of the input, read whole;
    they are the text the read stream decodes from them when the source is
    ASCII. *)
Definition processChunk (source : option Source) (startByte endByte : Z) (w : World)
  : World * outcome PartitionResult :=
  match source with
  | None => (w, Throw ("Worker " ++ decimal index ++ " failed"))
  | Some src =>
      let buffer :=
        substring (Z.to_nat startByte) (Z.to_nat (endByte - startByte + 1)) (bytes src) in
      let st := onEnd startByte buffer w in
      (world st, Ret (results st))
  end.

End WithRuntime.
End Worker.

(** ** A comma-format reader (RFC 4180)

    The reference reader the comma writer is checked against: fields are
    separated by commas, records end at LF or CRLF, a field that starts with a
    double quote runs to its closing quote, and a doubled quote inside it
    stands for one quote. *)

Module CSVReader.

Inductive mode : Type := FieldStart | Bare | Quoted | AfterQuote.

Definition startsWithLF (s : string) : bool :=
  match s with
  | String c _ => Ascii.eqb c Str.LF
  | EmptyString => false
  end.

Fixpoint scan (m : mode) (fld : string) (rec : list string)
    (out : list (list string)) (s : string) : list (list string) :=
  match s with
  | EmptyString =>
      match m, rec with
      | FieldStart, [] => out
      | _, _ => (out ++ [(rec ++ [fld])%list])%list
      end
  | String c s' =>
      match m with
      | Quoted =>
          if Ascii.eqb c Str.dquote then scan AfterQuote fld rec out s'
          else scan Quoted (fld ++ Str.chr c) rec out s'
      | _ =>
          if Ascii.eqb c Str.dquote
             && match m with FieldStart | AfterQuote => true | _ => false end
          then scan Quoted (match m with AfterQuote => fld ++ dq | _ => fld end) rec out s'
          else if Ascii.eqb c Str.comma then
            scan FieldStart "" (rec ++ [fld])%list out s'
          else if Ascii.eqb c Str.LF then
            scan FieldStart "" [] (out ++ [(rec ++ [fld])%list])%list s'
          else if Ascii.eqb c Str.CR && startsWithLF s' then scan m fld rec out s'
          else scan Bare (fld ++ Str.chr c) rec out s'
      end
  end.

Definition read (text : string) : list (list string) := scan FieldStart "" [] [] text.

End CSVReader.

(** ** A runtime to compute with

    [asciiRuntime] gives each built-in a computable value.  It is exact on
    the inputs it is used on: decimal digit strings and integers below 2^53 for
    the number conversions, ASCII strings for [toUpperCase], patterns without
    metacharacters for [RegExp_test] and [RegExp_new], and values that are not
    dates or URLs for the remaining fields. *)

Module AsciiRuntime.

(** The integer a finite float holds, if it holds one. *)
Definition integerOf (f : float) : option Z :=
  match Prim2SF f with
  | S754_zero _ => Some 0
  | S754_finite sign m e =>
      let mag :=
        if 0 <=? e then Some (Z.pos m * 2 ^ e)
        else if (Z.pos m mod 2 ^ (- e)) =? 0 then Some (Z.pos m / 2 ^ (- e))
        else None in
      match mag with
      | Some z => Some (if sign then - z else z)
      | None => None
      end
  | _ => None
  end.

Definition numberToString (f : float) : string :=
  match integerOf f with
  | Some z => decimal z
  | None =>
      if Num.isNaN f then "NaN"
      else if Num.lt f 0%float then "-Infinity" else "Infinity"
  end.

Fixpoint digitsPrefix (acc : option Z) (s : string) : option Z :=
  match s with
  | EmptyString => acc
  | String c s' =>
      if @Obj.is_digit c then
        digitsPrefix
          (Some (match acc with Some a => a | None => 0 end * 10
                 + Z.of_N (N_of_ascii c - 48)))
          s'
      else acc
  end.

Definition allDigits (s : string) : bool :=
  negb (Str.isEmptyString s)
  && match @Obj.digits_value 0%N s with Some _ => true | None => false end.

Definition parsePrefix (s : string) : float :=
  match digitsPrefix None (Str.trimStart s) with
  | Some z => Num.ofZ z
  | None => Num.NaN
  end.

Definition stringToNumber (s : string) : float :=
  let t := Str.trim s in
  if Str.isEmptyString t then 0%float
  else if allDigits t then parsePrefix t else Num.NaN.

Definition isInteger (f : float) : bool :=
  match integerOf f with Some _ => true | None => false end.

Fixpoint startsWith (p s : string) : bool :=
  match p, s with
  | EmptyString, _ => true
  | String a p', String b s' => Ascii.eqb a b && startsWith p' s'
  | _, EmptyString => false
  end.

Fixpoint occursIn (p s : string) : bool :=
  startsWith p s || match s with
                    | EmptyString => false
                    | String _ s' => occursIn p s'
                    end.

(** An opening parenthesis alone is no regular expression. *)
Definition regExpNew (p : string) : outcome unit :=
  if String.eqb p "(" then Throw "Invalid regular expression: /(/: Unterminated group"
  else Ret tt.

Definition upper_char (c : ascii) : ascii :=
  let n := N_of_ascii c in
  if ((97 <=? n) && (n <=? 122))%N then ascii_of_N (n - 32) else c.

Fixpoint upper (s : string) : string :=
  match s with
  | EmptyString => EmptyString
  | String c s' => String (upper_char c) (upper s')
  end.

End AsciiRuntime.

#[export] Instance asciiRuntime : Runtime := {|
  Number_toString := AsciiRuntime.numberToString;
  StringToNumber := AsciiRuntime.stringToNumber;
  parseFloat := AsciiRuntime.parsePrefix;
  parseInt := AsciiRuntime.parsePrefix;
  Number_isInteger := AsciiRuntime.isInteger;
  RegExp_test := AsciiRuntime.occursIn;
  RegExp_new := AsciiRuntime.regExpNew;
  Date_parse := fun _ => Num.NaN;
  Date_toISOString := fun _ => Throw "Invalid time value";
  URL_ok := fun _ => false;
  toUpperCase := AsciiRuntime.upper
|}.

(** A row as csv-parser hands it over: every column holds text. *)
Definition textRow (columns : Obj.t string) : Row :=
  map (fun entry => (fst entry, VString (snd entry))) columns.

(** The text of a column, empty when the column is absent. *)
Definition textOf (columns : Obj.t string) (column : string) : string :=
  match Obj.get columns column with
  | Some s => s
  | None => ""
  end.

(** ** Notions the statements use *)

(** The text holds a character the comma writer quotes for. *)
Definition special (s : string) : bool :=
  Str.includes Str.comma s || Str.includes Str.dquote s
  || Str.includes Str.LF s || Str.includes Str.CR s.

(** The reader at the end of a field, at a comma or at the end of the line. *)
Definition close (sep : ascii) (fld : string) (rec : list string)
    (out : list (list string)) (rest : string) : list (list string) :=
  if Ascii.eqb sep Str.comma then
    CSVReader.scan CSVReader.FieldStart "" (rec ++ [fld])%list out rest
  else CSVReader.scan CSVReader.FieldStart "" [] (out ++ [(rec ++ [fld])%list])%list rest.

(** [Chain headers ts row calls final]: handed [row], the transformers [ts]
    each return a row when called in order on the previous one's result;
    [calls] are those calls and [final] is the last result. *)
Inductive Chain {R : Runtime} (headers : list string)
  : list Transformer -> Row -> list TransformationPipeline.call -> Row -> Prop :=
| Chain_nil (row : Row) : Chain headers [] row [] row
| Chain_cons (t : Transformer) (ts : list Transformer) (row row' final : Row)
    (calls : list TransformationPipeline.call) :
    TransformationPipeline.transformWith t row headers = Some row' ->
    Chain headers ts row' calls final ->
    Chain headers (t :: ts) row
      ({| TransformationPipeline.callee := t; TransformationPipeline.argument := row |}
         :: calls) final.

(** The aggregator after it has seen [row], if there is one. *)
Definition observed {R : Runtime} (aggregator : option Aggregator.t) (row : Row)
    (headers : list string) : option Aggregator.t :=
  match aggregator with
  | Some agg => Some (Aggregator.process agg row headers)
  | None => None
  end.

(** A rule of a column is violated by the column's value: one of the loop
    body's tests holds. *)
Definition violated {R : Runtime} (rule : DataValidator.Rule) (v : value) : bool :=
  DataValidator.failsRequired rule v || DataValidator.failsType rule v
  || DataValidator.failsMinLength rule v || DataValidator.failsMaxLength rule v
  || DataValidator.failsPattern rule v || DataValidator.failsMin rule v
  || DataValidator.failsMax rule v || DataValidator.failsEnum rule v.


(** *** The validation rules, read on a value

    When a rule of a column is violated by the column's value, stated on the
    rule and the value alone: what the validator's loop is compared with. *)






(** *** The layout of a sequential run

    What the engine's synchronous writers put into a file, per format, and how
    the rows that pass the pipeline are laid out over the files. *)

Section Layout.
Context {R : Runtime}.

(** The text [writeHeaderSync] writes. *)
Definition headerText (fmt : string) (outs : list string) : string :=
  if String.eqb fmt "csv" then Str.join "," outs ++ nl
  else if String.eqb fmt "json" || String.eqb fmt "jsonl" then ""
  else if String.eqb fmt "xml" then XMLFormatter.xmlDeclaration ++ nl ++ "<data>" ++ nl
  else if String.eqb fmt "tsv" then Str.join tab outs ++ nl
  else "".

(** The text a new file starts with: its header, when there are output headers. *)
Definition openingText (fmt : string) (outs : list string) : string :=
  if 0 <? Z.of_nat (length outs) then headerText fmt outs else "".

Definition xmlCell (row : Row) (header : string) : string :=
  "    <" ++ header ++ ">"
  ++ CSVParser.escapeXMLValue (or_else (field row header) (VString ""))
  ++ "</" ++ header ++ ">" ++ nl.

Definition concatText (l : list string) : string := fold_right append "" l.

(** The text [writeRowSync] writes for a row. *)
Definition rowText (fmt : string) (outs : list string) (row : Row) : string :=
  if String.eqb fmt "csv" then Str.join "," (CSVFormatter.rowValues row outs) ++ nl
  else if String.eqb fmt "json" || String.eqb fmt "jsonl" then JSON.stringify row ++ nl
  else if String.eqb fmt "xml" then
    ("  <row>" ++ nl) ++ concatText (map (xmlCell row) outs) ++ ("  </row>" ++ nl)
  else if String.eqb fmt "tsv" then Str.join tab (TSVFormatter.rowValues row outs) ++ nl
  else "".

(** The text [writeFooterSync] writes. *)
Definition footerText (fmt : string) : string :=
  if String.eqb fmt "xml" then "</data>" ++ nl else "".

Definition bodyText (fmt : string) (outs : list string) (rows : list Row) : string :=
  concatText (map (rowText fmt outs) rows).

(** The path of output file number [index]. *)
Definition filePath (directory date extension : string) (index : Z) : string :=
  pathJoin directory ("split_part_" ++ decimal index ++ "_" ++ date ++ extension).

(** A completed file holding [rows]. *)
Definition completedFile (directory date extension fmt : string) (outs : list string)
    (index : Z) (rows : list Row) : Stream :=
  {| path := filePath directory date extension index;
     content := (openingText fmt outs ++ bodyText fmt outs rows) ++ footerText fmt;
     ended := true;
     records := Z.of_nat (length rows) |}.

(** Consecutive completed files, numbered from [index]. *)
Fixpoint completedFiles (directory date extension fmt : string) (outs : list string)
    (index : Z) (groups : list (list Row)) : list Stream :=
  match groups with
  | [] => []
  | g :: rest =>
      completedFile directory date extension fmt outs index g
        :: completedFiles directory date extension fmt outs (index + 1) rest
  end.

(** The rows that come out of the pipeline, in order. *)
Definition delivered (pipeline : option TransformationPipeline.t) (headers : list string)
    (row : Row) : option Row :=
  match pipeline with
  | Some p =>
      fst (TransformationPipeline.applyAll (TransformationPipeline.transformers p) row headers)
  | None => Some row
  end.

Fixpoint deliveredRows (pipeline : option TransformationPipeline.t) (headers : list string)
    (rows : list Row) : list Row :=
  match rows with
  | [] => []
  | row :: rest =>
      match delivered pipeline headers row with
      | Some r => r :: deliveredRows pipeline headers rest
      | None => deliveredRows pipeline headers rest
      end
  end.

(** The rows the pipeline drops. *)
Definition droppedRows (pipeline : option TransformationPipeline.t) (headers : list string)
    (rows : list Row) : list Row :=
  filter (fun row => match delivered pipeline headers row with
                     | Some _ => false
                     | None => true
                     end) rows.

End Layout.

(** The path [createNewOutputStreamSync] gives the next file. *)
Definition nextPath (date : string) (self : CSVParser.t) (f : Formatter) : string :=
  filePath (CSVParser.outputDirectory self) date (getFileExtension f)
    (CSVParser.currentFileIndex self).

(** The written rows laid over files: starting from the rows [current] of the
    open file, a file is closed as soon as it holds [limit] rows or more.  The
    result is the closed files' rows and the rows of the file left open. *)
Fixpoint groups (limit : Z) (current : list Row) (rows : list Row)
  : list (list Row) * list Row :=
  match rows with
  | [] => ([], current)
  | row :: rest =>
      let current' := (current ++ [row])%list in
      if Z.of_nat (length current') >=? limit then
        let (closed, last) := groups limit [] rest in (current' :: closed, last)
      else groups limit current' rest
  end.

Definition hasValidator (tr : option Transformations) : bool :=
  match tr with
  | Some t => match validation t with Some _ => true | None => false end
  | None => false
  end.

Definition sumZ (l : list Z) : Z := fold_right Z.add 0 l.

(** The pipeline (its aggregator) after the rows have gone through it. *)
Fixpoint advance {R : Runtime} (pipeline : option TransformationPipeline.t)
    (headers : list string) (rows : list Row) : option TransformationPipeline.t :=
  match rows with
  | [] => pipeline
  | row :: rest =>
      advance
        (match pipeline with
         | Some p => Some (snd (fst (TransformationPipeline.transform p row headers)))
         | None => None
         end)
        headers rest
  end.

(** The parser object in the middle of a sequential run: the next file index,
    the row counters, the open stream's handle and the pipeline. *)
Definition running (self : CSVParser.t) (index count total : Z) (handle : nat)
    (pipeline : option TransformationPipeline.t) : CSVParser.t :=
  CSVParser.assign self index count total (Some handle) (CSVParser.headers self)
    (CSVParser.outputHeaders self) (CSVParser.formatter self) pipeline.

(** An open file with the given text. *)
Definition openFile (p c : string) : Stream :=
  {| path := p; content := c; ended := false; records := 0 |}.

(** The pipeline [initializeTransformations] builds for the options. *)
Definition pipelineOf (options : Options.t) : option TransformationPipeline.t :=
  CSVParser.transformationPipeline
    (fst (fst (CSVParser.initializeTransformations
                 (CSVParser.constructor options, {| directories := []; streams := [] |})))).

(** The output headers [detectHeaders] computes. *)
Definition outputHeadersOf {R : Runtime} (options : Options.t) (src : Source) : list string :=
  match pipelineOf options with
  | Some pipeline => TransformationPipeline.getOutputHeaders pipeline (parsedHeaders src)
  | None => parsedHeaders src
  end.

(** The parser object when streaming starts. *)
Definition initialised {R : Runtime} (options : Options.t) (f : Formatter) (src : Source)
  : CSVParser.t :=
  CSVParser.setHeaders
    (CSVParser.setTransformationPipeline
       (CSVParser.setFormatter (CSVParser.constructor options) (Some f))
       (pipelineOf options))
    (parsedHeaders src) (outputHeadersOf options src).

(** The options [initializeFormatter] hands to the factory. *)
Definition engineFormatterOptions : FormatterOptions :=
  {| rootElementOption := Some "data"; rowElementOption := Some "row";
     batchSizeOption := None |}.

(** The world once [ensureOutputDirectory] has run. *)
Definition withDirectory (w : World) (directory : string) : World :=
  if str_in (directories w) directory then w
  else {| directories := (directories w ++ [directory])%list; streams := streams w |}.

(** The transformers that hand back a row whatever they are given. *)
Definition neverNull (t : Transformer) : bool :=
  match t with
  | ColumnFilterT _ | DataTypeConverterT _ => true
  | DataValidatorT _ | CustomTransformerT _ => false
  end.

(** The text a [JSONFormatter] produces for a file: its header call, a row call
    per row, its footer call. *)
Definition jsonFormatterFile {R : Runtime} (self : JSONFormatter.t) (rows : list Row)
    (headers : list string) : string :=
  let start := JSONFormatter.writeHeader self "" headers in
  let written :=
    fold_left
      (fun (acc : JSONFormatter.t * string) row =>
         JSONFormatter.writeRow (fst acc) (snd acc) row headers)
      rows start in
  JSONFormatter.writeFooter (fst written) (snd written).

(** A JSON array laid out one element a line, each indented by two spaces. *)
Definition jsonArrayText {R : Runtime} (rows : list Row) : string :=
  ("[" ++ nl)
  ++ Str.join ("," ++ nl) (map (fun row => "  " ++ JSON.stringify row) rows)
  ++ (nl ++ "]" ++ nl).

(** ** Sample inputs *)

Module Sample.

Definition headers : list string := ["id"; "name"; "age"].
Definition alice : Row := textRow [("id", "1"); ("name", "Alice"); ("age", "30")].
Definition bob : Row := textRow [("id", "2"); ("name", "Bob"); ("age", "17")].

Definition adult : DataValidator.Rule :=
  {| DataValidator.required := false; DataValidator.type := Some "number";
     DataValidator.minLength := None; DataValidator.maxLength := None;
     DataValidator.pattern := None; DataValidator.min := Some 18%float;
     DataValidator.max := None; DataValidator.enum := None |}.

Definition keepNameAge : Transformer :=
  ColumnFilterT {| ColumnFilter.includeColumns := ["name"; "age"];
                   ColumnFilter.excludeColumns := [] |}.
Definition adultsOnly : Transformer := DataValidatorT [("age", adult)].
Definition ageAsNumber : Transformer := DataTypeConverterT [("age", "number")].

(** Filter, validate, convert, with statistics. *)
Definition pipeline : TransformationPipeline.t :=
  {| TransformationPipeline.transformers := [keepNameAge; adultsOnly; ageAsNumber];
     TransformationPipeline.aggregator := Some Aggregator.new |}.

(** The specification's scenario as a run: two rows, adults only, ten rows a file. *)
Definition source : Source :=
  {| bytes := "id,name,age" ++ nl ++ "1,Alice,30" ++ nl ++ "2,Bob,17" ++ nl;
     parsedHeaders := headers;
     parsedRows := [alice; bob] |}.

Definition envOf (src : Source) : Env :=
  {| today := "2025-06-02";
     sources := fun p => if String.eqb p "input.csv" then Some src else None;
     dispatch := fun _ _ _ w => (w, Throw "no worker threads") |}.

Definition env : Env := envOf source.

Definition optionsOf (limit : option Z) (format : string) (tr : option Transformations)
  : Options.t :=
  {| Options.inputFilePath := Some "input.csv";
     Options.outputDirectory := Some "out";
     Options.maxRowsPerFile := limit;
     Options.useMultipleProcesses := false;
     Options.processCount := None;
     Options.outputFormat := Some format;
     Options.transformations := tr;
     Options.generateStats := false;
     Options.quiet := true;
     Options.chunkSizeBytes := None |}.

Definition adultsOnlyConfig : Transformations :=
  {| includeColumns := None; excludeColumns := None; typeConversions := None;
     validation := Some [("age", adult)] |}.

Definition options : Options.t := optionsOf (Some 10) "csv" (Some adultsOnlyConfig).

Definition emptyWorld : World := {| directories := []; streams := [] |}.

(** 250 rows, numbered from [n] down to 1. *)
Fixpoint numbered (n : nat) : list Row :=
  match n with
  | O => []
  | S k => textRow [("id", decimal (Z.of_nat n))] :: numbered k
  end.

Definition bigSource : Source :=
  {| bytes := ""; parsedHeaders := ["id"]; parsedRows := numbered 250 |}.

(** A configuration with a negative row limit and a negative worker count. *)
Definition negativeOptions : Options.t :=
  {| Options.inputFilePath := Some "input.csv";
     Options.outputDirectory := Some "out";
     Options.maxRowsPerFile := Some (-1);
     Options.useMultipleProcesses := false;
     Options.processCount := Some (-3);
     Options.outputFormat := Some "csv";
     Options.transformations := None;
     Options.generateStats := false;
     Options.quiet := true;
     Options.chunkSizeBytes := None |}.

(** A source of four rows, read by two workers. *)
Definition splitSource : Source :=
  {| bytes := "id,name" ++ nl ++ "1,Alice" ++ nl ++ "2,Bob" ++ nl ++ "3,Carol" ++ nl
              ++ "4,Dave" ++ nl;
     parsedHeaders := ["id"; "name"];
     parsedRows := [textRow [("id", "1"); ("name", "Alice")];
                    textRow [("id", "2"); ("name", "Bob")];
                    textRow [("id", "3"); ("name", "Carol")];
                    textRow [("id", "4"); ("name", "Dave")]] |}.

Definition twoWorkers : Options.t :=
  {| Options.inputFilePath := Some "input.csv";
     Options.outputDirectory := Some "out";
     Options.maxRowsPerFile := Some 10;
     Options.useMultipleProcesses := true;
     Options.processCount := Some 2;
     Options.outputFormat := Some "csv";
     Options.transformations := None;
     Options.generateStats := false;
     Options.quiet := true;
     Options.chunkSizeBytes := None |}.

Definition workerData : WorkerData :=
  {| wd_inputFilePath := "input.csv";
     wd_outputDirectory := "out";
     wd_headers := ["id"; "name"];
     wd_maxRowsPerFile := 10;
     wd_outputFormat := "csv";
     wd_transformations := None |}.

End Sample.

(** ** Further notions

    What the statements about the rest of the code use. *)

(** The value the type converter leaves in a column that held [v] and is
    configured with the type [type]: the loop body of its [transform], seen
    from the column. *)
Definition convertedValue {R : Runtime} (type : string) (v : value) : value :=
  if DataTypeConverter.present v then
    match DataTypeConverter.convert type v with
    | Ret v' => v'
    | Throw _ => v
    end
  else v.

(** The column names of a record in the order in which they were created. *)
Definition keys {A} (o : Obj.t A) : list string := map fst o.

(** The column names of a record as JavaScript enumerates them ([Object.keys],
    [Object.entries], [for ... in]): the array-index names first, ascending,
    then the others in the order in which they were created. *)
Definition ownKeys {A} (o : Obj.t A) : list string := map fst (Obj.entries o).

(** The order in which names are enumerated once they are the keys of an
    object that got them in the order of the list. *)
Definition enumerationOf (names : list string) : list string :=
  ownKeys (map (fun name => (name, tt)) names).

(** The include and exclude lists the engine hands to the column filter. *)
Definition includedOf (tr : Transformations) : list string :=
  match includeColumns tr with Some l => l | None => [] end.

Definition excludedOf (tr : Transformations) : list string :=
  match excludeColumns tr with Some l => l | None => [] end.

(** The column is taken out by the configured filter: it is excluded, or there
    is an include list and the column is not on it. *)
Definition filteredOut (tr : Transformations) (column : string) : bool :=
  str_in (excludedOf tr) column
  || (match includedOf tr with [] => false | _ => true end
      && negb (str_in (includedOf tr) column)).

(** The aggregator after it has processed the rows, in order. *)
Definition aggregated {R : Runtime} (agg : Aggregator.t) (headers : list string)
    (rows : list Row) : Aggregator.t :=
  fold_left (fun a row => Aggregator.process a row headers) rows agg.

(** The rows in which the column is missing, [null] or the empty string. *)
Definition nullsIn (header : string) (rows : list Row) : list Row :=
  filter (fun row => Aggregator.isNullish (field row header)) rows.

(** The statistics kept for a column, the initial ones when there are none. *)
Definition statOf (stats : Obj.t Aggregator.ColumnStat) (header : string)
  : Aggregator.ColumnStat :=
  match Obj.get stats header with
  | Some s => s
  | None => Aggregator.emptyStat
  end.

(** What the statistics of a column hold after [n] values, [k] of them null. *)
Definition counted (s : Aggregator.ColumnStat) (n k : Z) : Prop :=
  Aggregator.count s = n /\ Aggregator.nullCount s = k /\ 0 <= k <= n
  /\ Z.of_nat (length (Aggregator.uniqueValues s)) <= n - k
  /\ Z.of_nat (length (Aggregator.numericValues s)) <= n - k
  /\ 0 <= Aggregator.maxLength s
  /\ (k < n -> exists m, Aggregator.minLength s = Some m /\ 0 <= m <= Aggregator.maxLength s)
  /\ (n <= k -> Aggregator.minLength s = None).

(** A string rewritten one character at a time. *)
Fixpoint charwise (f : ascii -> string) (s : string) : string :=
  match s with
  | EmptyString => EmptyString
  | String c s' => f c ++ charwise f s'
  end.

(** What the engine's XML escaping writes for a character. *)
Definition xmlChar (c : ascii) : string :=
  if Ascii.eqb c "&" then "&amp;"
  else if Ascii.eqb c "<" then "&lt;"
  else if Ascii.eqb c ">" then "&gt;"
  else if Ascii.eqb c Str.dquote then "&quot;"
  else if Ascii.eqb c "'" then "&apos;"
  else Str.chr c.

(** What the tab-format escaping writes for a character. *)
Definition tsvChar (c : ascii) : string :=
  if Ascii.eqb c Str.TAB then String Str.backslash "t"
  else if Ascii.eqb c Str.LF then String Str.backslash "n"
  else if Ascii.eqb c Str.CR then String Str.backslash "r"
  else Str.chr c.

(** ** A reader of XML character data

    The reference the engine's XML escaping is checked against: each of the
    five predefined entities stands for its character, any other text for
    itself. *)

Module XMLText.

(** [skip] characters of an entity just read are still to be passed over. *)
Fixpoint unescapeFrom (skip : nat) (s : string) : string :=
  match s with
  | EmptyString => EmptyString
  | String c s' =>
      match skip with
      | S k => unescapeFrom k s'
      | O =>
          if Ascii.eqb c "&" then
            if AsciiRuntime.startsWith "amp;" s' then String "&" (unescapeFrom 4 s')
            else if AsciiRuntime.startsWith "lt;" s' then String "<" (unescapeFrom 3 s')
            else if AsciiRuntime.startsWith "gt;" s' then String ">" (unescapeFrom 3 s')
            else if AsciiRuntime.startsWith "quot;" s' then
              String Str.dquote (unescapeFrom 5 s')
            else if AsciiRuntime.startsWith "apos;" s' then String "'" (unescapeFrom 5 s')
            else String c (unescapeFrom 0 s')
          else String c (unescapeFrom 0 s')
      end
  end.

Definition unescape (s : string) : string := unescapeFrom 0 s.

End XMLText.

(** The byte ranges are non-empty and consecutive, and run from [start] to the
    byte before [stop]. *)
Fixpoint tiles (start stop : Z) (chunks : list (Z * Z)) : bool :=
  match chunks with
  | [] => stop <=? start
  | (s, e) :: rest => (s =? start) && (s <=? e) && (e <? stop) && tiles (e + 1) stop rest
  end.

(** The chunk size [createFileChunks] computes. *)
Definition chunkSizeOf (self : CSVParser.t) (fileSize : Z) : Z :=
  Z.min (CSVParser.chunkSizeBytes self) (- ((- fileSize) / CSVParser.processCount self)).

(** Every byte is below 128: the text is ASCII. *)
Fixpoint sevenBit (s : string) : bool :=
  match s with
  | EmptyString => true
  | String c s' => (N_of_ascii c <? 128)%N && sevenBit s'
  end.

(** The text a worker reads for a byte range: the bytes of the range, which
    for an ASCII source is the text its read stream decodes from them. *)
Definition bufferOf (bytes : string) (chunk : Z * Z) : string :=
  substring (Z.to_nat (fst chunk)) (Z.to_nat (snd chunk - fst chunk + 1)) bytes.

(** *** The layout of a worker's files

    What a worker of parallel mode hands to the write streams of its files,
    and what it reports. *)

Section WorkerLayout.
Context {R : Runtime}.
Variable timestamp : string.
Variable wd : WorkerData.
Variable index : Z.

(** The name a worker gives its file number [k]. *)
Definition workerFileName (k : Z) : string :=
  "split_part_" ++ decimal index ++ "_" ++ decimal k ++ "_" ++ timestamp ++ ".csv".

(** The names of [n] files, numbered from [k]. *)
Fixpoint workerFileNames (k : Z) (n : nat) : list string :=
  match n with
  | O => []
  | S n' => workerFileName k :: workerFileNames (k + 1) n'
  end.

(** The text a worker's new file starts with. *)
Definition workerOpening : string :=
  if String.eqb (wd_outputFormat wd) "csv" && (0 <? Z.of_nat (length (wd_headers wd)))
  then Str.join "," (wd_headers wd) ++ nl
  else "".

(** The text a worker writes for a row. *)
Definition workerRowText (row : Row) : string :=
  if String.eqb (wd_outputFormat wd) "csv" then
    Str.join ","
      (map (fun header => Worker.escapeCSVValue (or_else (field row header) (VString "")))
         (wd_headers wd)) ++ nl
  else if String.eqb (wd_outputFormat wd) "json" then JSON.stringify row ++ nl
  else "".

Definition workerBody (rows : list Row) : string :=
  concatText (map workerRowText rows).

(** What becomes of a line: nothing when it is blank, otherwise the outcome of
    the transformations on the row parsed from it. *)
Definition lineOutcome (rawLine : string) : option (outcome (option Row)) :=
  let line := Str.trim rawLine in
  if Str.isEmptyString line then None
  else Some (Worker.applyTransformations wd (Worker.parseLine wd line)).

(** The rows a worker writes for the lines, in order. *)
Fixpoint workerRows (lines : list string) : list Row :=
  match lines with
  | [] => []
  | line :: rest =>
      match lineOutcome line with
      | Some (Ret (Some row)) => row :: workerRows rest
      | _ => workerRows rest
      end
  end.

(** The errors a worker records for the lines, the first of which is line [i]. *)
Fixpoint workerErrors (i : Z) (lines : list string) : list string :=
  match lines with
  | [] => []
  | line :: rest =>
      match lineOutcome line with
      | Some (Throw message) =>
          ("Error processing line " ++ decimal i ++ ": " ++ message)
            :: workerErrors (i + 1) rest
      | _ => workerErrors (i + 1) rest
      end
  end.

(** The write stream of a worker's file number [k] once it is ended, [rows]
    having been written to it. *)
Definition workerFile (k : Z) (rows : list Row) : Stream :=
  {| path := pathJoin (wd_outputDirectory wd) (workerFileName k);
     content := workerOpening ++ workerBody rows;
     ended := true;
     records := Z.of_nat (length rows) |}.

Fixpoint workerFiles (k : Z) (groups : list (list Row)) : list Stream :=
  match groups with
  | [] => []
  | g :: rest => workerFile k g :: workerFiles (k + 1) rest
  end.

(** A worker in the middle of its loop: what it has to report so far, the next
    file index, the rows in the open file, and the streams, the last of which
    is the open file. *)
Definition working (res : PartitionResult) (next count : Z) (d : list string)
    (pre : list Stream) (p c : string) : Worker.State :=
  {| Worker.results := res;
     Worker.currentFileIndex := next;
     Worker.currentRowCount := count;
     Worker.currentOutputStream := Some (length pre);
     Worker.world := {| directories := d; streams := pre ++ [openFile p c] |} |}.

(** The lines a worker's loop runs over, and the index of the first. *)
Definition firstIndex (startByte : Z) : nat := if startByte =? 0 then 1%nat else 0%nat.

Definition loopLines (startByte : Z) (buffer : string) : list string :=
  skipn (firstIndex startByte) (Str.split Str.LF buffer).

(** The loop passes over the line: it is empty once trimmed. *)
Definition blankLine (rawLine : string) : bool := Str.isEmptyString (Str.trim rawLine).

(** A line of plain cells, one for each header: no cell holds a comma, a
    double quote, a line feed or a carriage return. *)
Definition plainLine (line : string) : Prop :=
  exists cells,
    line = Str.join "," cells
    /\ length cells = length (wd_headers wd)
    /\ Forall (fun cell => special cell = false) cells.

(** The comma-separated cells the worker writes for a row, without the line
    feed. *)
Definition workerCells (row : Row) : string :=
  Str.join ","
    (map (fun header => Worker.escapeCSVValue (or_else (field row header) (VString "")))
       (wd_headers wd)).

End WorkerLayout.

(** The [n] integers from [k] on. *)
Fixpoint countFrom (k : Z) (n : nat) : list Z :=
  match n with
  | O => []
  | S n' => k :: countFrom (k + 1) n'
  end.




(** *** What the formatter classes produce for a file

    The header call, a row call per row and, where the class has one, the
    footer call, on a stream that starts empty. *)

Definition csvFormatterFile {R : Runtime} (rows : list Row) (headers : list string)
  : string :=
  fold_left (fun stream row => CSVFormatter.writeRow stream row headers) rows
    (CSVFormatter.writeHeader "" headers).

Definition tsvFormatterFile {R : Runtime} (rows : list Row) (headers : list string)
  : string :=
  fold_left (fun stream row => TSVFormatter.writeRow stream row headers) rows
    (TSVFormatter.writeHeader "" headers).

Definition parquetFormatterFile {R : Runtime} (self : ParquetFormatter.t) (rows : list Row)
    (headers : list string) : ParquetFormatter.t * string :=
  let start := ParquetFormatter.writeHeader self "" headers in
  let written :=
    fold_left
      (fun (acc : ParquetFormatter.t * string) row =>
         ParquetFormatter.writeRow (fst acc) (snd acc) row headers)
      rows start in
  ParquetFormatter.writeFooter (fst written) (snd written).

(** The line [writeBatch] writes for a batch of rows. *)
Definition parquetBatch {R : Runtime} (headers : list string) (rows : list Row) : string :=
  ("{" ++ Str.join ","
            [JSON.quote "schema" ++ ":" ++ JSON.stringifyStrings headers;
             JSON.quote "data" ++ ":" ++ JSON.stringifyRows rows] ++ "}") ++ nl.

(** The batches a row buffer of the given size makes of the rows: the full
    ones, and what is left at the end if anything is. *)
Definition batchesOf (size : Z) (rows : list Row) : list (list Row) :=
  (fst (groups size [] rows)
   ++ match snd (groups size [] rows) with
      | [] => []
      | last => [last]
      end)%list.

(** The worker data with another exclude list in its transformations. *)
Definition withExcluded (wd : WorkerData) (excluded : option (list string)) : WorkerData :=
  {| wd_inputFilePath := wd_inputFilePath wd;
     wd_outputDirectory := wd_outputDirectory wd;
     wd_headers := wd_headers wd;
     wd_maxRowsPerFile := wd_maxRowsPerFile wd;
     wd_outputFormat := wd_outputFormat wd;
     wd_transformations :=
       match wd_transformations wd with
       | Some tr =>
           Some {| includeColumns := includeColumns tr;
                   excludeColumns := excluded;
                   typeConversions := typeConversions tr;
                   validation := validation tr |}
       | None => None
       end |}.

(* ================================================================== *)
(** * Part II: the properties *)
(* ================================================================== *)

(** ** Strings *)

Lemma append_nil_r (s : string) : s ++ "" = s.
Proof. induction s as [|c s IH]; simpl; [reflexivity | now rewrite IH]. Qed.

Lemma append_assoc (a b c : string) : (a ++ b) ++ c = a ++ (b ++ c).
Proof. induction a as [|x a IH]; simpl; [reflexivity | now rewrite IH]. Qed.

Lemma append_chr (a : string) (c : ascii) (b : string) :
  (a ++ Str.chr c) ++ b = a ++ String c b.
Proof. now rewrite append_assoc. Qed.

Lemma join_one (sep x : string) : Str.join sep [x] = x.
Proof. reflexivity. Qed.

Lemma join_cons (sep x y : string) (l : list string) :
  Str.join sep (x :: y :: l) = x ++ sep ++ Str.join sep (y :: l).
Proof. reflexivity. Qed.

(** ** The comma writer and the reader *)

Section CommaFormat.
Context {R : Runtime}.

Import CSVReader.

Lemma special_cons (c : ascii) (s : string) :
  special (String c s) = false ->
  Ascii.eqb c Str.comma = false /\ Ascii.eqb c Str.dquote = false
  /\ Ascii.eqb c Str.LF = false /\ Ascii.eqb c Str.CR = false
  /\ special s = false.
Proof.
  unfold special; simpl.
  destruct (Ascii.eqb c Str.comma), (Ascii.eqb c Str.dquote),
    (Ascii.eqb c Str.LF), (Ascii.eqb c Str.CR); simpl;
    try discriminate; rewrite ?orb_true_r; try discriminate; auto.
Qed.

Lemma scan_close (m : mode) (sep : ascii) fld rec out rest :
  m <> Quoted -> sep = Str.comma \/ sep = Str.LF ->
  scan m fld rec out (String sep rest) = close sep fld rec out rest.
Proof.
  intros Hm [-> | ->]; unfold close; destruct m; simpl; congruence.
Qed.

Lemma scan_bare (s : string) :
  special s = false ->
  forall m sep fld rec out rest,
    m = FieldStart \/ m = Bare -> sep = Str.comma \/ sep = Str.LF ->
    scan m fld rec out (s ++ String sep rest) = close sep (fld ++ s) rec out rest.
Proof.
  induction s as [|c s IH]; intros Hs m sep fld rec out rest Hm Hsep.
  - simpl. rewrite append_nil_r. apply scan_close; [|assumption].
    destruct Hm; subst; discriminate.
  - destruct (special_cons _ _ Hs) as (Hc & Hq & Hl & Hr & Hs').
    assert (Hstep : scan m fld rec out (String c (s ++ String sep rest))
                    = scan Bare (fld ++ Str.chr c) rec out (s ++ String sep rest)).
    { destruct Hm; subst m; simpl; rewrite Hc, Hq, Hl, Hr; reflexivity. }
    change (String c s ++ String sep rest) with (String c (s ++ String sep rest)).
    rewrite Hstep, (IH Hs' Bare sep (fld ++ Str.chr c) rec out rest); auto.
    now rewrite append_chr.
Qed.

Lemma scan_quoted (s : string) :
  forall fld rec out rest,
    scan Quoted fld rec out
      (Str.replaceAll Str.dquote (dq ++ dq) s ++ String Str.dquote rest)
    = scan AfterQuote (fld ++ s) rec out rest.
Proof.
  induction s as [|c s IH]; intros fld rec out rest.
  - simpl. now rewrite append_nil_r.
  - simpl. destruct (Ascii.eqb c Str.dquote) eqn:Hc.
    + apply Ascii.eqb_eq in Hc; subst c. simpl.
      rewrite IH. unfold dq. now rewrite append_chr.
    + simpl. rewrite Hc, IH. now rewrite append_chr.
Qed.

(** Reading back one written field, whatever follows its separator. *)
Lemma scan_written_field (s : string) sep rec out rest :
  sep = Str.comma \/ sep = Str.LF ->
  scan FieldStart "" rec out
    (CSVFormatter.escapeCSVValue (VString s) ++ String sep rest)
  = close sep s rec out rest.
Proof.
  intros Hsep. unfold CSVFormatter.escapeCSVValue; simpl toString.
  fold (special s). destruct (special s) eqn:Hs.
  - unfold dq, Str.chr. simpl.
    rewrite append_assoc. simpl. rewrite scan_quoted.
    cbn [append]. apply scan_close; [discriminate | assumption].
  - now rewrite scan_bare by auto.
Qed.

Lemma read_written_record (vs : list string) :
  forall v rec out,
    scan FieldStart "" rec out
      (Str.join "," (map (fun s => CSVFormatter.escapeCSVValue (VString s)) (v :: vs)) ++ nl)
    = (out ++ [(rec ++ v :: vs)%list])%list.
Proof.
  induction vs as [|v' vs IH]; intros v rec out.
  - cbn [map]. rewrite join_one. unfold nl, Str.chr.
    rewrite scan_written_field by auto.
    unfold close. reflexivity.
  - cbn [map]. rewrite join_cons, !append_assoc.
    change ("," ++ ?x) with (String Str.comma x).
    rewrite scan_written_field by auto. unfold close.
    rewrite Ascii.eqb_refl.
    cbn [map] in IH. rewrite IH. now rewrite <- app_assoc.
Qed.

Lemma field_textRow (columns : Obj.t string) (column : string) :
  or_else (field (textRow columns) column) (VString "") = VString (textOf columns column).
Proof.
  unfold field, textOf.
  induction columns as [|[k s] columns IH]; simpl; [reflexivity|].
  destruct (String.eqb k column); [|exact IH].
  unfold or_else; simpl. now destruct s.
Qed.

Lemma rowValues_textRow (columns : Obj.t string) (hs : list string) :
  CSVFormatter.rowValues (textRow columns) hs
  = map (fun s => CSVFormatter.escapeCSVValue (VString s)) (map (textOf columns) hs).
Proof.
  unfold CSVFormatter.rowValues. rewrite map_map.
  apply map_ext; intros h. now rewrite field_textRow.
Qed.

(** C7. The comma writer quotes a text value, doubling its double quotes,
    exactly when it holds a comma, a double quote, LF or CR; a written row of
    text values is read back by the RFC 4180 reader as those very values; and
    the value [He said "hi", then left] followed by a newline comes back
    unchanged. *)
Theorem comma_writer_round_trip :
  (forall s : string,
      CSVFormatter.escapeCSVValue (VString s)
      = if Str.includes Str.comma s || Str.includes Str.dquote s
           || Str.includes Str.LF s || Str.includes Str.CR s
        then dq ++ Str.replaceAll Str.dquote (dq ++ dq) s ++ dq
        else s)
  /\ (forall (columns : Obj.t string) (h : string) (hs : list string),
         CSVReader.read (CSVFormatter.writeRow "" (textRow columns) (h :: hs))
         = [map (textOf columns) (h :: hs)])
  /\ (let said := "He said " ++ dq ++ "hi" ++ dq ++ ", then left" ++ nl in
      CSVReader.read (CSVFormatter.writeRow "" (textRow [("quote", said)]) ["quote"])
      = [[said]]).
Proof.
  assert (Hrow : forall (columns : Obj.t string) (h : string) (hs : list string),
             CSVReader.read (CSVFormatter.writeRow "" (textRow columns) (h :: hs))
             = [map (textOf columns) (h :: hs)]).
  { intros columns h hs. unfold CSVReader.read, CSVFormatter.writeRow.
    rewrite rowValues_textRow. cbn [append map].
    exact (read_written_record (map (textOf columns) hs) (textOf columns h) [] []). }
  split; [reflexivity|]. split; [exact Hrow|].
  intro said. exact (Hrow [("quote", said)] "quote" []).
Qed.

End CommaFormat.

(** ** Falsy fields in the delimited-text writers *)

Section FalsyFields.
Context {R : Runtime}.

Lemma or_else_falsy (v : value) :
  falsy v = true -> or_else v (VString "") = VString "".
Proof. unfold falsy, or_else. now destruct (truthy v). Qed.

Lemma rowValues_csv_at (row : Row) (before after : list string) (header : string) :
  falsy (field row header) = true ->
  CSVFormatter.rowValues row (before ++ header :: after)
  = (CSVFormatter.rowValues row before ++ "" :: CSVFormatter.rowValues row after)%list.
Proof.
  intros H. unfold CSVFormatter.rowValues. rewrite map_app. cbn [map].
  now rewrite (or_else_falsy _ H).
Qed.

Lemma rowValues_tsv_at (row : Row) (before after : list string) (header : string) :
  falsy (field row header) = true ->
  TSVFormatter.rowValues row (before ++ header :: after)
  = (TSVFormatter.rowValues row before ++ "" :: TSVFormatter.rowValues row after)%list.
Proof.
  intros H. unfold TSVFormatter.rowValues. rewrite map_app. cbn [map].
  now rewrite (or_else_falsy _ H).
Qed.

(** What [writeRowSync] does to the world in the comma and tab formats. *)
Lemma writeRowSync_csv (self : CSVParser.t) (w : World) (row : Row) (h : nat) :
  CSVParser.outputFormat self = "csv" ->
  CSVParser.currentOutputStream self = Some h ->
  CSVParser.writeRowSync row (self, w)
  = ((self,
      {| directories := directories w;
         streams :=
           updateNth h
             (streamWrite
                (Str.join "," (CSVFormatter.rowValues row (CSVParser.outputHeaders self)) ++ nl))
             (streams w) |}),
     Ret tt).
Proof.
  intros Hf Hs. unfold CSVParser.writeRowSync, CSVParser.andThen, CSVParser.this.
  cbn [fst snd]. rewrite Hf. cbn [String.eqb Ascii.eqb Bool.eqb].
  unfold CSVParser.write, CSVParser.andThen, CSVParser.this. cbn [fst snd].
  rewrite Hs. reflexivity.
Qed.

Lemma writeRowSync_tsv (self : CSVParser.t) (w : World) (row : Row) (h : nat) :
  CSVParser.outputFormat self = "tsv" ->
  CSVParser.currentOutputStream self = Some h ->
  CSVParser.writeRowSync row (self, w)
  = ((self,
      {| directories := directories w;
         streams :=
           updateNth h
             (streamWrite
                (Str.join tab (TSVFormatter.rowValues row (CSVParser.outputHeaders self)) ++ nl))
             (streams w) |}),
     Ret tt).
Proof.
  intros Hf Hs. unfold CSVParser.writeRowSync, CSVParser.andThen, CSVParser.this.
  cbn [fst snd]. rewrite Hf. cbn [String.eqb Ascii.eqb Bool.eqb orb].
  unfold CSVParser.write, CSVParser.andThen, CSVParser.this. cbn [fst snd].
  rewrite Hs. reflexivity.
Qed.

End FalsyFields.

Section FalsyFieldsClaim.
Context {R : Runtime}.

Lemma get_set_same {A} (o : Obj.t A) (k : string) (v : A) :
  Obj.get (Obj.set o k v) k = Some v.
Proof.
  induction o as [|[k' v'] o IH]; simpl.
  - now rewrite String.eqb_refl.
  - destruct (String.eqb k' k) eqn:E; simpl; rewrite E; [reflexivity | exact IH].
Qed.

Lemma entries_one {A} (k : string) (v : A) : Obj.entries [(k, v)] = [(k, v)].
Proof. unfold Obj.entries. simpl. now destruct (Obj.arrayIndex k). Qed.

(** A present field that [parseFloat] reads as 0 or NaN becomes the number 0. *)
Lemma convert_number_zero (row : Row) (column : string) (hs : list string) :
  DataTypeConverter.present (field row column) = true ->
  Num.truthy (parseFloat (toString (field row column))) = false ->
  field (DataTypeConverter.transform [(column, "number")] row hs) column = VNumber 0%float.
Proof.
  intros Hp Hz. unfold DataTypeConverter.transform, spread. rewrite entries_one.
  cbn [fold_left DataTypeConverter.convertColumn]. rewrite Hp.
  unfold DataTypeConverter.convert. cbn. rewrite Hz.
  unfold field, spread. now rewrite get_set_same.
Qed.

End FalsyFieldsClaim.

(** C9. In the comma and tab formats a field whose value is falsy (the number 0,
    [false], [null], [undefined], the empty string) is written as the empty
    string, by the formatter classes and by the engine's synchronous writer
    alike; a field the type converter turned into the number 0 is therefore
    written empty. *)
Theorem falsy_field_is_written_empty
    (R : Runtime) (row : Row) (before after : list string) (header : string) :
  falsy (field row header) = true ->
  (forall stream,
      CSVFormatter.writeRow stream row (before ++ header :: after)
      = stream ++ (Str.join ","
                     (CSVFormatter.rowValues row before ++ "" :: CSVFormatter.rowValues row after)
                   ++ nl))
  /\ (forall stream,
         TSVFormatter.writeRow stream row (before ++ header :: after)
         = stream ++ (Str.join tab
                        (TSVFormatter.rowValues row before ++ "" :: TSVFormatter.rowValues row after)
                      ++ nl))
  /\ (forall self w h,
         CSVParser.currentOutputStream self = Some h ->
         CSVParser.outputHeaders self = (before ++ header :: after)%list ->
         (CSVParser.outputFormat self = "csv" ->
          CSVParser.writeRowSync row (self, w)
          = ((self,
              {| directories := directories w;
                 streams :=
                   updateNth h
                     (streamWrite
                        (Str.join ","
                           (CSVFormatter.rowValues row before
                            ++ "" :: CSVFormatter.rowValues row after) ++ nl))
                     (streams w) |}), Ret tt))
         /\ (CSVParser.outputFormat self = "tsv" ->
             CSVParser.writeRowSync row (self, w)
             = ((self,
                 {| directories := directories w;
                    streams :=
                      updateNth h
                        (streamWrite
                           (Str.join tab
                              (TSVFormatter.rowValues row before
                               ++ "" :: TSVFormatter.rowValues row after) ++ nl))
                        (streams w) |}), Ret tt)))
  /\ (falsy (VNumber 0%float) = true /\ falsy (VBool false) = true /\ falsy VNull = true
      /\ falsy VUndefined = true /\ falsy (VString "") = true)
  /\ (forall (r : Row) (column : string) (hs : list string),
         DataTypeConverter.present (field r column) = true ->
         Num.truthy (parseFloat (toString (field r column))) = false ->
         falsy (field (DataTypeConverter.transform [(column, "number")] r hs) column) = true).
Proof.
  intros H. split; [|split; [|split; [|split]]].
  - intros stream. unfold CSVFormatter.writeRow. now rewrite rowValues_csv_at.
  - intros stream. unfold TSVFormatter.writeRow. now rewrite rowValues_tsv_at.
  - intros self w h Hopen Houts. split; intros Hf.
    + rewrite (writeRowSync_csv self w row h Hf Hopen), Houts.
      now rewrite rowValues_csv_at.
    + rewrite (writeRowSync_tsv self w row h Hf Hopen), Houts.
      now rewrite rowValues_tsv_at.
  - repeat split; reflexivity.
  - intros r column hs Hp Hz. now rewrite convert_number_zero.
Qed.

(** The converted age 0 of a row is written as an empty field. *)
Lemma falsy_field_is_written_empty_witness :
  let row := DataTypeConverter.transform [("age", "number")]
               (textRow [("name", "Al"); ("age", "0")]) ["name"; "age"] in
  falsy (field row "age") = true
  /\ CSVFormatter.writeRow "" row ["name"; "age"] = "Al," ++ nl.
Proof.
  intro row.
  assert (H : falsy (field row "age") = true) by (vm_compute; reflexivity).
  split; [exact H|].
  destruct (falsy_field_is_written_empty asciiRuntime row ["name"] [] "age" H) as [Hcsv _].
  exact (Hcsv "").
Defined.

(** ** The transformation pipeline *)

Section Pipeline.
Context {R : Runtime}.
Import TransformationPipeline.

Lemma Chain_callees headers ts row calls final :
  Chain headers ts row calls final -> map callee calls = ts.
Proof. induction 1; simpl; [reflexivity | now f_equal]. Qed.

Lemma applyAll_chain headers ts row calls final :
  Chain headers ts row calls final ->
  applyAll ts row headers = (Some final, calls).
Proof.
  induction 1 as [row | t ts row row' final calls Ht _ IH]; simpl.
  - reflexivity.
  - now rewrite Ht, IH.
Qed.

Lemma applyAll_drop headers pre row calls mid :
  Chain headers pre row calls mid ->
  forall t post,
    transformWith t mid headers = None ->
    applyAll (pre ++ t :: post) row headers
    = (None, (calls ++ [{| callee := t; argument := mid |}])%list).
Proof.
  induction 1 as [row | t0 ts row row' final calls Ht _ IH]; intros t post Hnone; simpl.
  - now rewrite Hnone.
  - now rewrite Ht, (IH t post Hnone).
Qed.

(** Every run of the loop is of one of the two kinds. *)
Lemma applyAll_cases headers ts :
  forall row,
    (exists calls final, Chain headers ts row calls final)
    \/ (exists pre t post calls mid,
          ts = (pre ++ t :: post)%list /\ Chain headers pre row calls mid
          /\ transformWith t mid headers = None).
Proof.
  induction ts as [|t ts IH]; intros row.
  - left. exists [], row. constructor.
  - destruct (transformWith t row headers) as [row'|] eqn:Ht.
    + destruct (IH row') as [(calls & final & Hc) | (pre & t' & post & calls & mid & -> & Hc & Hn)].
      * left. eexists _, final. econstructor; eassumption.
      * right. exists (t :: pre), t', post. eexists _, mid.
        split; [reflexivity|]. split; [econstructor; eassumption | assumption].
    + right. exists [], t, ts, [], row. repeat split; [constructor | assumption].
Qed.

End Pipeline.

(** C4. The pipeline calls its transformers in order, each on the previous
    one's result.  When one of them returns [null], the pipeline returns [null]
    at once: the calls made end with that transformer, none of the later ones
    is called and the aggregator is left as it was.  When all return rows, the
    aggregator (if enabled) has processed the last row they returned, not the
    row handed in, and that last row is the result. *)
Theorem pipeline_transform_in_order_and_short_circuits
    (R : Runtime) (self : TransformationPipeline.t) (row : Row) (headers : list string) :
  (forall pre t post calls mid,
      TransformationPipeline.transformers self = (pre ++ t :: post)%list ->
      Chain headers pre row calls mid ->
      TransformationPipeline.transformWith t mid headers = None ->
      let made :=
        (calls ++ [{| TransformationPipeline.callee := t;
                      TransformationPipeline.argument := mid |}])%list in
      TransformationPipeline.transform self row headers = (None, self, made)
      /\ map TransformationPipeline.callee made = (pre ++ [t])%list)
  /\ (forall calls final,
         Chain headers (TransformationPipeline.transformers self) row calls final ->
         TransformationPipeline.transform self row headers
         = (Some final,
            {| TransformationPipeline.transformers := TransformationPipeline.transformers self;
               TransformationPipeline.aggregator :=
                 observed (TransformationPipeline.aggregator self) final headers |},
            calls)
         /\ map TransformationPipeline.callee calls = TransformationPipeline.transformers self)
  /\ ((exists calls final,
          Chain headers (TransformationPipeline.transformers self) row calls final)
      \/ (exists pre t post calls mid,
             TransformationPipeline.transformers self = (pre ++ t :: post)%list
             /\ Chain headers pre row calls mid
             /\ TransformationPipeline.transformWith t mid headers = None)).
Proof.
  split; [|split].
  - intros pre t post calls mid Hts Hc Hn made. split.
    + unfold TransformationPipeline.transform. rewrite Hts.
      now rewrite (applyAll_drop headers pre row calls mid Hc t post Hn).
    + unfold made. rewrite map_app, (Chain_callees _ _ _ _ _ Hc). reflexivity.
  - intros calls final Hc. split.
    + unfold TransformationPipeline.transform, observed.
      rewrite (applyAll_chain _ _ _ _ _ Hc).
      now destruct (TransformationPipeline.aggregator self).
    + exact (Chain_callees _ _ _ _ _ Hc).
  - apply applyAll_cases.
Qed.

(** Bob, 17, is dropped by the second transformer; the third and the aggregator
    are not reached. *)
Lemma pipeline_transform_witness :
  let filtered := textRow [("name", "Bob"); ("age", "17")] in
  let first := {| TransformationPipeline.callee := Sample.keepNameAge;
                  TransformationPipeline.argument := Sample.bob |} in
  let second := {| TransformationPipeline.callee := Sample.adultsOnly;
                   TransformationPipeline.argument := filtered |} in
  Chain Sample.headers [Sample.keepNameAge] Sample.bob [first] filtered
  /\ TransformationPipeline.transformWith Sample.adultsOnly filtered Sample.headers = None
  /\ TransformationPipeline.transform Sample.pipeline Sample.bob Sample.headers
     = (None, Sample.pipeline, [first; second]).
Proof.
  intros filtered first second.
  assert (Hc : Chain Sample.headers [Sample.keepNameAge] Sample.bob [first] filtered).
  { apply Chain_cons with (row' := filtered); [vm_compute; reflexivity | constructor]. }
  assert (Hn : TransformationPipeline.transformWith Sample.adultsOnly filtered Sample.headers
               = None) by (vm_compute; reflexivity).
  split; [exact Hc|]. split; [exact Hn|].
  destruct (pipeline_transform_in_order_and_short_circuits
              asciiRuntime Sample.pipeline Sample.bob Sample.headers) as [Hdrop _].
  exact (proj1 (Hdrop [Sample.keepNameAge] Sample.adultsOnly [Sample.ageAsNumber]
                  [first] filtered eq_refl Hc Hn)).
Defined.

(** Alice, 30, passes: the aggregator has counted the filtered, converted row. *)
Example pipeline_transform_alice :
  let '(result, after, calls) :=
    TransformationPipeline.transform Sample.pipeline Sample.alice Sample.headers in
  result = Some [("name", VString "Alice"); ("age", VNumber 30%float)]
  /\ length calls = 3%nat
  /\ option_map Aggregator.rowCount (TransformationPipeline.aggregator after) = Some 1
  /\ option_map (fun agg => map fst (Aggregator.stats agg))
       (TransformationPipeline.aggregator after) = Some ["id"; "name"; "age"]
  /\ option_map (fun agg => option_map Aggregator.nullCount (Obj.get (Aggregator.stats agg) "id"))
       (TransformationPipeline.aggregator after) = Some (Some 1).
Proof. vm_compute. repeat split; reflexivity. Qed.

(** ** The validator *)

Section Validator.
Context {R : Runtime}.
Import DataValidator.



Lemma validate_step (column : string) (rule : Rule) (rest : list (string * Rule))
    (row : Row) :
  validate ((column, rule) :: rest) row
  = if violated rule (field row column) then None else validate rest row.
Proof.
  unfold violated. cbn [validate]. cbv zeta.
  destruct (failsRequired rule (field row column)); [reflexivity|].
  destruct (failsType rule (field row column)); [reflexivity|].
  destruct (failsMinLength rule (field row column)); [reflexivity|].
  destruct (failsMaxLength rule (field row column)); [reflexivity|].
  destruct (failsPattern rule (field row column)); [reflexivity|].
  destruct (failsMin rule (field row column)); [reflexivity|].
  destruct (failsMax rule (field row column)); [reflexivity|].
  destruct (failsEnum rule (field row column)); reflexivity.
Qed.

Lemma validate_existsb (rules : list (string * Rule)) (row : Row) :
  validate rules row
  = if existsb (fun entry => violated (snd entry) (field row (fst entry))) rules
    then None else Some row.
Proof.
  induction rules as [|[column rule] rest IH].
  - reflexivity.
  - rewrite validate_step. cbn [existsb fst snd].
    destruct (violated rule (field row column)); [reflexivity | exact IH].
Qed.

Lemma str_in_In (l : list string) (s : string) : str_in l s = true <-> In s l.
Proof.
  unfold str_in. rewrite existsb_exists. split.
  - intros (x & Hx & He). apply String.eqb_eq in He. now subst.
  - intros H. exists s. split; [exact H | apply String.eqb_refl].
Qed.










End Validator.



(** A pattern that is no regular expression raises when it is reached, here
    on the first column, though the second column's [required] rule is
    violated; on a row whose first column is empty the pattern is not reached
    and the row is dropped. *)
Example validator_raises_on_a_bad_pattern :
  let bad := {| DataValidator.required := false; DataValidator.type := None;
                DataValidator.minLength := None; DataValidator.maxLength := None;
                DataValidator.pattern := Some "("; DataValidator.min := None;
                DataValidator.max := None; DataValidator.enum := None |} in
  let needed := {| DataValidator.required := true; DataValidator.type := None;
                   DataValidator.minLength := None; DataValidator.maxLength := None;
                   DataValidator.pattern := None; DataValidator.min := None;
                   DataValidator.max := None; DataValidator.enum := None |} in
  let rules := [("name", bad); ("email", needed)] in
  DataValidator.transformOrRaise rules Sample.alice Sample.headers
  = Throw "Invalid regular expression: /(/: Unterminated group"
  /\ DataValidator.transformOrRaise rules (textRow [("name", "")]) Sample.headers
     = Ret None.
Proof. split; vm_compute; reflexivity. Qed.

(** The specification's scenario: Alice (30) is kept, Bob (17) is dropped. *)
Example validator_scenario :
  DataValidator.transform [("age", Sample.adult)] Sample.alice Sample.headers
  = Some Sample.alice
  /\ DataValidator.transform [("age", Sample.adult)] Sample.bob Sample.headers = None.
Proof. split; vm_compute; reflexivity. Qed.

(** ** The sequential engine *)

Lemma updateNth_last {A} (f : A -> A) (pre : list A) (cur : A) :
  updateNth (length pre) f (pre ++ [cur]) = (pre ++ [f cur])%list.
Proof.
  unfold updateNth.
  rewrite firstn_app, firstn_all, Nat.sub_diag, app_nil_r.
  rewrite nth_error_app2, Nat.sub_diag by lia. cbn [nth_error].
  rewrite skipn_all2 by (rewrite length_app; simpl; lia).
  reflexivity.
Qed.

Lemma concatText_app (a b : list string) :
  concatText (a ++ b) = concatText a ++ concatText b.
Proof.
  induction a as [|x a IH]; simpl; [reflexivity|].
  now rewrite IH, append_assoc.
Qed.

Ltac eng_unfold :=
  unfold CSVParser.andThen, CSVParser.this, CSVParser.update, CSVParser.ret,
    CSVParser.inWorld, CSVParser.throw; cbn [fst snd].

Section Engine.
Context {R : Runtime}.
Variable env : Env.

Lemma write_open (self : CSVParser.t) (d : list string) (pre : list Stream)
    (p c : string) (e : bool) (r : Z) (text : string) :
  CSVParser.currentOutputStream self = Some (length pre) ->
  CSVParser.write text
    (self, {| directories := d;
              streams := pre ++ [{| path := p; content := c; ended := e; records := r |}] |})
  = ((self, {| directories := d;
               streams := pre ++ [{| path := p; content := c ++ text; ended := e;
                                     records := r |}] |}),
     Ret tt).
Proof.
  intros Hs. unfold CSVParser.write. eng_unfold. rewrite Hs. eng_unfold.
  cbn [directories streams]. now rewrite updateNth_last.
Qed.

Lemma endStream_open (self : CSVParser.t) (d : list string) (pre : list Stream)
    (p c : string) (e : bool) (r : Z) :
  CSVParser.currentOutputStream self = Some (length pre) ->
  CSVParser.endStream
    (self, {| directories := d;
              streams := pre ++ [{| path := p; content := c; ended := e; records := r |}] |})
  = ((self, {| directories := d;
               streams := pre ++ [{| path := p; content := c; ended := true;
                                     records := CSVParser.currentRowCount self |}] |}),
     Ret tt).
Proof.
  intros Hs. unfold CSVParser.endStream. eng_unfold. rewrite Hs. eng_unfold.
  cbn [directories streams]. now rewrite updateNth_last.
Qed.

Lemma writeHeaderSync_open (self : CSVParser.t) (d : list string) (pre : list Stream)
    (p c : string) (e : bool) (r : Z) :
  CSVParser.currentOutputStream self = Some (length pre) ->
  CSVParser.writeHeaderSync
    (self, {| directories := d;
              streams := pre ++ [{| path := p; content := c; ended := e; records := r |}] |})
  = ((self, {| directories := d;
               streams :=
                 pre ++ [{| path := p;
                            content := c ++ headerText (CSVParser.outputFormat self)
                                              (CSVParser.outputHeaders self);
                            ended := e; records := r |}] |}),
     Ret tt).
Proof.
  intros Hs. unfold CSVParser.writeHeaderSync, headerText.
  unfold CSVParser.andThen at 1. unfold CSVParser.this at 1. cbn [fst snd].
  destruct (String.eqb (CSVParser.outputFormat self) "csv");
    [now apply write_open|].
  destruct (String.eqb (CSVParser.outputFormat self) "json"
            || String.eqb (CSVParser.outputFormat self) "jsonl");
    [now rewrite append_nil_r|].
  destruct (String.eqb (CSVParser.outputFormat self) "xml");
    [now apply write_open|].
  destruct (String.eqb (CSVParser.outputFormat self) "tsv");
    [now apply write_open|].
  now rewrite append_nil_r.
Qed.

Lemma writeFooterSync_open (self : CSVParser.t) (d : list string) (pre : list Stream)
    (p c : string) (e : bool) (r : Z) :
  CSVParser.currentOutputStream self = Some (length pre) ->
  CSVParser.writeFooterSync
    (self, {| directories := d;
              streams := pre ++ [{| path := p; content := c; ended := e; records := r |}] |})
  = ((self, {| directories := d;
               streams :=
                 pre ++ [{| path := p;
                            content := c ++ footerText (CSVParser.outputFormat self);
                            ended := e; records := r |}] |}),
     Ret tt).
Proof.
  intros Hs. unfold CSVParser.writeFooterSync, footerText.
  unfold CSVParser.andThen at 1. unfold CSVParser.this at 1. cbn [fst snd].
  destruct (String.eqb (CSVParser.outputFormat self) "xml");
    [now apply write_open | now rewrite append_nil_r].
Qed.

Lemma writeCells_open (self : CSVParser.t) (d : list string) (pre : list Stream)
    (p : string) (e : bool) (r : Z) (row : Row) (hs : list string) :
  CSVParser.currentOutputStream self = Some (length pre) ->
  forall c,
    CSVParser.forEach hs (fun header => CSVParser.write (xmlCell row header))
      (self, {| directories := d;
                streams := pre ++ [{| path := p; content := c; ended := e; records := r |}] |})
    = ((self, {| directories := d;
                 streams :=
                   pre ++ [{| path := p; content := c ++ concatText (map (xmlCell row) hs);
                              ended := e; records := r |}] |}),
       Ret tt).
Proof.
  intros Hs. induction hs as [|h hs IH]; intros c.
  - cbn. now rewrite append_nil_r.
  - cbn [CSVParser.forEach map concatText fold_right].
    unfold CSVParser.andThen at 1. rewrite write_open by assumption.
    rewrite IH. now rewrite append_assoc.
Qed.

Lemma writeRowSync_open (self : CSVParser.t) (d : list string) (pre : list Stream)
    (p c : string) (e : bool) (r : Z) (row : Row) :
  CSVParser.currentOutputStream self = Some (length pre) ->
  CSVParser.writeRowSync row
    (self, {| directories := d;
              streams := pre ++ [{| path := p; content := c; ended := e; records := r |}] |})
  = ((self, {| directories := d;
               streams :=
                 pre ++ [{| path := p;
                            content := c ++ rowText (CSVParser.outputFormat self)
                                              (CSVParser.outputHeaders self) row;
                            ended := e; records := r |}] |}),
     Ret tt).
Proof.
  intros Hs. unfold CSVParser.writeRowSync, rowText.
  unfold CSVParser.andThen at 1. unfold CSVParser.this at 1. cbn [fst snd].
  destruct (String.eqb (CSVParser.outputFormat self) "csv");
    [now apply write_open|].
  destruct (String.eqb (CSVParser.outputFormat self) "json"
            || String.eqb (CSVParser.outputFormat self) "jsonl");
    [now apply write_open|].
  destruct (String.eqb (CSVParser.outputFormat self) "xml").
  { unfold CSVParser.andThen. rewrite write_open by assumption.
    change (fun header : string =>
              CSVParser.write
                ("    <" ++ header ++ ">"
                 ++ CSVParser.escapeXMLValue (or_else (field row header) (VString ""))
                 ++ "</" ++ header ++ ">" ++ nl))
      with (fun header : string => CSVParser.write (xmlCell row header)).
    rewrite writeCells_open by assumption.
    rewrite write_open by assumption.
    now rewrite !append_assoc. }
  destruct (String.eqb (CSVParser.outputFormat self) "tsv");
    [now apply write_open|].
  now rewrite append_nil_r.
Qed.

Lemma createNewOutputStreamSync_first (self : CSVParser.t) (w : World) (f : Formatter) :
  CSVParser.currentOutputStream self = None ->
  CSVParser.formatter self = Some f ->
  CSVParser.createNewOutputStreamSync env (self, w)
  = ((running self (CSVParser.currentFileIndex self + 1) 0
        (CSVParser.totalRowsProcessed self) (length (streams w))
        (CSVParser.transformationPipeline self),
      {| directories := directories w;
         streams :=
           streams w
           ++ [openFile (nextPath (today env) self f)
                 (openingText (CSVParser.outputFormat self) (CSVParser.outputHeaders self))] |}),
     Ret tt).
Proof.
  intros Hs Hf. unfold CSVParser.createNewOutputStreamSync.
  unfold CSVParser.andThen at 1. unfold CSVParser.this at 1. cbn [fst snd].
  rewrite Hs. unfold CSVParser.andThen at 1. unfold CSVParser.ret at 1.
  unfold CSVParser.andThen at 1. unfold CSVParser.this at 1. cbn [fst snd].
  rewrite Hf.
  unfold CSVParser.andThen at 1. unfold CSVParser.createWriteStream at 1. cbn [fst snd].
  unfold CSVParser.andThen at 1. unfold CSVParser.update at 1. cbn [fst snd].
  unfold CSVParser.andThen at 1. unfold openingText, nextPath, filePath, openFile.
  destruct (0 <? Z.of_nat (length (CSVParser.outputHeaders self))).
  - rewrite writeHeaderSync_open by reflexivity. eng_unfold. reflexivity.
  - eng_unfold. reflexivity.
Qed.

Lemma createNewOutputStreamSync_open (self : CSVParser.t) (d : list string)
    (pre : list Stream) (p c : string) (r : Z) (f : Formatter) :
  CSVParser.currentOutputStream self = Some (length pre) ->
  CSVParser.formatter self = Some f ->
  let closed :=
    {| path := p; content := c ++ footerText (CSVParser.outputFormat self);
       ended := true; records := CSVParser.currentRowCount self |} in
  CSVParser.createNewOutputStreamSync env
    (self, {| directories := d;
              streams := pre ++ [{| path := p; content := c; ended := false;
                                    records := r |}] |})
  = ((running self (CSVParser.currentFileIndex self + 1) 0
        (CSVParser.totalRowsProcessed self) (length (pre ++ [closed]))
        (CSVParser.transformationPipeline self),
      {| directories := d;
         streams :=
           (pre ++ [closed])
           ++ [openFile (nextPath (today env) self f)
                 (openingText (CSVParser.outputFormat self) (CSVParser.outputHeaders self))] |}),
     Ret tt).
Proof.
  intros Hs Hf closed. unfold CSVParser.createNewOutputStreamSync.
  unfold CSVParser.andThen at 1. unfold CSVParser.this at 1. cbn [fst snd].
  rewrite Hs. unfold CSVParser.andThen at 1. unfold CSVParser.andThen at 1.
  rewrite writeFooterSync_open by assumption.
  rewrite endStream_open by assumption.
  unfold CSVParser.andThen at 1. unfold CSVParser.this at 1. cbn [fst snd].
  rewrite Hf.
  unfold CSVParser.andThen at 1. unfold CSVParser.createWriteStream at 1.
  cbn [fst snd directories streams].
  unfold CSVParser.andThen at 1. unfold CSVParser.update at 1. cbn [fst snd].
  unfold CSVParser.andThen at 1. unfold openingText, nextPath, filePath, openFile.
  fold closed.
  destruct (0 <? Z.of_nat (length (CSVParser.outputHeaders self))).
  - rewrite writeHeaderSync_open by reflexivity. eng_unfold. reflexivity.
  - eng_unfold. reflexivity.
Qed.

Lemma transform_parts (p : TransformationPipeline.t) (row : Row) (hs : list string) :
  exists calls,
    TransformationPipeline.transform p row hs
    = (delivered (Some p) hs row,
       snd (fst (TransformationPipeline.transform p row hs)), calls)
    /\ TransformationPipeline.transformers
         (snd (fst (TransformationPipeline.transform p row hs)))
       = TransformationPipeline.transformers p.
Proof.
  unfold delivered, TransformationPipeline.transform.
  destruct (TransformationPipeline.applyAll (TransformationPipeline.transformers p) row hs)
    as [[r|] calls]; exists calls; split; reflexivity.
Qed.

Lemma delivered_same_transformers (p q : option TransformationPipeline.t) hs row :
  option_map TransformationPipeline.transformers p
  = option_map TransformationPipeline.transformers q ->
  delivered p hs row = delivered q hs row.
Proof.
  destruct p as [p|], q as [q|]; simpl; intros H; try discriminate; [|reflexivity].
  now injection H as ->.
Qed.

Lemma advance_one_transformers (pl : option TransformationPipeline.t) hs row :
  option_map TransformationPipeline.transformers (advance pl hs [row])
  = option_map TransformationPipeline.transformers pl.
Proof.
  destruct pl as [p|]; simpl; [|reflexivity].
  destruct (transform_parts p row hs) as (calls & _ & Ht). now rewrite Ht.
Qed.

Lemma deliveredRows_same_transformers (p q : option TransformationPipeline.t) hs rows :
  option_map TransformationPipeline.transformers p
  = option_map TransformationPipeline.transformers q ->
  deliveredRows p hs rows = deliveredRows q hs rows.
Proof.
  intros H. induction rows as [|row rows IH]; simpl; [reflexivity|].
  now rewrite (delivered_same_transformers p q hs row H), IH.
Qed.

(** One ['data'] event. *)
Lemma onData_step (self : CSVParser.t) (f : Formatter) (d : list string)
    (pre : list Stream) (p c : string) (idx cnt tot : Z)
    (pl : option TransformationPipeline.t) (row : Row) :
  CSVParser.formatter self = Some f ->
  let hs := CSVParser.headers self in
  let fmt := CSVParser.outputFormat self in
  let outs := CSVParser.outputHeaders self in
  let pl' := advance pl hs [row] in
  CSVParser.onData env row
    (running self idx cnt tot (length pre) pl,
     {| directories := d; streams := pre ++ [openFile p c] |})
  = match delivered pl hs row with
    | None =>
        ((running self idx cnt tot (length pre) pl',
          {| directories := d; streams := pre ++ [openFile p c] |}), Ret tt)
    | Some r =>
        if cnt + 1 >=? CSVParser.maxRowsPerFile self then
          let closed :=
            {| path := p; content := (c ++ rowText fmt outs r) ++ footerText fmt;
               ended := true; records := cnt + 1 |} in
          ((running self (idx + 1) 0 (tot + 1) (length (pre ++ [closed])) pl',
            {| directories := d;
               streams :=
                 (pre ++ [closed])
                 ++ [openFile
                       (filePath (CSVParser.outputDirectory self) (today env)
                          (getFileExtension f) idx)
                       (openingText fmt outs)] |}), Ret tt)
        else
          ((running self idx (cnt + 1) (tot + 1) (length pre) pl',
            {| directories := d;
               streams := pre ++ [openFile p (c ++ rowText fmt outs r)] |}), Ret tt)
    end.
Proof.
  intros Hf hs fmt outs pl'. unfold openFile.
  unfold CSVParser.onData, CSVParser.tryCatch, CSVParser.onDataBody.
  unfold CSVParser.andThen at 1. unfold CSVParser.this at 1. cbn [fst snd].
  unfold CSVParser.andThen at 1.
  assert (Hpipe :
    (match CSVParser.transformationPipeline (running self idx cnt tot (length pre) pl) with
     | Some pipeline => CSVParser.runPipeline pipeline row
     | None => CSVParser.ret (Some row)
     end)
      (running self idx cnt tot (length pre) pl,
       {| directories := d;
          streams := pre ++ [{| path := p; content := c; ended := false; records := 0 |}] |})
    = ((running self idx cnt tot (length pre) pl',
        {| directories := d;
           streams := pre ++ [{| path := p; content := c; ended := false; records := 0 |}] |}),
       Ret (delivered pl hs row))).
  { cbn [CSVParser.transformationPipeline running CSVParser.assign].
    destruct pl as [pp|]; [|reflexivity].
    unfold CSVParser.runPipeline.
    unfold CSVParser.andThen at 1. unfold CSVParser.this at 1. cbn [fst snd].
    cbn [CSVParser.headers running CSVParser.assign]. fold hs.
    destruct (transform_parts pp row hs) as (calls & Ht & _).
    rewrite Ht. eng_unfold. reflexivity. }
  rewrite Hpipe. clear Hpipe.
  destruct (delivered pl hs row) as [r|]; [|reflexivity].
  unfold CSVParser.andThen at 1.
  rewrite writeRowSync_open by reflexivity.
  unfold CSVParser.andThen at 1. unfold CSVParser.update at 1. cbn [fst snd].
  unfold CSVParser.andThen at 1. unfold CSVParser.update at 1. cbn [fst snd].
  unfold CSVParser.andThen at 1. unfold CSVParser.this at 1. cbn [fst snd].
  cbn [CSVParser.currentRowCount CSVParser.maxRowsPerFile CSVParser.setCurrentRowCount
       CSVParser.setTotalRowsProcessed running CSVParser.assign
       CSVParser.totalRowsProcessed CSVParser.outputFormat CSVParser.outputHeaders].
  fold fmt outs.
  destruct (cnt + 1 >=? CSVParser.maxRowsPerFile self).
  - erewrite createNewOutputStreamSync_open by (first [reflexivity | exact Hf]).
    reflexivity.
  - reflexivity.
Qed.

Lemma bodyText_snoc fmt outs (g : list Row) (r : Row) :
  bodyText fmt outs (g ++ [r]) = bodyText fmt outs g ++ rowText fmt outs r.
Proof.
  unfold bodyText. rewrite map_app, concatText_app. cbn.
  now rewrite append_nil_r.
Qed.

Lemma state_eq (self : CSVParser.t) (d : list string)
    (a a' b b' c c' : Z) (h h' : nat) (pl pl' : option TransformationPipeline.t)
    (l l' : list Stream) :
  a = a' -> b = b' -> c = c' -> h = h' -> pl = pl' -> l = l' ->
  ((running self a b c h pl, {| directories := d; streams := l |}), Ret tt)
  = ((running self a' b' c' h' pl', {| directories := d; streams := l' |}), Ret tt).
Proof. now intros -> -> -> -> -> ->. Qed.

(** All the ['data'] events of a source, from a file open on the rows [g]. *)
Lemma forEach_onData (self : CSVParser.t) (f : Formatter) (d : list string) :
  CSVParser.formatter self = Some f ->
  let hs := CSVParser.headers self in
  let fmt := CSVParser.outputFormat self in
  let outs := CSVParser.outputHeaders self in
  let dir := CSVParser.outputDirectory self in
  let ext := getFileExtension f in
  let limit := CSVParser.maxRowsPerFile self in
  forall rows g pre k cnt tot pl,
    cnt = Z.of_nat (length g) ->
    let D := deliveredRows pl hs rows in
    let gs := fst (groups limit g D) in
    let last := snd (groups limit g D) in
    let done := (pre ++ completedFiles dir (today env) ext fmt outs k gs)%list in
    CSVParser.forEach rows (CSVParser.onData env)
      (running self (k + 1) cnt tot (length pre) pl,
       {| directories := d;
          streams := pre ++ [openFile (filePath dir (today env) ext k)
                               (openingText fmt outs ++ bodyText fmt outs g)] |})
    = ((running self (k + 1 + Z.of_nat (length gs)) (Z.of_nat (length last))
          (tot + Z.of_nat (length D)) (length done) (advance pl hs rows),
        {| directories := d;
           streams :=
             done ++ [openFile (filePath dir (today env) ext (k + Z.of_nat (length gs)))
                        (openingText fmt outs ++ bodyText fmt outs last)] |}),
       Ret tt).
Proof.
  intros Hf hs fmt outs dir ext limit.
  induction rows as [|row rows IH]; intros g pre k cnt tot pl Hcnt.
  - cbn. apply state_eq; try reflexivity; try lia.
    + now rewrite app_nil_r.
    + now rewrite app_nil_r, Z.add_0_r.
  - cbn zeta. cbn [CSVParser.forEach]. unfold CSVParser.andThen at 1.
    rewrite (onData_step self f) by exact Hf.
    fold hs fmt outs dir ext limit.
    cbn [deliveredRows].
    assert (Hadv : advance pl hs (row :: rows) = advance (advance pl hs [row]) hs rows)
      by reflexivity.
    assert (Hrest : deliveredRows (advance pl hs [row]) hs rows = deliveredRows pl hs rows)
      by (apply deliveredRows_same_transformers, advance_one_transformers).
    destruct (delivered pl hs row) as [r|].
    + assert (Hlen : Z.of_nat (length (g ++ [r])) = cnt + 1)
        by (rewrite length_app; cbn [length]; lia).
      cbn [groups length]. rewrite Hlen.
      destruct (cnt + 1 >=? limit).
      * (* the file is full: it is closed and the next one opened *)
        match goal with
        | |- CSVParser.forEach _ _ (running _ _ _ _ (length ?pre') _, _) = _ =>
            pose proof (IH [] pre' (k + 1) 0 (tot + 1) (advance pl hs [row]) eq_refl)
              as IH'
        end.
        cbv zeta in IH'. change (bodyText fmt outs []) with "" in IH'.
        rewrite (append_nil_r (openingText fmt outs)) in IH'.
        rewrite IH'. clear IH'.
        rewrite Hrest, Hadv.
        destruct (groups limit [] (deliveredRows pl hs rows)) as [gs' last'].
        cbn [fst snd length completedFiles].
        assert (Hclosed :
          {| path := filePath dir (today env) ext k;
             content := ((openingText fmt outs ++ bodyText fmt outs g)
                         ++ rowText fmt outs r) ++ footerText fmt;
             ended := true; records := cnt + 1 |}
          = completedFile dir (today env) ext fmt outs k (g ++ [r])).
        { unfold completedFile. now rewrite bodyText_snoc, Hlen, !append_assoc. }
        rewrite Hclosed, <- !app_assoc. cbn [app].
        apply state_eq; try reflexivity; try lia.
        now replace (k + Z.of_nat (S (length gs'))) with (k + 1 + Z.of_nat (length gs')) by lia.
      * rewrite append_assoc, <- (bodyText_snoc fmt outs g r).
        rewrite (IH (g ++ [r])%list pre k (cnt + 1) (tot + 1) (advance pl hs [row]))
          by (symmetry; exact Hlen).
        rewrite Hrest, Hadv. cbn [length].
        apply state_eq; try reflexivity; lia.
    + rewrite (IH g pre k cnt tot (advance pl hs [row]) Hcnt), Hrest, Hadv. reflexivity.
Qed.

Lemma completedFiles_snoc dir date ext fmt outs (gs : list (list Row)) (last : list Row) :
  forall k,
    completedFiles dir date ext fmt outs k (gs ++ [last])
    = (completedFiles dir date ext fmt outs k gs
       ++ [completedFile dir date ext fmt outs (k + Z.of_nat (length gs)) last])%list.
Proof.
  induction gs as [|g gs IH]; intros k; cbn [app completedFiles length].
  - now rewrite Z.add_0_r.
  - rewrite IH. now replace (k + 1 + Z.of_nat (length gs)) with (k + Z.of_nat (S (length gs))) by lia.
Qed.

(** Sequential mode, from a parser that holds its formatter and has no file open:
    the run completes, and the files it made hold the delivered rows in groups. *)
Lemma processSingleThread_spec (self : CSVParser.t) (w : World) (f : Formatter)
    (src : Source) :
  CSVParser.formatter self = Some f ->
  CSVParser.currentOutputStream self = None ->
  sources env (CSVParser.inputFilePath self) = Some src ->
  let hs := CSVParser.headers self in
  let fmt := CSVParser.outputFormat self in
  let outs := CSVParser.outputHeaders self in
  let dir := CSVParser.outputDirectory self in
  let ext := getFileExtension f in
  let k := CSVParser.currentFileIndex self in
  let pl := CSVParser.transformationPipeline self in
  let D := deliveredRows pl hs (parsedRows src) in
  let gs := fst (groups (CSVParser.maxRowsPerFile self) [] D) in
  let last := snd (groups (CSVParser.maxRowsPerFile self) [] D) in
  CSVParser.processSingleThread env (self, w)
  = ((running self (k + 1 + Z.of_nat (length gs)) (Z.of_nat (length last))
        (CSVParser.totalRowsProcessed self + Z.of_nat (length D))
        (length (streams w ++ completedFiles dir (today env) ext fmt outs k gs))
        (advance pl hs (parsedRows src)),
      {| directories := directories w;
         streams :=
           streams w ++ completedFiles dir (today env) ext fmt outs k (gs ++ [last]) |}),
     Ret tt).
Proof.
  intros Hf Hs Hsrc hs fmt outs dir ext k pl D gs last.
  unfold CSVParser.processSingleThread.
  unfold CSVParser.andThen at 1.
  rewrite (createNewOutputStreamSync_first self w f Hs Hf).
  unfold CSVParser.andThen at 1. unfold CSVParser.this at 1. cbn [fst snd].
  cbn [CSVParser.inputFilePath running CSVParser.assign]. rewrite Hsrc.
  unfold CSVParser.andThen at 1.
  unfold nextPath. fold hs fmt outs dir ext k pl.
  pose proof (forEach_onData self f (directories w) Hf (parsedRows src) [] (streams w) k 0
                (CSVParser.totalRowsProcessed self) pl eq_refl) as Hloop.
  cbv zeta in Hloop. fold hs fmt outs dir ext D in Hloop. fold gs last in Hloop.
  change (bodyText fmt outs []) with "" in Hloop.
  rewrite (append_nil_r (openingText fmt outs)) in Hloop.
  rewrite Hloop. clear Hloop.
  unfold CSVParser.onEnd.
  unfold CSVParser.andThen at 1. unfold CSVParser.this at 1. cbn [fst snd].
  cbn [CSVParser.currentOutputStream running CSVParser.assign].
  unfold CSVParser.andThen at 1. unfold openFile.
  rewrite writeFooterSync_open by reflexivity.
  rewrite endStream_open by reflexivity.
  rewrite completedFiles_snoc, app_assoc.
  reflexivity.
Qed.

Lemma initializeTransformations_fresh (options : Options.t) (f : Formatter) (w : World) :
  CSVParser.initializeTransformations
    (CSVParser.setFormatter (CSVParser.constructor options) (Some f), w)
  = ((CSVParser.setTransformationPipeline
        (CSVParser.setFormatter (CSVParser.constructor options) (Some f))
        (pipelineOf options), w),
     Ret tt).
Proof.
  unfold pipelineOf, CSVParser.initializeTransformations.
  unfold CSVParser.andThen, CSVParser.this. cbn [fst snd].
  cbn [CSVParser.transformations CSVParser.generateStats CSVParser.setFormatter
       CSVParser.assign CSVParser.constructor].
  destruct (Options.transformations options); reflexivity.
Qed.

Lemma run_sequential (options : Options.t) (w : World) (f : Formatter) (src : Source) :
  createFormatter (CSVParser.outputFormat (CSVParser.constructor options))
    engineFormatterOptions = Ret f ->
  sources env (CSVParser.inputFilePath (CSVParser.constructor options)) = Some src ->
  Options.useMultipleProcesses options = false ->
  let self := initialised options f src in
  let fmt := CSVParser.outputFormat self in
  let outs := outputHeadersOf options src in
  let dir := CSVParser.outputDirectory self in
  let ext := getFileExtension f in
  let pl := pipelineOf options in
  let D := deliveredRows pl (parsedHeaders src) (parsedRows src) in
  let gs := fst (groups (CSVParser.maxRowsPerFile self) [] D) in
  let last := snd (groups (CSVParser.maxRowsPerFile self) [] D) in
  let w1 := withDirectory w dir in
  CSVParser.run env options w
  = ((running self (2 + Z.of_nat (length gs)) (Z.of_nat (length last))
        (Z.of_nat (length D))
        (length (streams w1 ++ completedFiles dir (today env) ext fmt outs 1 gs))
        (advance pl (parsedHeaders src) (parsedRows src)),
      {| directories := directories w1;
         streams :=
           streams w1 ++ completedFiles dir (today env) ext fmt outs 1 (gs ++ [last]) |}),
     Ret tt).
Proof.
  intros Hfmt Hsrc Hseq self fmt outs dir ext pl D gs last w1.
  unfold CSVParser.run, CSVParser.process.
  unfold CSVParser.andThen at 1. unfold CSVParser.initializeFormatter.
  unfold CSVParser.andThen at 1. unfold CSVParser.this at 1. cbn [fst snd].
  unfold engineFormatterOptions in Hfmt. rewrite Hfmt.
  unfold CSVParser.update at 1. cbn [fst snd].
  unfold CSVParser.andThen at 1.
  rewrite initializeTransformations_fresh. fold pl.
  unfold CSVParser.andThen at 1. unfold CSVParser.getFileStats.
  unfold CSVParser.andThen at 1. unfold CSVParser.this at 1. cbn [fst snd].
  change (CSVParser.inputFilePath
            (CSVParser.setTransformationPipeline
               (CSVParser.setFormatter (CSVParser.constructor options) (Some f)) pl))
    with (CSVParser.inputFilePath (CSVParser.constructor options)).
  rewrite Hsrc. unfold CSVParser.ret at 1.
  unfold CSVParser.andThen at 1. unfold CSVParser.ensureOutputDirectory.
  unfold CSVParser.andThen at 1. unfold CSVParser.this at 1. cbn [fst snd].
  unfold CSVParser.inWorld at 1. cbn [fst snd].
  change (CSVParser.outputDirectory
            (CSVParser.setTransformationPipeline
               (CSVParser.setFormatter (CSVParser.constructor options) (Some f)) pl))
    with dir.
  fold (withDirectory w dir). fold w1.
  unfold CSVParser.andThen at 1. unfold CSVParser.detectHeaders.
  unfold CSVParser.andThen at 1. unfold CSVParser.this at 1. cbn [fst snd].
  change (CSVParser.inputFilePath
            (CSVParser.setTransformationPipeline
               (CSVParser.setFormatter (CSVParser.constructor options) (Some f)) pl))
    with (CSVParser.inputFilePath (CSVParser.constructor options)).
  rewrite Hsrc.
  unfold CSVParser.update at 1. cbn [fst snd].
  change (CSVParser.transformationPipeline
            (CSVParser.setTransformationPipeline
               (CSVParser.setFormatter (CSVParser.constructor options) (Some f)) pl))
    with pl.
  fold (outputHeadersOf options src). fold outs.
  fold (initialised options f src). fold self.
  unfold CSVParser.andThen at 1. unfold CSVParser.this at 1. cbn [fst snd].
  match goal with
  | |- (if CSVParser.useMultipleProcesses ?s then _ else _) (?s, _) = _ =>
      change s with self
  end.
  change (CSVParser.useMultipleProcesses self) with (Options.useMultipleProcesses options).
  rewrite Hseq.
  exact (processSingleThread_spec self w1 f src eq_refl eq_refl Hsrc).
Qed.

End Engine.

(** ** The layout of the written rows *)

Lemma groups_partition (limit : Z) (rows : list Row) :
  forall current,
    (concat (fst (groups limit current rows)) ++ snd (groups limit current rows))%list
    = (current ++ rows)%list.
Proof.
  induction rows as [|row rows IH]; intros current; cbn [groups].
  - cbn. now rewrite app_nil_r.
  - destruct (Z.of_nat (length (current ++ [row])) >=? limit).
    + specialize (IH []). destruct (groups limit [] rows) as [closed last].
      cbn [fst snd concat] in *. rewrite <- !app_assoc, IH. reflexivity.
    + rewrite IH, <- app_assoc. reflexivity.
Qed.

Lemma div_mod_of (a m q r : Z) :
  0 < m -> a = m * q + r -> 0 <= r < m -> a / m = q /\ a mod m = r.
Proof.
  intros Hm Ha Hr. split.
  - symmetry. apply (Z.div_unique a m q r); [left; exact Hr | exact Ha].
  - symmetry. apply (Z.mod_unique a m q r); [left; exact Hr | exact Ha].
Qed.

Lemma groups_lengths (limit : Z) (rows : list Row) :
  0 < limit ->
  forall current,
    Z.of_nat (length current) < limit ->
    let total := Z.of_nat (length current) + Z.of_nat (length rows) in
    Forall (fun g => Z.of_nat (length g) = limit) (fst (groups limit current rows))
    /\ Z.of_nat (length (fst (groups limit current rows))) = total / limit
    /\ Z.of_nat (length (snd (groups limit current rows))) = total mod limit.
Proof.
  intros Hm. induction rows as [|row rows IH]; intros current Hc total; cbn [groups].
  - cbn [fst snd length]. split; [constructor|].
    unfold total. cbn [length]. rewrite Z.add_0_r.
    rewrite Z.div_small, Z.mod_small by lia. split; reflexivity.
  - assert (Hlen : Z.of_nat (length (current ++ [row])) = Z.of_nat (length current) + 1)
      by (rewrite length_app; cbn [length]; lia).
    unfold total. cbn [length].
    destruct (Z.geb_spec (Z.of_nat (length (current ++ [row]))) limit) as [Hge | Hlt].
    + assert (Hfull : Z.of_nat (length (current ++ [row])) = limit) by lia.
      destruct (IH [] ltac:(cbn; lia)) as (Hall & Hq & Hr).
      cbn [length] in Hq, Hr. change (Z.of_nat 0) with 0 in Hq, Hr.
      rewrite Z.add_0_l in Hq, Hr.
      destruct (groups limit [] rows) as [closed last]. cbn [fst snd length] in *.
      split; [constructor; assumption|].
      pose proof (Z.div_mod (Z.of_nat (length rows)) limit ltac:(lia)) as Hdm.
      pose proof (Z.mod_pos_bound (Z.of_nat (length rows)) limit Hm) as Hb.
      destruct (div_mod_of (Z.of_nat (length current) + Z.of_nat (S (length rows))) limit
                  (1 + Z.of_nat (length rows) / limit) (Z.of_nat (length rows) mod limit))
        as [Hd Hmod]; [lia | rewrite Nat2Z.inj_succ; nia | lia |].
      rewrite Hd, Hmod. split; lia.
    + destruct (IH (current ++ [row])%list ltac:(lia)) as (Hall & Hq & Hr).
      split; [exact Hall|].
      replace (Z.of_nat (length current) + Z.of_nat (S (length rows)))
        with (Z.of_nat (length (current ++ [row])) + Z.of_nat (length rows)) by lia.
      split; assumption.
Qed.

Lemma records_completedFiles {R : Runtime} dir date ext fmt outs (gs : list (list Row)) :
  forall k,
    map records (completedFiles dir date ext fmt outs k gs)
    = map (fun g => Z.of_nat (length g)) gs.
Proof.
  induction gs as [|g gs IH]; intros k; cbn; [reflexivity | now rewrite IH].
Qed.

Lemma ended_completedFiles {R : Runtime} dir date ext fmt outs (gs : list (list Row)) :
  forall k, Forall (fun s => ended s = true) (completedFiles dir date ext fmt outs k gs).
Proof.
  induction gs as [|g gs IH]; intros k; cbn; constructor; [reflexivity | apply IH].
Qed.

Lemma sum_lengths_concat (gs : list (list Row)) :
  sumZ (map (fun g => Z.of_nat (length g)) gs) = Z.of_nat (length (concat gs)).
Proof.
  induction gs as [|g gs IH]; cbn; [reflexivity|].
  rewrite length_app. unfold sumZ in IH. lia.
Qed.

Lemma map_all_equal (limit : Z) (gs : list (list Row)) :
  Forall (fun g => Z.of_nat (length g) = limit) gs ->
  map (fun g => Z.of_nat (length g)) gs = repeat limit (length gs).
Proof. induction 1 as [|g gs Hg _ IH]; cbn; [reflexivity | now rewrite Hg, IH]. Qed.

Lemma delivered_dropped_lengths {R : Runtime} pl hs (rows : list Row) :
  (length (deliveredRows pl hs rows) + length (droppedRows pl hs rows))%nat = length rows.
Proof.
  unfold droppedRows.
  induction rows as [|row rows IH]; cbn; [reflexivity|].
  destruct (delivered pl hs row); cbn; lia.
Qed.

(** ** Runs without a validator *)

Section NoValidator.
Context {R : Runtime}.

Lemma applyAll_neverNull (hs : list string) (ts : list Transformer) :
  forallb neverNull ts = true ->
  forall row, exists r calls, TransformationPipeline.applyAll ts row hs = (Some r, calls).
Proof.
  induction ts as [|t ts IH]; intros Hall row.
  - exists row, []. reflexivity.
  - cbn [forallb] in Hall. apply andb_prop in Hall as [Ht Hts].
    cbn [TransformationPipeline.applyAll].
    destruct t; try discriminate; cbn [TransformationPipeline.transformWith];
      match goal with
      | |- context [TransformationPipeline.applyAll ts ?r hs] =>
          destruct (IH Hts r) as (r' & calls & ->)
      end; eauto.
Qed.

Lemma pipelineOf_noValidator (options : Options.t) :
  hasValidator (Options.transformations options) = false ->
  match pipelineOf options with
  | Some p => forallb neverNull (TransformationPipeline.transformers p) = true
  | None => True
  end.
Proof.
  unfold hasValidator, pipelineOf, CSVParser.initializeTransformations.
  unfold CSVParser.andThen, CSVParser.this. cbn [fst snd].
  cbn [CSVParser.transformations CSVParser.generateStats CSVParser.constructor].
  destruct (Options.transformations options) as [tr|]; [|intros _; exact I].
  destruct (validation tr); [discriminate|]. intros _.
  unfold CSVParser.update. cbn [fst snd CSVParser.transformationPipeline
                                  CSVParser.setTransformationPipeline CSVParser.assign].
  destruct (includeColumns tr), (excludeColumns tr), (typeConversions tr),
    (Options.generateStats options); reflexivity.
Qed.

Lemma noValidator_drops_nothing (options : Options.t) (hs : list string) (rows : list Row) :
  hasValidator (Options.transformations options) = false ->
  droppedRows (pipelineOf options) hs rows = [].
Proof.
  intros Hv. pose proof (pipelineOf_noValidator options Hv) as Hp.
  unfold droppedRows. induction rows as [|row rows IH]; cbn [filter]; [reflexivity|].
  destruct (pipelineOf options) as [p|]; cbn [delivered].
  - destruct (applyAll_neverNull hs _ Hp row) as (r & calls & ->). exact IH.
  - exact IH.
Qed.

End NoValidator.

(** ** Sequential runs: the claims *)

Lemma streams_withDirectory (w : World) (directory : string) :
  streams (withDirectory w directory) = streams w.
Proof. unfold withDirectory. now destruct (str_in (directories w) directory). Qed.

(** C2. A sequential run on a readable source with a supported format
    completes; the rows it has written ([totalRowsProcessed]) are the rows read
    less the rows the pipeline dropped, and they are the rows its files hold;
    with no validator configured nothing is dropped and the rows written are
    the rows read; and the record counts of the files the run made add up to
    the rows written. *)
Theorem sequential_rows_written
    (R : Runtime) (env : Env) (options : Options.t) (w : World) (f : Formatter)
    (src : Source) :
  let c := CSVParser.constructor options in
  createFormatter (CSVParser.outputFormat c) engineFormatterOptions = Ret f ->
  sources env (CSVParser.inputFilePath c) = Some src ->
  Options.useMultipleProcesses options = false ->
  let rows := parsedRows src in
  let dropped := droppedRows (pipelineOf options) (parsedHeaders src) rows in
  exists (self' : CSVParser.t) (held : list (list Row)),
    let files :=
      completedFiles (CSVParser.outputDirectory c) (today env) (getFileExtension f)
        (CSVParser.outputFormat c) (outputHeadersOf options src) 1 held in
    CSVParser.run env options w
    = ((self',
        {| directories := directories (withDirectory w (CSVParser.outputDirectory c));
           streams := streams w ++ files |}),
       Ret tt)
    /\ CSVParser.totalRowsProcessed self'
       = Z.of_nat (length rows) - Z.of_nat (length dropped)
    /\ concat held = deliveredRows (pipelineOf options) (parsedHeaders src) rows
    /\ CSVParser.totalRowsProcessed self' = Z.of_nat (length (concat held))
    /\ (hasValidator (Options.transformations options) = false ->
        dropped = [] /\ CSVParser.totalRowsProcessed self' = Z.of_nat (length rows))
    /\ sumZ (map records files) = CSVParser.totalRowsProcessed self'.
Proof.
  intros c Hfmt Hsrc Hseq rows dropped. subst rows dropped.
  pose proof (run_sequential env options w f src Hfmt Hsrc Hseq) as Hrun.
  cbv zeta in Hrun. rewrite streams_withDirectory in Hrun.
  pose proof (delivered_dropped_lengths (pipelineOf options) (parsedHeaders src)
                (parsedRows src)) as Hcount.
  set (dropped := droppedRows (pipelineOf options) (parsedHeaders src) (parsedRows src))
    in *.
  assert (Hheld :
    concat (fst (groups (CSVParser.maxRowsPerFile (initialised options f src)) []
                   (deliveredRows (pipelineOf options) (parsedHeaders src) (parsedRows src)))
            ++ [snd (groups (CSVParser.maxRowsPerFile (initialised options f src)) []
                       (deliveredRows (pipelineOf options) (parsedHeaders src)
                          (parsedRows src)))])
    = deliveredRows (pipelineOf options) (parsedHeaders src) (parsedRows src)).
  { rewrite concat_app. cbn [concat]. rewrite app_nil_r. apply groups_partition. }
  eexists _, _. cbv zeta. split; [exact Hrun|].
  cbn [CSVParser.totalRowsProcessed running CSVParser.assign].
  split; [lia|]. split; [exact Hheld|]. split; [now rewrite Hheld|]. split.
  - intros Hv.
    assert (Hnone : dropped = []) by (apply noValidator_drops_nothing; exact Hv).
    split; [exact Hnone|]. rewrite Hnone in Hcount. cbn [length] in Hcount. lia.
  - rewrite records_completedFiles, sum_lengths_concat. now rewrite Hheld.
Qed.

(** The scenario of the specification: Alice is written, Bob is dropped. *)
Lemma sequential_rows_written_witness :
  exists (self' : CSVParser.t) (files : list Stream),
    CSVParser.run Sample.env Sample.options Sample.emptyWorld
    = ((self', {| directories := ["out"]; streams := files |}), Ret tt)
    /\ CSVParser.totalRowsProcessed self' = 1
    /\ sumZ (map records files) = 1
    /\ map content files = ["id,name,age" ++ nl ++ "1,Alice,30" ++ nl].
Proof.
  destruct (sequential_rows_written asciiRuntime Sample.env Sample.options Sample.emptyWorld
              CSVFormatterF Sample.source eq_refl eq_refl eq_refl)
    as (self' & held & Hrun & Htotal & _ & _ & _ & Hsum).
  cbv zeta in Hrun, Hsum.
  set (files := completedFiles _ _ _ _ _ 1 held) in Hrun, Hsum.
  assert (Hcontent :
    map content (streams (snd (fst (CSVParser.run Sample.env Sample.options
                                      Sample.emptyWorld))))
    = ["id,name,age" ++ nl ++ "1,Alice,30" ++ nl]) by (vm_compute; reflexivity).
  rewrite Hrun in Hcontent. cbn [fst snd streams app] in Hcontent.
  exists self', files.
  split; [exact Hrun|]. split; [exact Htotal|]. split; [rewrite Hsum; exact Htotal|].
  exact Hcontent.
Defined.

(** C3. In a sequential run every output file but the last holds exactly
    [maxRowsPerFile] records and the last holds the remainder: the files hold
    the written rows in order, in groups; with [written] rows there are
    [written / maxRowsPerFile] full files and a last one of
    [written mod maxRowsPerFile] records.  So 250 written rows at 100 rows a
    file make three files, of 100, 100 and 50 records. *)
Theorem sequential_files_hold_limit
    (R : Runtime) (env : Env) (options : Options.t) (w : World) (f : Formatter)
    (src : Source) :
  let c := CSVParser.constructor options in
  let limit := CSVParser.maxRowsPerFile c in
  createFormatter (CSVParser.outputFormat c) engineFormatterOptions = Ret f ->
  sources env (CSVParser.inputFilePath c) = Some src ->
  Options.useMultipleProcesses options = false ->
  0 < limit ->
  let rowsWritten := deliveredRows (pipelineOf options) (parsedHeaders src) (parsedRows src) in
  let written := Z.of_nat (length rowsWritten) in
  exists (self' : CSVParser.t) (full : list (list Row)) (last : list Row),
    let files :=
      completedFiles (CSVParser.outputDirectory c) (today env) (getFileExtension f)
        (CSVParser.outputFormat c) (outputHeadersOf options src) 1 (full ++ [last]) in
    CSVParser.run env options w
    = ((self',
        {| directories := directories (withDirectory w (CSVParser.outputDirectory c));
           streams := streams w ++ files |}),
       Ret tt)
    /\ (concat full ++ last)%list = rowsWritten
    /\ Forall (fun g => Z.of_nat (length g) = limit) full
    /\ Z.of_nat (length full) = written / limit
    /\ Z.of_nat (length last) = written mod limit
    /\ map records files = (repeat limit (Z.to_nat (written / limit)) ++ [written mod limit])%list
    /\ (written = 250 -> limit = 100 -> map records files = [100; 100; 50]).
Proof.
  intros c limit Hfmt Hsrc Hseq Hpos rowsWritten written.
  pose proof (run_sequential env options w f src Hfmt Hsrc Hseq) as Hrun.
  cbv zeta in Hrun. rewrite streams_withDirectory in Hrun.
  change (CSVParser.maxRowsPerFile (initialised options f src)) with limit in Hrun.
  fold rowsWritten in Hrun.
  destruct (groups_lengths limit rowsWritten Hpos [] Hpos) as (Hall & Hq & Hr).
  cbn [length] in Hq, Hr. change (Z.of_nat 0) with 0 in Hq, Hr.
  rewrite Z.add_0_l in Hq, Hr. fold written in Hq, Hr.
  pose proof (groups_partition limit rowsWritten []) as Hpart. cbn [app] in Hpart.
  assert (Hrecords :
    map records
      (completedFiles (CSVParser.outputDirectory c) (today env) (getFileExtension f)
         (CSVParser.outputFormat c) (outputHeadersOf options src) 1
         (fst (groups limit [] rowsWritten) ++ [snd (groups limit [] rowsWritten)]))
    = (repeat limit (Z.to_nat (written / limit)) ++ [written mod limit])%list).
  { rewrite records_completedFiles, map_app, (map_all_equal limit _ Hall).
    cbn [map]. rewrite Hr, <- Hq, Nat2Z.id. reflexivity. }
  eexists _, _, _. cbv zeta. split; [exact Hrun|].
  split; [exact Hpart|]. split; [exact Hall|]. split; [exact Hq|]. split; [exact Hr|].
  split; [exact Hrecords|].
  intros Hw Hl. rewrite Hrecords, Hw, Hl. reflexivity.
Qed.

(** 250 rows at 100 rows a file: three files, of 100, 100 and 50 records. *)
Lemma sequential_files_hold_limit_witness :
  let options := Sample.optionsOf (Some 100) "csv" None in
  let env := Sample.envOf Sample.bigSource in
  length (parsedRows Sample.bigSource) = 250%nat
  /\ 0 < 100
  /\ exists (self' : CSVParser.t) (files : list Stream),
       CSVParser.run env options Sample.emptyWorld
       = ((self', {| directories := ["out"]; streams := files |}), Ret tt)
       /\ map records files = [100; 100; 50]
       /\ map path files
          = ["out/split_part_1_2025-06-02.csv"; "out/split_part_2_2025-06-02.csv";
             "out/split_part_3_2025-06-02.csv"].
Proof.
  intros options env. split; [reflexivity|]. split; [lia|].
  destruct (sequential_files_hold_limit asciiRuntime env options Sample.emptyWorld
              CSVFormatterF Sample.bigSource eq_refl eq_refl eq_refl eq_refl)
    as (self' & full & last & Hrun & _ & _ & _ & _ & Hrecords & _).
  cbv zeta in Hrun, Hrecords.
  match type of Hrecords with
  | _ = ?counts =>
      assert (Hcounts : counts = [100; 100; 50]) by (vm_compute; reflexivity);
      rewrite Hcounts in Hrecords
  end.
  assert (Hpaths :
    map path (streams (snd (fst (CSVParser.run env options Sample.emptyWorld))))
    = ["out/split_part_1_2025-06-02.csv"; "out/split_part_2_2025-06-02.csv";
       "out/split_part_3_2025-06-02.csv"]) by (vm_compute; reflexivity).
  rewrite Hrun in Hpaths. cbn [fst snd streams] in Hpaths.
  eexists _, _. split; [exact Hrun|]. split; [exact Hrecords | exact Hpaths].
Defined.

(** ** The columnar-surrogate format in sequential mode *)

Section Parquet.
Context {R : Runtime}.

Lemma bodyText_parquet (outs : list string) (rows : list Row) :
  bodyText "parquet" outs rows = "".
Proof. unfold bodyText. induction rows as [|row rows IH]; cbn; [reflexivity | exact IH]. Qed.

Lemma content_parquet dir date ext outs (gs : list (list Row)) :
  forall k,
    Forall (fun s => content s = "") (completedFiles dir date ext "parquet" outs k gs).
Proof.
  induction gs as [|g gs IH]; intros k; cbn [completedFiles]; constructor; [|apply IH].
  cbn [content completedFile]. rewrite bodyText_parquet.
  unfold openingText. now destruct (0 <? Z.of_nat (length outs)).
Qed.

Lemma sync_writers_skip_parquet (self : CSVParser.t) (w : World) (row : Row) :
  CSVParser.outputFormat self = "parquet" ->
  CSVParser.writeHeaderSync (self, w) = ((self, w), Ret tt)
  /\ CSVParser.writeRowSync row (self, w) = ((self, w), Ret tt)
  /\ CSVParser.writeFooterSync (self, w) = ((self, w), Ret tt).
Proof.
  intros Hf.
  unfold CSVParser.writeHeaderSync, CSVParser.writeRowSync, CSVParser.writeFooterSync,
    CSVParser.andThen, CSVParser.this.
  cbn [fst snd]. rewrite Hf. repeat split; reflexivity.
Qed.

End Parquet.

(** C10. A sequential run in the ['parquet'] format creates and rotates its
    files as in any other format, but the synchronous header, row and footer
    writers have no branch for it: every file the run made is empty.  The
    formatter object is the one the factory made, its row buffer still empty,
    and [totalRowsProcessed] counts every row the pipeline did not drop. *)
Theorem parquet_run_writes_nothing
    (R : Runtime) (env : Env) (options : Options.t) (w : World) (src : Source) :
  Options.outputFormat options = Some "parquet" ->
  sources env (CSVParser.inputFilePath (CSVParser.constructor options)) = Some src ->
  Options.useMultipleProcesses options = false ->
  let c := CSVParser.constructor options in
  let rows := parsedRows src in
  let kept := deliveredRows (pipelineOf options) (parsedHeaders src) rows in
  exists (self' : CSVParser.t) (full : list (list Row)) (last : list Row),
    let files :=
      completedFiles (CSVParser.outputDirectory c) (today env) ".parquet.json" "parquet"
        (outputHeadersOf options src) 1 (full ++ [last]) in
    CSVParser.run env options w
    = ((self',
        {| directories := directories (withDirectory w (CSVParser.outputDirectory c));
           streams := streams w ++ files |}),
       Ret tt)
    /\ Forall (fun s => content s = "" /\ ended s = true) files
    /\ (full, last) = groups (CSVParser.maxRowsPerFile c) [] kept
    /\ map records files = map (fun g => Z.of_nat (length g)) (full ++ [last])
    /\ CSVParser.formatter self'
       = Some (ParquetFormatterF
                 {| ParquetFormatter.headers := None; ParquetFormatter.rows := [];
                    ParquetFormatter.batchSize := 10000 |})
    /\ CSVParser.totalRowsProcessed self' = Z.of_nat (length kept)
    /\ Z.of_nat (length kept)
       = Z.of_nat (length rows)
         - Z.of_nat (length (droppedRows (pipelineOf options) (parsedHeaders src) rows))
    /\ (forall (self : CSVParser.t) (w0 : World) (row : Row),
           CSVParser.outputFormat self = "parquet" ->
           CSVParser.writeHeaderSync (self, w0) = ((self, w0), Ret tt)
           /\ CSVParser.writeRowSync row (self, w0) = ((self, w0), Ret tt)
           /\ CSVParser.writeFooterSync (self, w0) = ((self, w0), Ret tt)).
Proof.
  intros Hformat Hsrc Hseq c rows kept.
  assert (Hname : CSVParser.outputFormat c = "parquet")
    by (unfold c; cbn; rewrite Hformat; reflexivity).
  assert (Hfmt : createFormatter (CSVParser.outputFormat (CSVParser.constructor options))
                   engineFormatterOptions
                 = Ret (ParquetFormatterF (ParquetFormatter.new None)))
    by (fold c; rewrite Hname; reflexivity).
  pose proof (run_sequential env options w _ src Hfmt Hsrc Hseq) as Hrun.
  cbv zeta in Hrun. rewrite streams_withDirectory in Hrun.
  change (CSVParser.outputFormat (initialised options (ParquetFormatterF (ParquetFormatter.new None)) src))
    with (CSVParser.outputFormat c) in Hrun.
  rewrite Hname in Hrun.
  pose proof (delivered_dropped_lengths (pipelineOf options) (parsedHeaders src) rows)
    as Hcount.
  fold kept in Hcount, Hrun.
  eexists _, _, _. cbv zeta. split; [exact Hrun|].
  split.
  { apply Forall_forall. intros s Hs. split.
    - revert s Hs. apply Forall_forall, content_parquet.
    - revert s Hs. apply Forall_forall, ended_completedFiles. }
  split; [exact (eq_sym (surjective_pairing (groups (CSVParser.maxRowsPerFile c) [] kept)))|].
  split; [apply records_completedFiles|].
  split; [reflexivity|]. split; [reflexivity|]. split; [lia|].
  intros self w0 row. apply sync_writers_skip_parquet.
Qed.

(** Two rows at one row a file in the ['parquet'] format: three empty files,
    two rows counted. *)
Lemma parquet_run_writes_nothing_witness :
  let options := Sample.optionsOf (Some 1) "parquet" None in
  Options.outputFormat options = Some "parquet"
  /\ exists (self' : CSVParser.t) (files : list Stream),
       CSVParser.run Sample.env options Sample.emptyWorld
       = ((self', {| directories := ["out"]; streams := files |}), Ret tt)
       /\ map content files = [""; ""; ""]
       /\ map records files = [1; 1; 0]
       /\ map path files
          = ["out/split_part_1_2025-06-02.parquet.json";
             "out/split_part_2_2025-06-02.parquet.json";
             "out/split_part_3_2025-06-02.parquet.json"]
       /\ CSVParser.totalRowsProcessed self' = 2.
Proof.
  intros options. split; [reflexivity|].
  destruct (parquet_run_writes_nothing asciiRuntime Sample.env options Sample.emptyWorld
              Sample.source eq_refl eq_refl eq_refl)
    as (self' & full & last & Hrun & _ & _ & _ & _ & Htotal & _).
  cbv zeta in Hrun.
  assert (Hfacts :
    let w' := snd (fst (CSVParser.run Sample.env options Sample.emptyWorld)) in
    map content (streams w') = [""; ""; ""]
    /\ map records (streams w') = [1; 1; 0]
    /\ map path (streams w')
       = ["out/split_part_1_2025-06-02.parquet.json";
          "out/split_part_2_2025-06-02.parquet.json";
          "out/split_part_3_2025-06-02.parquet.json"])
    by (vm_compute; repeat split; reflexivity).
  cbv zeta in Hfacts. rewrite Hrun in Hfacts. cbn [fst snd streams] in Hfacts.
  destruct Hfacts as (Hcontent & Hrecords & Hpaths).
  eexists _, _. split; [exact Hrun|].
  split; [exact Hcontent|]. split; [exact Hrecords|]. split; [exact Hpaths|].
  exact Htotal.
Defined.

(** ** What the run checks of its configuration *)

(** C5 does not hold as stated: with [maxRowsPerFile = -1] and a worker count of
    [-3] the run raises nothing; it completes and writes a file per row. *)
Lemma nonpositive_counts_are_accepted :
  Options.maxRowsPerFile Sample.negativeOptions = Some (-1)
  /\ Options.processCount Sample.negativeOptions = Some (-3)
  /\ snd (CSVParser.run Sample.env Sample.negativeOptions Sample.emptyWorld) = Ret tt
  /\ map content
       (streams (snd (fst (CSVParser.run Sample.env Sample.negativeOptions
                             Sample.emptyWorld))))
     = ["id,name,age" ++ nl ++ "1,Alice,30" ++ nl;
        "id,name,age" ++ nl ++ "2,Bob,17" ++ nl;
        "id,name,age" ++ nl].
Proof. repeat split; vm_compute; reflexivity. Qed.

Lemma createFormatter_unsupported (format : string) (o : FormatterOptions) :
  str_in getSupportedFormats (Str.toLowerCase format) = false ->
  createFormatter format o = Throw ("Unsupported output format: " ++ format).
Proof.
  unfold str_in, getSupportedFormats, createFormatter. cbn [existsb].
  destruct (String.eqb (Str.toLowerCase format) "csv"); [discriminate|].
  destruct (String.eqb (Str.toLowerCase format) "json"); [discriminate|].
  destruct (String.eqb (Str.toLowerCase format) "jsonl"); [discriminate|].
  destruct (String.eqb (Str.toLowerCase format) "xml"); [discriminate|].
  destruct (String.eqb (Str.toLowerCase format) "tsv"); [discriminate|].
  destruct (String.eqb (Str.toLowerCase format) "parquet"); [discriminate|].
  reflexivity.
Qed.

(** C5, amended.  An unsupported format name makes the run fail with the
    factory's error before anything else happens: the parser object is as
    constructed and the world is untouched (no directory, no file).  The row
    limit and the worker count are not checked: zero or a missing value is
    replaced by the default and any other value, a negative one included, is
    kept. *)
Theorem unsupported_format_is_the_only_check
    (R : Runtime) (env : Env) (options : Options.t) (w : World) :
  let c := CSVParser.constructor options in
  (str_in getSupportedFormats (Str.toLowerCase (CSVParser.outputFormat c)) = false ->
   CSVParser.run env options w
   = ((c, w), Throw ("Unsupported output format: " ++ CSVParser.outputFormat c)))
  /\ CSVParser.maxRowsPerFile c
     = match Options.maxRowsPerFile options with
       | Some n => if n =? 0 then 100000 else n
       | None => 100000
       end
  /\ CSVParser.processCount c
     = match Options.processCount options with
       | Some n => if n =? 0 then 4 else n
       | None => 4
       end.
Proof.
  intros c. split; [|split; reflexivity].
  intros Hbad. unfold CSVParser.run, CSVParser.process.
  unfold CSVParser.andThen at 1. unfold CSVParser.initializeFormatter.
  unfold CSVParser.andThen at 1. unfold CSVParser.this at 1. cbn [fst snd].
  fold c. rewrite (createFormatter_unsupported _ _ Hbad). reflexivity.
Qed.

(** The format name [yaml] is refused before the source is opened. *)
Lemma unsupported_format_is_the_only_check_witness :
  str_in getSupportedFormats (Str.toLowerCase "yaml") = false
  /\ CSVParser.run Sample.env (Sample.optionsOf (Some 10) "yaml" None) Sample.emptyWorld
     = ((CSVParser.constructor (Sample.optionsOf (Some 10) "yaml" None), Sample.emptyWorld),
        Throw "Unsupported output format: yaml").
Proof.
  split; [reflexivity|].
  destruct (unsupported_format_is_the_only_check asciiRuntime Sample.env
              (Sample.optionsOf (Some 10) "yaml" None) Sample.emptyWorld) as [Hbad _].
  exact (Hbad eq_refl).
Defined.

(** ** Partitions in parallel mode *)

(** C1 at a concrete input.  Two workers share a source of 37 bytes: the second
    partition starts at byte 19, inside the row [2,Bob].  Its first physical
    line, the remnant [ob], is not skipped: it is taken as a data row and
    written as [ob,].  Only the partition that starts at byte 0 leaves out its
    first line, the header. *)
Theorem nonfirst_partition_keeps_first_line :
  CSVParser.createFileChunks (CSVParser.constructor Sample.twoWorkers)
    (Str.len (bytes Sample.splitSource))
  = Some [(0, 18); (19, 36)]
  /\ Worker.dataLines 19 (substring 19 18 (bytes Sample.splitSource))
     = ["ob"; "3,Carol"; "4,Dave"]
  /\ Worker.dataLines 0 (substring 0 19 (bytes Sample.splitSource))
     = ["1,Alice"; "2,B"]
  /\ (let '(w, result) :=
        Worker.processChunk "2025-06-02" Sample.workerData 1 (Some Sample.splitSource)
          19 36 Sample.emptyWorld in
      option_map rowsProcessed
        (match result with Ret r => Some r | Throw _ => None end) = Some 3
      /\ map content (streams w)
         = ["id,name" ++ nl ++ "ob," ++ nl ++ "3,Carol" ++ nl ++ "4,Dave" ++ nl]).
Proof. repeat split; vm_compute; reflexivity. Qed.

Section Partitions.
Context {R : Runtime}.

(** The lines a partition's loop runs over: all of them, unless the partition
    starts at byte 0, which leaves out the first. *)
Lemma worker_lines (timestamp : string) (wd : WorkerData) (index startByte : Z)
    (buffer : string) (w : World) :
  exists st0,
    Worker.results (Worker.onEnd timestamp wd index startByte buffer w)
    = Worker.results
        (Worker.loop timestamp wd index (if startByte =? 0 then 1 else 0)
           (if startByte =? 0 then tl (Str.split Str.LF buffer)
            else Str.split Str.LF buffer)
           st0).
Proof.
  unfold Worker.onEnd. eexists. cbn [Worker.results].
  destruct (startByte =? 0); cbn [skipn Z.of_nat]; [|reflexivity].
  destruct (Str.split Str.LF buffer); reflexivity.
Qed.

End Partitions.

(** ** The JSON formats *)

Section JsonArray.
Context {R : Runtime}.

Lemma array_rows (hs : list string) (rows : list Row) :
  forall (first : bool) (out : string),
    fold_left
      (fun (acc : JSONFormatter.t * string) row =>
         JSONFormatter.writeRow (fst acc) (snd acc) row hs)
      rows ({| JSONFormatter.isFirstRow := first; JSONFormatter.format := "array" |}, out)
    = ({| JSONFormatter.isFirstRow := match rows with [] => first | _ => false end;
          JSONFormatter.format := "array" |},
       out ++ match rows with
              | [] => ""
              | _ => (if first then "" else "," ++ nl)
                     ++ Str.join ("," ++ nl)
                          (map (fun row => "  " ++ JSON.stringify row) rows)
              end).
Proof.
  induction rows as [|row rows IH]; intros first out.
  - cbn. now rewrite append_nil_r.
  - cbn [fold_left fst snd]. unfold JSONFormatter.writeRow at 2.
    cbn [JSONFormatter.format JSONFormatter.isFirstRow String.eqb Ascii.eqb Bool.eqb].
    rewrite IH.
    destruct rows as [|row' rows].
    + cbn [map]. rewrite join_one, append_nil_r.
      destruct first; now rewrite ?append_assoc.
    + cbn [map]. rewrite (join_cons _ _ _ _).
      destruct first; now rewrite ?append_assoc.
Qed.

(** In array mode the formatter frames the rows as the specification says. *)
Lemma array_mode_frames_rows (hs : list string) (rows : list Row) (first : bool) :
  jsonFormatterFile {| JSONFormatter.isFirstRow := first; JSONFormatter.format := "array" |}
    rows hs
  = jsonArrayText rows.
Proof.
  unfold jsonFormatterFile, jsonArrayText.
  unfold JSONFormatter.writeHeader.
  cbn [JSONFormatter.format String.eqb Ascii.eqb Bool.eqb].
  rewrite array_rows. cbn [fst snd].
  unfold JSONFormatter.writeFooter.
  cbn [JSONFormatter.format String.eqb Ascii.eqb Bool.eqb].
  destruct rows as [|row rows]; cbn [append]; now rewrite ?append_assoc.
Qed.

End JsonArray.

(** C6 at a concrete input.  With the output format ['json'] the factory builds a
    [JSONFormatter] whose format is ['json'], neither ['jsonl'] nor ['array']: its
    header, row and footer calls write nothing, and the array framing of its
    ['array'] mode is out of reach.  The engine writes the rows itself, one JSON
    object a line, with no bracket and no comma: the file is not a JSON array. *)
Theorem json_format_writes_lines_not_array :
  let options := Sample.optionsOf (Some 10) "json" None in
  let rows := parsedRows Sample.source in
  let run := CSVParser.run Sample.env options Sample.emptyWorld in
  createFormatter "json" engineFormatterOptions
  = Ret (JSONFormatterF {| JSONFormatter.isFirstRow := true; JSONFormatter.format := "json" |})
  /\ snd run = Ret tt
  /\ map path (streams (snd (fst run))) = ["out/split_part_1_2025-06-02.json"]
  /\ map content (streams (snd (fst run)))
     = [JSON.stringify Sample.alice ++ nl ++ JSON.stringify Sample.bob ++ nl]
  /\ map content (streams (snd (fst run))) <> [jsonArrayText rows]
  /\ jsonFormatterFile {| JSONFormatter.isFirstRow := true; JSONFormatter.format := "json" |}
       rows Sample.headers = ""
  /\ jsonFormatterFile {| JSONFormatter.isFirstRow := true; JSONFormatter.format := "array" |}
       rows Sample.headers = jsonArrayText rows.
Proof.
  intros options rows run.
  split; [reflexivity|]. split; [vm_compute; reflexivity|].
  split; [vm_compute; reflexivity|]. split; [vm_compute; reflexivity|].
  split; [vm_compute; discriminate|].
  split; [vm_compute; reflexivity | apply array_mode_frames_rows].
Qed.

(* ================================================================== *)
(** * Part III: further properties of the code *)
(* ================================================================== *)

(** ** Records of columns *)

Lemma str_in_filter (p : string -> bool) (l : list string) (s : string) :
  str_in (filter p l) s = str_in l s && p s.
Proof.
  unfold str_in. induction l as [|x l IH]; cbn [filter existsb]; [reflexivity|].
  destruct (p x) eqn:Hp; cbn [existsb]; rewrite IH;
    destruct (String.eqb_spec s x) as [->|Hne]; cbn [orb andb]; rewrite ?Hp;
    rewrite ?andb_false_r; reflexivity.
Qed.

Lemma get_set {A} (o : Obj.t A) (k k' : string) (v : A) :
  Obj.get (Obj.set o k v) k' = if String.eqb k k' then Some v else Obj.get o k'.
Proof.
  induction o as [|[a b] o IH]; cbn [Obj.set Obj.get].
  - reflexivity.
  - destruct (String.eqb_spec a k) as [->|Hak]; cbn [Obj.get].
    + destruct (String.eqb_spec k k'); reflexivity.
    + rewrite IH. destruct (String.eqb_spec a k') as [->|Hak']; [|reflexivity].
      destruct (String.eqb_spec k k'); [congruence | reflexivity].
Qed.

Lemma get_delete {A} (o : Obj.t A) (k k' : string) :
  Obj.get (Obj.delete o k) k' = if String.eqb k k' then None else Obj.get o k'.
Proof.
  induction o as [|[a b] o IH]; cbn [Obj.delete Obj.get].
  - now destruct (String.eqb k k').
  - destruct (String.eqb_spec a k) as [->|Hak]; cbn [Obj.get].
    + rewrite IH. destruct (String.eqb_spec k k'); reflexivity.
    + rewrite IH. destruct (String.eqb_spec a k') as [->|Hak']; [|reflexivity].
      destruct (String.eqb_spec k k'); [congruence | reflexivity].
Qed.

Lemma field_set (o : Row) (k k' : string) (v : value) :
  field (Obj.set o k v) k' = if String.eqb k k' then v else field o k'.
Proof. unfold field. rewrite get_set. now destruct (String.eqb k k'). Qed.

Lemma field_delete (o : Row) (k k' : string) :
  field (Obj.delete o k) k' = if String.eqb k k' then VUndefined else field o k'.
Proof. unfold field. rewrite get_delete. now destruct (String.eqb k k'). Qed.

Lemma get_None_keys {A} (o : Obj.t A) (k : string) :
  Obj.get o k = None <-> ~ In k (keys o).
Proof.
  unfold keys. induction o as [|[a b] o IH]; cbn [Obj.get map fst In].
  - tauto.
  - destruct (String.eqb_spec a k) as [->|Hak].
    + split; [discriminate | intros H; exfalso; apply H; now left].
    + rewrite IH. tauto.
Qed.

Lemma keys_set_present {A} (o : Obj.t A) (k : string) (v : A) :
  In k (keys o) -> keys (Obj.set o k v) = keys o.
Proof.
  unfold keys. induction o as [|[a b] o IH]; cbn [Obj.set map fst In]; [tauto|].
  intros Hin. destruct (String.eqb_spec a k) as [->|Hak]; cbn [map fst]; [reflexivity|].
  rewrite IH; [reflexivity|]. destruct Hin; [contradiction | assumption].
Qed.

Lemma keys_set_absent {A} (o : Obj.t A) (k : string) (v : A) :
  ~ In k (keys o) -> keys (Obj.set o k v) = (keys o ++ [k])%list.
Proof.
  unfold keys. induction o as [|[a b] o IH]; cbn [Obj.set map fst In app]; [reflexivity|].
  intros Hin. destruct (String.eqb_spec a k) as [->|Hak]; [tauto|].
  cbn [map fst]. rewrite IH by tauto. reflexivity.
Qed.


Lemma nonempty_test {A} (l : list A) :
  (0 <? Z.of_nat (length l)) = match l with [] => false | _ => true end.
Proof. destruct l; reflexivity. Qed.



(** ** The column filter *)

Section ColumnFilterFacts.
Variable row : Row.

Let keep (filtered : Row) (col : string) : Row :=
  match field row col with
  | VUndefined => filtered
  | v => Obj.set filtered col v
  end.

Lemma field_included (inc : list string) (h : string) :
  forall acc,
    field (fold_left keep inc acc) h
    = if str_in inc h then
        match field row h with VUndefined => field acc h | v => v end
      else field acc h.
Proof.
  unfold str_in.
  induction inc as [|col inc IH]; intros acc; cbn [fold_left existsb]; [reflexivity|].
  rewrite IH. unfold keep.
  destruct (String.eqb_spec h col) as [->|Hne]; cbn [orb].
  - destruct (field row col) eqn:E; rewrite ?field_set, ?String.eqb_refl;
      destruct (existsb (String.eqb col) inc); reflexivity.
  - assert (Hc : String.eqb col h = false) by (apply String.eqb_neq; congruence).
    destruct (field row col) eqn:E; rewrite ?field_set, ?Hc; reflexivity.
Qed.

Lemma field_excluded (exc : list string) (h : string) :
  forall o : Row,
    field (fold_left (fun res col => Obj.delete res col) exc o) h
    = if str_in exc h then VUndefined else field o h.
Proof.
  unfold str_in.
  induction exc as [|col exc IH]; intros o; cbn [fold_left existsb]; [reflexivity|].
  rewrite IH, field_delete, (String.eqb_sym col h).
  destruct (String.eqb h col), (existsb (String.eqb h) exc); reflexivity.
Qed.

Lemma transform_field (self : ColumnFilter.t) (hs : list string) (h : string) :
  field (ColumnFilter.transform self row hs) h
  = if str_in (ColumnFilter.excludeColumns self) h then VUndefined
    else match ColumnFilter.includeColumns self with
         | [] => field row h
         | inc => if str_in inc h then field row h else VUndefined
         end.
Proof.
  unfold ColumnFilter.transform, spread. rewrite !nonempty_test.
  fold keep.
  assert (Hinc :
    field (match ColumnFilter.includeColumns self with
           | [] => row
           | _ => fold_left keep (ColumnFilter.includeColumns self) []
           end) h
    = match ColumnFilter.includeColumns self with
      | [] => field row h
      | inc => if str_in inc h then field row h else VUndefined
      end).
  { destruct (ColumnFilter.includeColumns self) as [|c inc]; [reflexivity|].
    rewrite field_included.
    destruct (str_in (c :: inc) h); [|reflexivity].
    now destruct (field row h). }
  destruct (ColumnFilter.excludeColumns self) as [|e exc].
  - cbn [str_in existsb].
    destruct (ColumnFilter.includeColumns self); exact Hinc.
  - rewrite <- Hinc.
    destruct (ColumnFilter.includeColumns self); apply field_excluded.
Qed.

End ColumnFilterFacts.

Lemma outputHeaders_in (self : ColumnFilter.t) (hs : list string) (h : string) :
  str_in (ColumnFilter.getOutputHeaders self hs) h
  = negb (str_in (ColumnFilter.excludeColumns self) h)
    && str_in hs h
    && match ColumnFilter.includeColumns self with
       | [] => true
       | inc => str_in inc h
       end.
Proof.
  unfold ColumnFilter.getOutputHeaders. rewrite !nonempty_test.
  destruct (ColumnFilter.excludeColumns self) as [|e exc],
           (ColumnFilter.includeColumns self) as [|c inc];
    rewrite ?str_in_filter; change (str_in [] h) with false;
    repeat match goal with |- context [str_in ?a ?b] => destruct (str_in a b) end;
    reflexivity.
Qed.

(** X1. The column filter and its header list agree: of the input columns, the
    ones [getOutputHeaders] lists keep their values in the filtered row and the
    others are absent from it.  The header list never names a column the input
    lacks, and an excluded column is neither listed nor kept, even when it is
    on the include list as well. *)
Theorem column_filter_agrees_with_its_headers
    (self : ColumnFilter.t) (row : Row) (hs : list string) :
  (forall h, In h hs ->
     field (ColumnFilter.transform self row hs) h
     = if str_in (ColumnFilter.getOutputHeaders self hs) h then field row h
       else VUndefined)
  /\ incl (ColumnFilter.getOutputHeaders self hs) hs
  /\ (forall h, In h (ColumnFilter.excludeColumns self) ->
        ~ In h (ColumnFilter.getOutputHeaders self hs)
        /\ field (ColumnFilter.transform self row hs) h = VUndefined).
Proof.
  split; [|split].
  - intros h Hin. apply str_in_In in Hin.
    rewrite transform_field, outputHeaders_in, Hin.
    destruct (str_in (ColumnFilter.excludeColumns self) h); [reflexivity|].
    destruct (ColumnFilter.includeColumns self) as [|c inc]; [reflexivity|].
    now destruct (str_in (c :: inc) h).
  - intros h Hin. apply str_in_In in Hin. rewrite outputHeaders_in in Hin.
    apply str_in_In.
    destruct (str_in hs h); [reflexivity|].
    now rewrite andb_false_r in Hin.
  - intros h Hin. apply str_in_In in Hin. split.
    + intros Hout. apply str_in_In in Hout. rewrite outputHeaders_in, Hin in Hout.
      discriminate.
    + now rewrite transform_field, Hin.
Qed.

Section ColumnFilterKeys.
Variable columns : Obj.t string.


End ColumnFilterKeys.



(** ** The enumeration order of a record *)

Lemma insertIndexed_perm {A} (n : N) (e : string * A) (l : list (N * (string * A))) :
  Permutation (map snd (Obj.insertIndexed n e l)) (e :: map snd l).
Proof.
  induction l as [|[m e'] l IH]; cbn [Obj.insertIndexed map snd]; [reflexivity|].
  destruct (n <? m)%N; cbn [map snd]; [reflexivity|].
  rewrite IH. apply perm_swap.
Qed.

Lemma entries_perm {A} (o : Obj.t A) : Permutation (Obj.entries o) o.
Proof.
  unfold Obj.entries.
  induction o as [|[k v] o IH]; cbn [Obj.indexed Obj.named map app]; [reflexivity|].
  destruct (Obj.arrayIndex k).
  - rewrite insertIndexed_perm. cbn [app]. now apply perm_skip.
  - rewrite <- Permutation_middle. now apply perm_skip.
Qed.

Lemma get_In {A} (l : Obj.t A) (h : string) (v : A) :
  NoDup (keys l) -> (Obj.get l h = Some v <-> In (h, v) l).
Proof.
  unfold keys. induction l as [|[k x] l IH]; cbn [map fst Obj.get In]; intros Hnd.
  - split; [discriminate | tauto].
  - inversion Hnd as [|? ? Hnotin Hnd']; subst.
    destruct (String.eqb_spec k h) as [->|Hne].
    + split.
      * intros [= ->]. now left.
      * intros [[= ->] | Hin]; [reflexivity|].
        exfalso. apply Hnotin. now apply (in_map fst) in Hin.
    + rewrite (IH Hnd'). split; [tauto|].
      intros [[= -> ->] | Hin]; [contradiction | exact Hin].
Qed.

Lemma get_entries {A} (o : Obj.t A) (h : string) :
  NoDup (keys o) -> Obj.get (Obj.entries o) h = Obj.get o h.
Proof.
  intros Hnd.
  assert (Hnd' : NoDup (keys (Obj.entries o))).
  { unfold keys. eapply Permutation_NoDup; [|exact Hnd].
    apply Permutation_map, Permutation_sym, entries_perm. }
  destruct (Obj.get o h) as [v|] eqn:E.
  - apply (get_In _ _ _ Hnd'). apply (get_In _ _ _ Hnd) in E.
    eapply Permutation_in; [apply Permutation_sym, entries_perm | exact E].
  - destruct (Obj.get (Obj.entries o) h) as [v|] eqn:E'; [|reflexivity].
    apply (get_In _ _ _ Hnd') in E'.
    apply (Permutation_in _ (entries_perm o)) in E'.
    apply (get_In _ _ _ Hnd) in E'. congruence.
Qed.

Lemma keys_entries {A} (o : Obj.t A) (c : string) :
  In c (keys (Obj.entries o)) <-> In c (keys o).
Proof.
  unfold keys. split; apply Permutation_in, Permutation_map;
    [|apply Permutation_sym]; apply entries_perm.
Qed.

Lemma insertIndexed_map {A B} (h : string * A -> string * B) (n : N) (e : string * A)
    (l : list (N * (string * A))) :
  map (fun x => (fst x, h (snd x))) (Obj.insertIndexed n e l)
  = Obj.insertIndexed n (h e) (map (fun x => (fst x, h (snd x))) l).
Proof.
  induction l as [|[m e'] l IH]; cbn [Obj.insertIndexed map fst snd]; [reflexivity|].
  destruct (n <? m)%N; cbn [map fst snd]; [reflexivity | now rewrite IH].
Qed.

(** Enumeration looks at the names only. *)
Lemma entries_map {A B} (h : string * A -> string * B) (o : Obj.t A) :
  (forall e, fst (h e) = fst e) ->
  Obj.entries (map h o) = map h (Obj.entries o).
Proof.
  intros Hh.
  assert (Hi : Obj.indexed (map h o) = map (fun x => (fst x, h (snd x))) (Obj.indexed o)).
  { induction o as [|[k v] o IH]; cbn [map Obj.indexed]; [reflexivity|].
    pose proof (Hh (k, v)) as Hk. destruct (h (k, v)) as [k' v'] eqn:E.
    cbn [fst] in Hk. subst k'.
    destruct (Obj.arrayIndex k); [|exact IH].
    now rewrite IH, insertIndexed_map, E. }
  assert (Hn : Obj.named (map h o) = map h (Obj.named o)).
  { clear Hi. induction o as [|[k v] o IH]; cbn [map Obj.named]; [reflexivity|].
    pose proof (Hh (k, v)) as Hk. destruct (h (k, v)) as [k' v'] eqn:E.
    cbn [fst] in Hk. subst k'.
    destruct (Obj.arrayIndex k); [exact IH|].
    cbn [map]. now rewrite IH, E. }
  unfold Obj.entries. now rewrite Hi, Hn, map_app, !map_map.
Qed.

Lemma ownKeys_keys {A} (o : Obj.t A) : ownKeys o = enumerationOf (keys o).
Proof.
  unfold enumerationOf, ownKeys, keys. rewrite map_map.
  rewrite (entries_map (fun e : string * A => (fst e, tt)) o) by reflexivity.
  now rewrite map_map.
Qed.





(** ** The type converter *)

Section TypeConverter.
Context {R : Runtime}.

Lemma present_get (r : Row) (c : string) :
  DataTypeConverter.present (field r c) = true -> In c (keys r).
Proof.
  intros Hp. destruct (Obj.get r c) eqn:E.
  - destruct (in_dec string_dec c (keys r)) as [Hin|Hn]; [exact Hin|].
    apply get_None_keys in Hn. congruence.
  - unfold field in Hp. now rewrite E in Hp.
Qed.

Lemma convertColumn_field (r : Row) (c type h : string) :
  field (DataTypeConverter.convertColumn r (c, type)) h
  = if String.eqb c h then convertedValue type (field r c) else field r h.
Proof.
  unfold DataTypeConverter.convertColumn, convertedValue.
  destruct (DataTypeConverter.present (field r c));
    [destruct (DataTypeConverter.convert type (field r c))|];
    rewrite ?field_set; destruct (String.eqb_spec c h) as [->|Hne]; reflexivity.
Qed.

Lemma convertColumn_keys (r : Row) (entry : string * string) :
  keys (DataTypeConverter.convertColumn r entry) = keys r.
Proof.
  destruct entry as [c type]. unfold DataTypeConverter.convertColumn.
  destruct (DataTypeConverter.present (field r c)) eqn:Hp; [|reflexivity].
  destruct (DataTypeConverter.convert type (field r c)); [|reflexivity].
  apply keys_set_present, present_get, Hp.
Qed.

Lemma convertColumns_keys (l : list (string * string)) :
  forall r, keys (fold_left DataTypeConverter.convertColumn l r) = keys r.
Proof.
  induction l as [|e l IH]; intros r; cbn [fold_left]; [reflexivity|].
  now rewrite IH, convertColumn_keys.
Qed.

Lemma convertColumns_other (l : list (string * string)) (c : string) :
  ~ In c (keys l) ->
  forall r, field (fold_left DataTypeConverter.convertColumn l r) c = field r c.
Proof.
  unfold keys. induction l as [|[k type] l IH]; intros Hn r; cbn [fold_left]; [reflexivity|].
  cbn [map fst In] in Hn. rewrite IH by tauto.
  rewrite convertColumn_field.
  destruct (String.eqb_spec k c); [tauto | reflexivity].
Qed.

Lemma convertColumns_blank (l : list (string * string)) (c : string) :
  forall r,
    DataTypeConverter.present (field r c) = false ->
    field (fold_left DataTypeConverter.convertColumn l r) c = field r c.
Proof.
  induction l as [|[k type] l IH]; intros r Hb; cbn [fold_left]; [reflexivity|].
  assert (Hsame : field (DataTypeConverter.convertColumn r (k, type)) c = field r c).
  { rewrite convertColumn_field. destruct (String.eqb_spec k c) as [->|]; [|reflexivity].
    unfold convertedValue. now rewrite Hb. }
  rewrite IH; rewrite Hsame; [reflexivity | exact Hb].
Qed.

Lemma convertColumns_field (l : list (string * string)) (c : string) :
  NoDup (keys l) ->
  forall r,
    field (fold_left DataTypeConverter.convertColumn l r) c
    = match Obj.get l c with
      | Some type => convertedValue type (field r c)
      | None => field r c
      end.
Proof.
  unfold keys. induction l as [|[k type] l IH]; intros Hnd r; cbn [fold_left Obj.get];
    [reflexivity|].
  cbn [map fst] in Hnd. inversion Hnd as [|? ? Hnotin Hnd']; subst.
  destruct (String.eqb_spec k c) as [->|Hne].
  - rewrite convertColumns_other by exact Hnotin.
    now rewrite convertColumn_field, String.eqb_refl.
  - rewrite IH by exact Hnd'. rewrite convertColumn_field.
    destruct (String.eqb_spec k c); [contradiction | reflexivity].
Qed.

Lemma transform_converted (conversions : Obj.t string) (row : Row) (hs : list string)
    (c type : string) :
  NoDup (keys conversions) ->
  Obj.get conversions c = Some type ->
  field (DataTypeConverter.transform conversions row hs) c
  = convertedValue type (field row c).
Proof.
  intros Hnd Hget. unfold DataTypeConverter.transform, spread.
  rewrite convertColumns_field.
  - now rewrite get_entries, Hget.
  - unfold keys. eapply Permutation_NoDup; [|exact Hnd].
    apply Permutation_map, Permutation_sym, entries_perm.
Qed.

Lemma transform_blank (conversions : Obj.t string) (row : Row) (hs : list string)
    (c : string) :
  DataTypeConverter.present (field row c) = false ->
  field (DataTypeConverter.transform conversions row hs) c = field row c.
Proof. intros Hb. unfold DataTypeConverter.transform, spread. now apply convertColumns_blank. Qed.

Lemma number_or_zero (f : float) :
  Num.isNaN (if Num.truthy f then f else 0%float) = false.
Proof.
  unfold Num.truthy. destruct (PrimFloat.eqb f 0); cbn [orb negb]; [reflexivity|].
  destruct (Num.isNaN f) eqn:E; cbn [negb]; [reflexivity | exact E].
Qed.

Lemma converted_number (type : string) (v : value) :
  str_in ["number"; "float"; "integer"; "int"] (Str.toLowerCase type) = true ->
  DataTypeConverter.present v = true ->
  exists f, convertedValue type v = VNumber f /\ Num.isNaN f = false.
Proof.
  intros Hty Hp. unfold convertedValue, DataTypeConverter.convert. rewrite Hp.
  cbv zeta. cbn [str_in existsb] in *.
  destruct (String.eqb (Str.toLowerCase type) "number");
    [eexists; split; [reflexivity | apply number_or_zero]|].
  destruct (String.eqb (Str.toLowerCase type) "float");
    [eexists; split; [reflexivity | apply number_or_zero]|].
  destruct (String.eqb (Str.toLowerCase type) "integer");
    [eexists; split; [reflexivity | apply number_or_zero]|].
  destruct (String.eqb (Str.toLowerCase type) "int");
    [eexists; split; [reflexivity | apply number_or_zero]|].
  discriminate.
Qed.

End TypeConverter.

(** X3. The type converter neither adds, removes nor reorders columns.  A
    column that has no conversion configured keeps its value, and so does a
    column whose value is missing, [null] or the empty string, whatever type it
    is configured with: a blank is never turned into [0] or [false]. *)
Theorem type_converter_keeps_columns_and_blanks
    (R : Runtime) (conversions : Obj.t string) (row : Row) (hs : list string) :
  keys (DataTypeConverter.transform conversions row hs) = keys row
  /\ (forall c, ~ In c (keys conversions) ->
        field (DataTypeConverter.transform conversions row hs) c = field row c)
  /\ (forall c, DataTypeConverter.present (field row c) = false ->
        field (DataTypeConverter.transform conversions row hs) c = field row c).
Proof.
  unfold DataTypeConverter.transform, spread. split; [|split].
  - apply convertColumns_keys.
  - intros c Hn. apply convertColumns_other.
    intros Hin. apply Hn. now apply keys_entries.
  - intros c Hb. now apply convertColumns_blank.
Qed.

(** X4. A configured column is converted once, by its own type and from its own
    value, whatever the other conversions are.  Under a numeric type a value
    that is present always becomes a number that is not NaN (text that is no
    number becomes 0); under a boolean type it becomes a boolean; and when the
    conversion raises, as for an invalid date, the column keeps its value. *)
Theorem type_converter_converts_each_column
    (R : Runtime) (conversions : Obj.t string) (row : Row) (hs : list string)
    (c type : string) :
  NoDup (keys conversions) ->
  Obj.get conversions c = Some type ->
  let converted := field (DataTypeConverter.transform conversions row hs) c in
  converted = convertedValue type (field row c)
  /\ (DataTypeConverter.present (field row c) = true ->
      str_in ["number"; "float"; "integer"; "int"] (Str.toLowerCase type) = true ->
      exists f, converted = VNumber f /\ Num.isNaN f = false)
  /\ (DataTypeConverter.present (field row c) = true ->
      str_in ["boolean"; "bool"] (Str.toLowerCase type) = true ->
      converted = VBool (DataTypeConverter.parseBoolean (field row c)))
  /\ (forall e, DataTypeConverter.convert type (field row c) = Throw e ->
        converted = field row c).
Proof.
  intros Hnd Hget converted.
  assert (Hc : converted = convertedValue type (field row c))
    by (apply transform_converted; assumption).
  split; [exact Hc|]. rewrite Hc. split; [|split].
  - intros Hp Hty. now apply converted_number.
  - intros Hp Hty. unfold convertedValue, DataTypeConverter.convert. rewrite Hp.
    cbv zeta. cbn [str_in existsb] in *.
    destruct (String.eqb_spec (Str.toLowerCase type) "boolean") as [->|_];
      [reflexivity|].
    destruct (String.eqb_spec (Str.toLowerCase type) "bool") as [->|_];
      [reflexivity | discriminate].
  - intros e He. unfold convertedValue. rewrite He.
    now destruct (DataTypeConverter.present (field row c)).
Qed.

(** The age [abc] is no number: converted under the type [number] it is 0. *)
Lemma type_converter_converts_each_column_witness :
  let conversions := [("age", "number"); ("name", "uppercase")] in
  let row := textRow [("name", "Ann"); ("age", "abc")] in
  NoDup (keys conversions)
  /\ Obj.get conversions "age" = Some "number"
  /\ field (DataTypeConverter.transform conversions row ["name"; "age"]) "age"
     = VNumber 0%float.
Proof.
  intros conversions row.
  assert (Hnd : NoDup (keys conversions)).
  { repeat constructor; cbn; intuition discriminate. }
  split; [exact Hnd|]. split; [reflexivity|].
  destruct (type_converter_converts_each_column asciiRuntime conversions row
              ["name"; "age"] "age" "number" Hnd eq_refl) as [Hc _].
  rewrite Hc. vm_compute. reflexivity.
Defined.

(** X5. Conversion comes before validation, so a column converted under a
    numeric type can never fail the validator's [number] type rule: what was
    not a number has already become 0, and a blank is skipped by the rule. *)
Theorem number_rule_is_vacuous_after_number_conversion
    (R : Runtime) (conversions : Obj.t string) (row : Row) (hs : list string)
    (c type : string) (rule : DataValidator.Rule) (ruleType : string) :
  NoDup (keys conversions) ->
  Obj.get conversions c = Some type ->
  str_in ["number"; "float"; "integer"; "int"] (Str.toLowerCase type) = true ->
  DataValidator.type rule = Some ruleType ->
  str_in ["number"; "float"] (Str.toLowerCase ruleType) = true ->
  DataValidator.failsType rule (field (DataTypeConverter.transform conversions row hs) c)
  = false.
Proof.
  intros Hnd Hget Hty Hrule Hrt.
  rewrite (transform_converted conversions row hs c type Hnd Hget).
  unfold DataValidator.failsType. rewrite Hrule.
  destruct (DataTypeConverter.present (field row c)) eqn:Hp.
  - destruct (converted_number type _ Hty Hp) as (f & -> & Hnan).
    unfold DataValidator.validateType. cbv zeta. rewrite Hrt.
    cbn [toNumber]. rewrite Hnan. cbn [negb]. now rewrite !andb_false_r.
  - unfold convertedValue. rewrite Hp.
    assert (He : DataValidator.isEmpty (field row c) = true).
    { destruct (field row c) as [| | |f|s]; try reflexivity; try discriminate.
      destruct s; [reflexivity | discriminate]. }
    rewrite He. cbn [negb]. now rewrite andb_false_r.
Qed.

(** The age [abc], converted to 0, passes the rule [{type: "number"}]. *)
Lemma number_rule_is_vacuous_after_number_conversion_witness :
  let conversions := [("age", "number")] in
  let row := textRow [("name", "Ann"); ("age", "abc")] in
  let rule :=
    {| DataValidator.required := false; DataValidator.type := Some "number";
       DataValidator.minLength := None; DataValidator.maxLength := None;
       DataValidator.pattern := None; DataValidator.min := None;
       DataValidator.max := None; DataValidator.enum := None |} in
  DataValidator.failsType rule (field row "age") = true
  /\ DataValidator.failsType rule
       (field (DataTypeConverter.transform conversions row ["name"; "age"]) "age")
     = false.
Proof.
  intros conversions row rule. split; [vm_compute; reflexivity|].
  assert (Hnd : NoDup (keys conversions)).
  { repeat constructor; cbn; intuition discriminate. }
  exact (number_rule_is_vacuous_after_number_conversion asciiRuntime conversions row
           ["name"; "age"] "age" "number" rule "number" Hnd eq_refl eq_refl eq_refl
           eq_refl).
Defined.

(** ** The order of the pipeline the engine builds *)

Section PipelineOrder.
Context {R : Runtime}.

Lemma pipelineOf_shape (options : Options.t) (tr : Transformations) :
  Options.transformations options = Some tr ->
  pipelineOf options
  = Some
      {| TransformationPipeline.transformers :=
           (match includeColumns tr, excludeColumns tr with
            | None, None => []
            | _, _ =>
                [ColumnFilterT {| ColumnFilter.includeColumns := includedOf tr;
                                  ColumnFilter.excludeColumns := excludedOf tr |}]
            end
            ++ match typeConversions tr with
               | Some conversions => [DataTypeConverterT conversions]
               | None => []
               end
            ++ match validation tr with
               | Some rules => [DataValidatorT rules]
               | None => []
               end)%list;
         TransformationPipeline.aggregator :=
           if Options.generateStats options then Some Aggregator.new else None |}.
Proof.
  intros Htr. unfold pipelineOf, CSVParser.initializeTransformations.
  unfold CSVParser.andThen, CSVParser.this. cbn [fst snd].
  cbn [CSVParser.transformations CSVParser.generateStats CSVParser.constructor].
  rewrite Htr. unfold includedOf, excludedOf.
  destruct (includeColumns tr), (excludeColumns tr), (typeConversions tr),
    (validation tr), (Options.generateStats options); reflexivity.
Qed.

Lemma get_Some_In {A} (l : Obj.t A) (k : string) (v : A) :
  Obj.get l k = Some v -> In (k, v) l.
Proof.
  induction l as [|[a b] l IH]; cbn [Obj.get In]; [discriminate|].
  destruct (String.eqb_spec a k) as [->|_].
  - intros [= ->]. now left.
  - intros H. right. now apply IH.
Qed.

Lemma required_blank_is_dropped (rules : Obj.t DataValidator.Rule) (c : string)
    (rule : DataValidator.Rule) (r : Row) (hs : list string) :
  Obj.get rules c = Some rule ->
  DataValidator.required rule = true ->
  DataValidator.isEmpty (field r c) = true ->
  DataValidator.transform rules r hs = None.
Proof.
  intros Hget Hreq Hempty. unfold DataValidator.transform.
  rewrite validate_existsb.
  assert (Hex : existsb (fun entry => violated (snd entry) (field r (fst entry)))
                  (Obj.entries rules) = true).
  { apply existsb_exists. exists (c, rule). split.
    - eapply Permutation_in; [apply Permutation_sym, entries_perm|].
      now apply get_Some_In.
    - cbn [fst snd]. unfold violated, DataValidator.failsRequired.
      now rewrite Hreq, Hempty. }
  now rewrite Hex.
Qed.

Lemma filteredOut_field (tr : Transformations) (c : string) (row : Row) (hs : list string) :
  filteredOut tr c = true ->
  field (ColumnFilter.transform
           {| ColumnFilter.includeColumns := includedOf tr;
              ColumnFilter.excludeColumns := excludedOf tr |} row hs) c
  = VUndefined.
Proof.
  unfold filteredOut. intros Hout. rewrite transform_field.
  cbn [ColumnFilter.includeColumns ColumnFilter.excludeColumns].
  destruct (str_in (excludedOf tr) c); [reflexivity|].
  destruct (includedOf tr) as [|i inc]; [discriminate|].
  cbn [orb andb] in Hout. now destruct (str_in (i :: inc) c).
Qed.

End PipelineOrder.

(** X6. The engine builds its pipeline in a fixed order: filter, convert,
    validate.  So the validator sees the row the filter left: when a column
    that carries a [required] rule is taken out by the filter, every row is
    dropped and the run writes none. *)
Theorem required_rule_on_a_filtered_column_drops_every_row
    (R : Runtime) (options : Options.t) (tr : Transformations)
    (rules : Obj.t DataValidator.Rule) (c : string) (rule : DataValidator.Rule)
    (hs : list string) (rows : list Row) :
  Options.transformations options = Some tr ->
  filteredOut tr c = true ->
  validation tr = Some rules ->
  Obj.get rules c = Some rule ->
  DataValidator.required rule = true ->
  deliveredRows (pipelineOf options) hs rows = []
  /\ droppedRows (pipelineOf options) hs rows = rows.
Proof.
  intros Htr Hout Hval Hget Hreq.
  assert (Hdrop : forall row, delivered (pipelineOf options) hs row = None).
  { intros row. rewrite (pipelineOf_shape options tr Htr). unfold delivered.
    cbn [TransformationPipeline.transformers]. rewrite Hval.
    pose proof (filteredOut_field tr c row hs Hout) as Hfield.
    assert (Hfilter : match includeColumns tr, excludeColumns tr with
                      | None, None => False
                      | _, _ => True
                      end).
    { unfold filteredOut, includedOf, excludedOf in Hout.
      destruct (includeColumns tr), (excludeColumns tr); try exact I.
      discriminate. }
    destruct (includeColumns tr), (excludeColumns tr); try contradiction;
      destruct (typeConversions tr) as [conversions|];
      cbn [app TransformationPipeline.applyAll TransformationPipeline.transformWith];
      try rewrite (required_blank_is_dropped rules c rule _ hs Hget Hreq);
      try reflexivity;
      try (rewrite Hfield; reflexivity);
      try (rewrite transform_blank; rewrite Hfield; reflexivity). }
  split.
  - induction rows as [|row rows IH]; cbn [deliveredRows]; [reflexivity|].
    now rewrite Hdrop.
  - unfold droppedRows. induction rows as [|row rows IH]; cbn [filter]; [reflexivity|].
    now rewrite Hdrop, IH.
Qed.

(** Only [name] is kept, and [email] is required: both rows are dropped. *)
Lemma required_rule_on_a_filtered_column_drops_every_row_witness :
  let rule :=
    {| DataValidator.required := true; DataValidator.type := None;
       DataValidator.minLength := None; DataValidator.maxLength := None;
       DataValidator.pattern := None; DataValidator.min := None;
       DataValidator.max := None; DataValidator.enum := None |} in
  let tr :=
    {| includeColumns := Some ["name"]; excludeColumns := None;
       typeConversions := Some [("name", "uppercase")];
       validation := Some [("email", rule)] |} in
  let options := Sample.optionsOf (Some 10) "csv" (Some tr) in
  let rows := [textRow [("name", "Ann"); ("email", "ann@example.com")];
               textRow [("name", "Bo"); ("email", "bo@example.com")]] in
  filteredOut tr "email" = true
  /\ deliveredRows (pipelineOf options) ["name"; "email"] rows = []
  /\ droppedRows (pipelineOf options) ["name"; "email"] rows = rows.
Proof.
  intros rule tr options rows. split; [reflexivity|].
  exact (required_rule_on_a_filtered_column_drops_every_row asciiRuntime options tr
           [("email", rule)] "email" rule ["name"; "email"] rows
           eq_refl eq_refl eq_refl eq_refl eq_refl).
Defined.

(** ** The aggregator *)

Section AggregatorFacts.
Context {R : Runtime}.
Import Aggregator.

Lemma processHeaders_get (row : Row) (hs : list string) (h : string) :
  NoDup hs ->
  forall st,
    Obj.get (fold_left (processHeader row) hs st) h
    = if str_in hs h then Some (observe (statOf st h) (field row h)) else Obj.get st h.
Proof.
  unfold str_in.
  induction 1 as [|a hs Hnotin Hnd IH]; intros st; cbn [fold_left existsb]; [reflexivity|].
  rewrite IH. unfold processHeader. fold (statOf st a).
  destruct (String.eqb_spec h a) as [->|Hne]; cbn [orb].
  - assert (Hno : existsb (String.eqb a) hs = false).
    { destruct (existsb (String.eqb a) hs) eqn:E; [|reflexivity].
      exfalso. apply Hnotin. apply str_in_In. exact E. }
    rewrite Hno. now rewrite get_set, String.eqb_refl.
  - assert (Hah : String.eqb a h = false) by (apply String.eqb_neq; congruence).
    unfold statOf at 1. rewrite !get_set, Hah. reflexivity.
Qed.

Lemma filter_none {A} (p : A -> bool) (l : list A) :
  (forall x, In x l -> p x = false) -> filter p l = [].
Proof.
  induction l as [|x l IH]; intros H; cbn [filter]; [reflexivity|].
  rewrite (H x) by now left. apply IH. intros y Hy. apply H. now right.
Qed.

Lemma filter_all {A} (p : A -> bool) (l : list A) :
  (forall x, p x = true) -> filter p l = l.
Proof.
  intros H. induction l as [|x l IH]; cbn [filter]; [reflexivity|].
  now rewrite H, IH.
Qed.

Lemma processHeaders_keys (row : Row) (hs : list string) :
  NoDup hs ->
  forall st,
    keys (fold_left (processHeader row) hs st)
    = (keys st ++ filter (fun h => negb (str_in (keys st) h)) hs)%list.
Proof.
  induction 1 as [|a hs Hnotin Hnd IH]; intros st; cbn [fold_left filter].
  - now rewrite app_nil_r.
  - rewrite IH. unfold processHeader.
    destruct (str_in (keys st) a) eqn:Ein; cbn [negb].
    + rewrite keys_set_present by (apply str_in_In; exact Ein). reflexivity.
    + assert (Hn : ~ In a (keys st)).
      { intros Hin. apply str_in_In in Hin. congruence. }
      rewrite keys_set_absent by exact Hn. rewrite <- app_assoc. cbn [app].
      f_equal. f_equal. apply filter_ext_in. intros h Hh. f_equal.
      unfold str_in. rewrite existsb_app. cbn [existsb].
      destruct (String.eqb_spec h a) as [->|]; [contradiction|].
      now rewrite !orb_false_r.
Qed.

Lemma observe_counted (s : ColumnStat) (n k : Z) (v : value) :
  counted s n k ->
  counted (observe s v) (n + 1) (if isNullish v then k + 1 else k).
Proof.
  intros (Hc & Hk & Hkn & Hu & Hnum & Hmax & Hmin & Hnone). unfold observe, counted.
  destruct (isNullish v); cbn [count nullCount uniqueValues numericValues minLength maxLength].
  - repeat split; try lia.
    + intros Hlt. apply Hmin. lia.
    + intros Hle. apply Hnone. lia.
  - assert (Hlen : 0 <= Str.len (toString v)) by (unfold Str.len; lia).
    assert (Hset : Z.of_nat (length (setAdd (uniqueValues s) v))
                   <= Z.of_nat (length (uniqueValues s)) + 1).
    { unfold setAdd. destruct (array_includes (uniqueValues s) v); [lia|].
      rewrite length_app. cbn [length]. lia. }
    assert (Hnums :
      Z.of_nat (length (if Num.isNaN (toNumber v) then numericValues s
                        else (numericValues s ++ [toNumber v])%list))
      <= Z.of_nat (length (numericValues s)) + 1).
    { destruct (Num.isNaN (toNumber v)); [lia|]. rewrite length_app. cbn [length]. lia. }
    repeat split; try lia. intros _.
    destruct (Z_lt_ge_dec k n) as [Hlt|Hge].
    + destruct (Hmin Hlt) as (m & -> & Hm).
      eexists. split; [reflexivity | lia].
    + rewrite Hnone by lia. eexists. split; [reflexivity | lia].
Qed.

Lemma observed_counted (h : string) (rows : list Row) :
  forall s n k,
    counted s n k ->
    counted (fold_left observe (map (fun row => field row h) rows) s)
      (n + Z.of_nat (length rows)) (k + Z.of_nat (length (nullsIn h rows))).
Proof.
  unfold nullsIn.
  induction rows as [|row rows IH]; intros s n k Hs; cbn [map fold_left filter length].
  - now rewrite !Z.add_0_r.
  - pose proof (IH _ _ _ (observe_counted s n k (field row h) Hs)) as Hnext.
    destruct (isNullish (field row h)); cbn [length];
      rewrite ?Nat2Z.inj_succ;
      [replace (n + Z.succ (Z.of_nat (length rows))) with (n + 1 + Z.of_nat (length rows))
         by lia;
       replace (k + Z.succ (Z.of_nat (length (filter (fun row0 => isNullish (field row0 h)) rows))))
         with (k + 1 + Z.of_nat (length (filter (fun row0 => isNullish (field row0 h)) rows)))
         by lia
      |replace (n + Z.succ (Z.of_nat (length rows))) with (n + 1 + Z.of_nat (length rows))
         by lia];
      exact Hnext.
Qed.

Lemma aggregated_stat (hs : list string) (h : string) (rows : list Row) :
  NoDup hs -> In h hs ->
  forall agg,
    statOf (stats (aggregated agg hs rows)) h
    = fold_left observe (map (fun row => field row h) rows) (statOf (stats agg) h).
Proof.
  intros Hnd Hin. apply str_in_In in Hin. unfold aggregated.
  induction rows as [|row rows IH]; intros agg; cbn [fold_left map]; [reflexivity|].
  rewrite IH. f_equal. unfold process. cbn [stats].
  unfold statOf at 1. now rewrite processHeaders_get, Hin.
Qed.

Lemma aggregated_get (hs : list string) (h : string) (rows : list Row) :
  NoDup hs -> In h hs -> rows <> [] ->
  forall agg,
    Obj.get (stats (aggregated agg hs rows)) h
    = Some (statOf (stats (aggregated agg hs rows)) h).
Proof.
  intros Hnd Hin. apply str_in_In in Hin. unfold aggregated.
  induction rows as [|row rows IH]; intros Hne agg; [contradiction|].
  cbn [fold_left]. destruct rows as [|row' rows].
  - cbn [fold_left]. unfold statOf, process. cbn [stats].
    now rewrite processHeaders_get, Hin.
  - apply IH. discriminate.
Qed.

Lemma aggregated_rowCount (hs : list string) (rows : list Row) :
  forall agg,
    rowCount (aggregated agg hs rows) = rowCount agg + Z.of_nat (length rows).
Proof.
  unfold aggregated.
  induction rows as [|row rows IH]; intros agg; cbn [fold_left length].
  - lia.
  - rewrite IH. cbn [process rowCount]. lia.
Qed.

Lemma aggregated_keys (hs : list string) (rows : list Row) :
  NoDup hs -> rows <> [] ->
  keys (stats (aggregated new hs rows)) = hs.
Proof.
  intros Hnd Hne. unfold aggregated.
  assert (Hkeep : forall rows agg,
             keys (stats agg) = hs ->
             keys (stats (fold_left (fun a row => process a row hs) rows agg)) = hs).
  { clear rows Hne. induction rows as [|row rows IH]; intros agg Hk; cbn [fold_left];
      [exact Hk|].
    apply IH. cbn [process stats]. rewrite processHeaders_keys by exact Hnd.
    rewrite Hk. rewrite filter_none; [apply app_nil_r|].
    intros h Hh. apply str_in_In in Hh. now rewrite Hh. }
  destruct rows as [|row rows]; [contradiction|]. cbn [fold_left].
  apply Hkeep. cbn [process stats new]. rewrite processHeaders_keys by exact Hnd.
  cbn [keys map app]. apply filter_all. reflexivity.
Qed.

End AggregatorFacts.

(** X7. Fed one row after the other with a list of distinct headers, the
    aggregator has counted every row; it keeps statistics for exactly those
    headers, enumerated in JavaScript's property order (the array-index names
    among them first, ascending, then the others in the order of the header
    list); and for each of them [count] is the number of rows, [nullCount] the
    number of rows in which the column is missing, [null] or empty, there are
    no more distinct values and no more numeric values than rows with a value,
    and the shortest length is recorded, and is at most the longest, exactly
    when some row has a value. *)
Theorem aggregator_counts_rows_and_nulls
    (R : Runtime) (hs : list string) (h : string) (rows : list Row) :
  NoDup hs -> In h hs -> rows <> [] ->
  let agg := aggregated Aggregator.new hs rows in
  let n := Z.of_nat (length rows) in
  let nulls := Z.of_nat (length (nullsIn h rows)) in
  Aggregator.rowCount agg = n
  /\ ownKeys (Aggregator.stats agg) = enumerationOf hs
  /\ exists stat,
       Obj.get (Aggregator.stats agg) h = Some stat
       /\ Aggregator.count stat = n
       /\ Aggregator.nullCount stat = nulls
       /\ 0 <= nulls <= n
       /\ Z.of_nat (length (Aggregator.uniqueValues stat)) <= n - nulls
       /\ Z.of_nat (length (Aggregator.numericValues stat)) <= n - nulls
       /\ (nulls < n ->
           exists m, Aggregator.minLength stat = Some m
                     /\ 0 <= m <= Aggregator.maxLength stat)
       /\ (nulls = n -> Aggregator.minLength stat = None).
Proof.
  intros Hnd Hin Hne agg n nulls.
  split; [unfold agg; rewrite aggregated_rowCount; reflexivity|].
  split; [unfold agg; rewrite ownKeys_keys, aggregated_keys by assumption; reflexivity|].
  exists (statOf (Aggregator.stats agg) h).
  split; [apply aggregated_get; assumption|].
  unfold agg. rewrite (aggregated_stat hs h rows Hnd Hin).
  assert (H0 : counted (statOf (Aggregator.stats Aggregator.new) h) 0 0).
  { unfold counted, statOf. cbn. repeat split; try lia. }
  destruct (observed_counted h rows _ 0 0 H0)
    as (Hc & Hk & Hkn & Hu & Hnum & Hmax & Hmin & Hnone).
  rewrite !Z.add_0_l in *. fold n nulls in Hc, Hk, Hkn, Hu, Hnum, Hmin, Hnone.
  repeat split; try assumption; try lia.
  intros Heq. apply Hnone. lia.
Qed.

(** Two rows, the second without an age. *)
Lemma aggregator_counts_rows_and_nulls_witness :
  let hs := ["name"; "age"] in
  let rows := [textRow [("name", "Ann"); ("age", "31")];
               textRow [("name", "Bo"); ("age", "")]] in
  NoDup hs /\ In "age" hs /\ rows <> []
  /\ exists stat,
       Obj.get (Aggregator.stats (aggregated Aggregator.new hs rows)) "age" = Some stat
       /\ Aggregator.count stat = 2
       /\ Aggregator.nullCount stat = 1.
Proof.
  intros hs rows.
  assert (Hnd : NoDup hs) by (repeat constructor; cbn; intuition discriminate).
  assert (Hin : In "age" hs) by (cbn; tauto).
  assert (Hne : rows <> []) by discriminate.
  split; [exact Hnd|]. split; [exact Hin|]. split; [exact Hne|].
  destruct (aggregator_counts_rows_and_nulls asciiRuntime hs "age" rows Hnd Hin Hne)
    as (_ & _ & stat & Hget & Hc & Hk & _).
  exists stat. split; [exact Hget|]. split; [exact Hc | exact Hk].
Defined.

(** ** The statistics of a sequential run *)

Section RunStatistics.
Context {R : Runtime}.

Lemma advance_None (hs : list string) (rows : list Row) : advance None hs rows = None.
Proof. induction rows as [|row rows IH]; [reflexivity | exact IH]. Qed.

Lemma advance_aggregated (hs : list string) (rows : list Row) :
  forall p : TransformationPipeline.t,
    advance (Some p) hs rows
    = Some {| TransformationPipeline.transformers := TransformationPipeline.transformers p;
              TransformationPipeline.aggregator :=
                match TransformationPipeline.aggregator p with
                | Some agg => Some (aggregated agg hs (deliveredRows (Some p) hs rows))
                | None => None
                end |}.
Proof.
  induction rows as [|row rows IH]; intros p; cbn [advance deliveredRows].
  - destruct p as [ts [agg|]]; reflexivity.
  - rewrite IH.
    destruct (transform_parts p row hs) as (calls & Ht & Hts).
    rewrite Hts.
    rewrite (deliveredRows_same_transformers
               (Some (snd (fst (TransformationPipeline.transform p row hs)))) (Some p))
      by (cbn [option_map]; now rewrite Hts).
    f_equal. f_equal.
    unfold TransformationPipeline.transform, delivered.
    destruct (TransformationPipeline.applyAll (TransformationPipeline.transformers p) row hs)
      as [[r|] calls']; cbn [fst snd TransformationPipeline.aggregator];
      destruct (TransformationPipeline.aggregator p); reflexivity.
Qed.

End RunStatistics.

(** X8. After a sequential run the statistics cover exactly the rows written:
    with transformations configured and [generateStats] set, the aggregator
    has been fed the rows the pipeline delivered, with the input's headers, and
    its row count is [totalRowsProcessed].  With [generateStats] set but no
    transformations configured there is no pipeline, hence no statistics. *)
Theorem run_statistics_cover_the_rows_written
    (R : Runtime) (env : Env) (options : Options.t) (w : World) (f : Formatter)
    (src : Source) :
  let c := CSVParser.constructor options in
  createFormatter (CSVParser.outputFormat c) engineFormatterOptions = Ret f ->
  sources env (CSVParser.inputFilePath c) = Some src ->
  Options.useMultipleProcesses options = false ->
  Options.generateStats options = true ->
  let self' := fst (fst (CSVParser.run env options w)) in
  let written := deliveredRows (pipelineOf options) (parsedHeaders src) (parsedRows src) in
  snd (CSVParser.run env options w) = Ret tt
  /\ CSVParser.totalRowsProcessed self' = Z.of_nat (length written)
  /\ match Options.transformations options with
     | None => CSVParser.transformationPipeline self' = None
     | Some _ =>
         exists p,
           CSVParser.transformationPipeline self' = Some p
           /\ TransformationPipeline.aggregator p
              = Some (aggregated Aggregator.new (parsedHeaders src) written)
           /\ Aggregator.rowCount (aggregated Aggregator.new (parsedHeaders src) written)
              = CSVParser.totalRowsProcessed self'
     end.
Proof.
  intros c Hfmt Hsrc Hseq Hstats self' written.
  pose proof (run_sequential env options w f src Hfmt Hsrc Hseq) as Hrun.
  cbv zeta in Hrun. unfold self'. rewrite Hrun. cbn [fst snd].
  cbn [CSVParser.totalRowsProcessed CSVParser.transformationPipeline running
       CSVParser.assign].
  split; [reflexivity|]. split; [reflexivity|].
  destruct (Options.transformations options) as [tr|] eqn:Htr.
  - pose proof (pipelineOf_shape options tr Htr) as Hp. rewrite Hstats in Hp.
    unfold written. rewrite Hp. rewrite advance_aggregated.
    cbn [TransformationPipeline.aggregator].
    eexists. split; [reflexivity|].
    cbn [TransformationPipeline.aggregator]. split; [reflexivity|].
    now rewrite aggregated_rowCount.
  - assert (Hp : pipelineOf options = None).
    { unfold pipelineOf, CSVParser.initializeTransformations, CSVParser.andThen,
        CSVParser.this. cbn [fst snd CSVParser.transformations CSVParser.constructor].
      rewrite Htr. reflexivity. }
    rewrite Hp. apply advance_None.
Qed.

(** The scenario with statistics: one row written, one row counted. *)
Lemma run_statistics_cover_the_rows_written_witness :
  let options :=
    {| Options.inputFilePath := Some "input.csv";
       Options.outputDirectory := Some "out";
       Options.maxRowsPerFile := Some 10;
       Options.useMultipleProcesses := false;
       Options.processCount := None;
       Options.outputFormat := Some "csv";
       Options.transformations := Some Sample.adultsOnlyConfig;
       Options.generateStats := true;
       Options.quiet := true;
       Options.chunkSizeBytes := None |} in
  let self' := fst (fst (CSVParser.run Sample.env options Sample.emptyWorld)) in
  CSVParser.totalRowsProcessed self' = 1
  /\ exists p,
       CSVParser.transformationPipeline self' = Some p
       /\ option_map Aggregator.rowCount (TransformationPipeline.aggregator p) = Some 1.
Proof.
  intros options self'.
  destruct (run_statistics_cover_the_rows_written asciiRuntime Sample.env options
              Sample.emptyWorld CSVFormatterF Sample.source eq_refl eq_refl eq_refl eq_refl)
    as (_ & Htotal & p & Hp & Hagg & Hcount).
  split; [exact Htotal|].
  exists p. split; [exact Hp|]. rewrite Hagg. cbn [option_map].
  exact (f_equal Some (eq_trans Hcount Htotal)).
Defined.

Section FilteredStatistics.
Context {R : Runtime}.

Lemma validator_returns_the_row (rules : Obj.t DataValidator.Rule) (r r' : Row)
    (hs : list string) :
  DataValidator.transform rules r hs = Some r' -> r' = r.
Proof.
  unfold DataValidator.transform. rewrite validate_existsb.
  destruct (existsb _ _); [discriminate | now intros [= <-]].
Qed.

Lemma delivered_without_filtered_column (options : Options.t) (tr : Transformations)
    (c : string) (hs : list string) (row r : Row) :
  Options.transformations options = Some tr ->
  filteredOut tr c = true ->
  delivered (pipelineOf options) hs row = Some r ->
  field r c = VUndefined.
Proof.
  intros Htr Hout. rewrite (pipelineOf_shape options tr Htr). unfold delivered.
  cbn [TransformationPipeline.transformers].
  pose proof (filteredOut_field tr c row hs Hout) as Hfield.
  assert (Hfilter : match includeColumns tr, excludeColumns tr with
                    | None, None => False
                    | _, _ => True
                    end).
  { unfold filteredOut, includedOf, excludedOf in Hout.
    destruct (includeColumns tr), (excludeColumns tr); try exact I.
    discriminate. }
  destruct (includeColumns tr), (excludeColumns tr); try contradiction;
    destruct (typeConversions tr) as [conversions|], (validation tr) as [rules|];
    cbn [app TransformationPipeline.applyAll TransformationPipeline.transformWith fst];
    repeat match goal with
      | |- context [DataValidator.transform ?rs ?x hs] =>
          let E := fresh "E" in
          destruct (DataValidator.transform rs x hs) eqn:E;
          [apply validator_returns_the_row in E; subst|]
      end;
    cbn [fst]; intros [= <-];
    rewrite ?transform_blank; rewrite ?Hfield; reflexivity.
Qed.

Lemma deliveredRows_without_filtered_column (options : Options.t) (tr : Transformations)
    (c : string) (hs : list string) (rows : list Row) :
  Options.transformations options = Some tr ->
  filteredOut tr c = true ->
  nullsIn c (deliveredRows (pipelineOf options) hs rows)
  = deliveredRows (pipelineOf options) hs rows.
Proof.
  intros Htr Hout. unfold nullsIn.
  induction rows as [|row rows IH]; cbn [deliveredRows filter]; [reflexivity|].
  destruct (delivered (pipelineOf options) hs row) as [r|] eqn:E; [|exact IH].
  cbn [filter].
  rewrite (delivered_without_filtered_column options tr c hs row r Htr Hout E).
  cbn [Aggregator.isNullish]. now rewrite IH.
Qed.

End FilteredStatistics.

(** X9. The statistics are gathered over the input's headers but on the rows
    as the pipeline delivers them.  A column the filter took out is therefore
    still reported, and as entirely null: its [nullCount] equals its [count],
    the number of rows written, and it has no value and no length on record. *)
Theorem filtered_column_is_reported_as_null
    (R : Runtime) (options : Options.t) (tr : Transformations) (c : string)
    (hs : list string) (rows : list Row) :
  Options.transformations options = Some tr ->
  filteredOut tr c = true ->
  NoDup hs -> In c hs ->
  let written := deliveredRows (pipelineOf options) hs rows in
  written <> [] ->
  exists stat,
    Obj.get (Aggregator.stats (aggregated Aggregator.new hs written)) c = Some stat
    /\ Aggregator.count stat = Z.of_nat (length written)
    /\ Aggregator.nullCount stat = Aggregator.count stat
    /\ Aggregator.uniqueValues stat = []
    /\ Aggregator.numericValues stat = []
    /\ Aggregator.minLength stat = None.
Proof.
  intros Htr Hout Hnd Hin written Hne.
  exists (statOf (Aggregator.stats (aggregated Aggregator.new hs written)) c).
  split; [apply aggregated_get; assumption|].
  rewrite (aggregated_stat hs c written Hnd Hin).
  assert (H0 : counted (statOf (Aggregator.stats Aggregator.new) c) 0 0).
  { unfold counted, statOf. cbn. repeat split; try lia. }
  destruct (observed_counted c written _ 0 0 H0)
    as (Hc & Hk & Hkn & Hu & Hnum & Hmax & Hmin & Hnone).
  unfold written in Hk, Hu, Hnum, Hnone.
  rewrite (deliveredRows_without_filtered_column options tr c hs rows Htr Hout)
    in Hk, Hu, Hnum, Hnone.
  fold written in Hc, Hk, Hu, Hnum, Hnone.
  rewrite !Z.add_0_l in *.
  split; [exact Hc|]. split; [lia|].
  split; [|split].
  - destruct (Aggregator.uniqueValues _); [reflexivity | cbn [length] in Hu; lia].
  - destruct (Aggregator.numericValues _); [reflexivity | cbn [length] in Hnum; lia].
  - apply Hnone. lia.
Qed.

(** Only [name] is kept: the statistics still list [age], with no value. *)
Lemma filtered_column_is_reported_as_null_witness :
  let tr :=
    {| includeColumns := Some ["name"]; excludeColumns := None;
       typeConversions := None; validation := None |} in
  let options := Sample.optionsOf (Some 10) "csv" (Some tr) in
  let written :=
    deliveredRows (pipelineOf options) Sample.headers [Sample.alice; Sample.bob] in
  filteredOut tr "age" = true
  /\ length written = 2%nat
  /\ exists stat,
       Obj.get (Aggregator.stats (aggregated Aggregator.new Sample.headers written)) "age"
       = Some stat
       /\ Aggregator.count stat = 2
       /\ Aggregator.nullCount stat = 2.
Proof.
  intros tr options written.
  assert (Hnd : NoDup Sample.headers) by (repeat constructor; cbn; intuition discriminate).
  assert (Hin : In "age" Sample.headers) by (cbn; tauto).
  assert (Hne : written <> []) by discriminate.
  split; [reflexivity|]. split; [reflexivity|].
  destruct (filtered_column_is_reported_as_null asciiRuntime options tr "age"
              Sample.headers [Sample.alice; Sample.bob] eq_refl eq_refl Hnd Hin Hne)
    as (stat & Hget & Hc & Hk & _).
  exists stat. split; [exact Hget|]. split; [exact Hc|]. rewrite Hk. exact Hc.
Defined.

(** ** Escaping in the XML and tab formats *)

Lemma replaceAll_app (c : ascii) (by_ x y : string) :
  Str.replaceAll c by_ (x ++ y) = Str.replaceAll c by_ x ++ Str.replaceAll c by_ y.
Proof.
  induction x as [|d x IH]; cbn [append Str.replaceAll]; [reflexivity|].
  destruct (Ascii.eqb d c); rewrite IH; [now rewrite append_assoc | reflexivity].
Qed.

Lemma includes_app (c : ascii) (x y : string) :
  Str.includes c (x ++ y) = Str.includes c x || Str.includes c y.
Proof.
  induction x as [|d x IH]; cbn [append Str.includes]; [reflexivity|].
  destruct (Ascii.eqb d c); [reflexivity | exact IH].
Qed.

Lemma split_plain (sep : ascii) (x : string) :
  Str.includes sep x = false -> Str.split sep x = [x].
Proof.
  induction x as [|d x IH]; cbn [Str.includes Str.split]; [reflexivity|].
  destruct (Ascii.eqb d sep); [discriminate|]. intros H. now rewrite (IH H).
Qed.

Lemma split_at (sep : ascii) (x rest : string) :
  Str.includes sep x = false ->
  Str.split sep (x ++ String sep rest) = x :: Str.split sep rest.
Proof.
  induction x as [|d x IH]; cbn [Str.includes Str.split append].
  - now rewrite Ascii.eqb_refl.
  - destruct (Ascii.eqb d sep); [discriminate|]. intros H. now rewrite (IH H).
Qed.

Lemma split_join (sep : ascii) (l : list string) :
  forall x,
    Forall (fun y => Str.includes sep y = false) (x :: l) ->
    Str.split sep (Str.join (Str.chr sep) (x :: l)) = x :: l.
Proof.
  induction l as [|y l IH]; intros x Hall; inversion Hall as [|? ? Hx Hl]; subst.
  - rewrite join_one. now apply split_plain.
  - rewrite join_cons.
    change (Str.chr sep ++ Str.join (Str.chr sep) (y :: l))
      with (String sep (Str.join (Str.chr sep) (y :: l))).
    rewrite split_at by exact Hx. now rewrite IH.
Qed.

Section Escaping.
Context {R : Runtime}.

Lemma escapeXMLValue_charwise (s : string) :
  CSVParser.escapeXMLValue (VString s) = charwise xmlChar s.
Proof.
  unfold CSVParser.escapeXMLValue. cbn [toString].
  induction s as [|c s IH]; [reflexivity|].
  cbn [charwise]. rewrite <- IH. unfold xmlChar.
  destruct (Ascii.eqb c "&") eqn:E1;
    [apply Ascii.eqb_eq in E1; subst c; reflexivity|].
  destruct (Ascii.eqb c "<") eqn:E2;
    [apply Ascii.eqb_eq in E2; subst c; reflexivity|].
  destruct (Ascii.eqb c ">") eqn:E3;
    [apply Ascii.eqb_eq in E3; subst c; reflexivity|].
  destruct (Ascii.eqb c Str.dquote) eqn:E4;
    [apply Ascii.eqb_eq in E4; subst c; reflexivity|].
  destruct (Ascii.eqb c "'") eqn:E5;
    [apply Ascii.eqb_eq in E5; subst c; reflexivity|].
  cbn [Str.replaceAll]. rewrite E1. cbn [Str.replaceAll]. rewrite E2.
  cbn [Str.replaceAll]. rewrite E3. cbn [Str.replaceAll]. rewrite E4.
  cbn [Str.replaceAll]. rewrite E5. reflexivity.
Qed.

Lemma xmlChar_plain (c : ascii) :
  Str.includes "<" (xmlChar c) = false /\ Str.includes ">" (xmlChar c) = false
  /\ Str.includes Str.dquote (xmlChar c) = false /\ Str.includes "'" (xmlChar c) = false.
Proof.
  unfold xmlChar.
  destruct (Ascii.eqb c "&"); [repeat split; reflexivity|].
  destruct (Ascii.eqb c "<") eqn:E2; [repeat split; reflexivity|].
  destruct (Ascii.eqb c ">") eqn:E3; [repeat split; reflexivity|].
  destruct (Ascii.eqb c Str.dquote) eqn:E4; [repeat split; reflexivity|].
  destruct (Ascii.eqb c "'") eqn:E5; [repeat split; reflexivity|].
  unfold Str.chr. cbn [Str.includes]. rewrite E2, E3, E4, E5. repeat split; reflexivity.
Qed.

Lemma unescape_xmlChar (c : ascii) (rest : string) :
  XMLText.unescapeFrom 0 (xmlChar c ++ rest) = String c (XMLText.unescapeFrom 0 rest).
Proof.
  unfold xmlChar.
  destruct (Ascii.eqb c "&") eqn:E1;
    [apply Ascii.eqb_eq in E1; subst c; reflexivity|].
  destruct (Ascii.eqb c "<") eqn:E2;
    [apply Ascii.eqb_eq in E2; subst c; reflexivity|].
  destruct (Ascii.eqb c ">") eqn:E3;
    [apply Ascii.eqb_eq in E3; subst c; reflexivity|].
  destruct (Ascii.eqb c Str.dquote) eqn:E4;
    [apply Ascii.eqb_eq in E4; subst c; reflexivity|].
  destruct (Ascii.eqb c "'") eqn:E5;
    [apply Ascii.eqb_eq in E5; subst c; reflexivity|].
  unfold Str.chr. cbn [append XMLText.unescapeFrom]. now rewrite E1.
Qed.

Lemma escapeTSVValue_charwise (s : string) :
  TSVFormatter.escapeTSVValue (VString s) = charwise tsvChar s.
Proof.
  unfold TSVFormatter.escapeTSVValue. cbn [toString].
  induction s as [|c s IH]; [reflexivity|].
  cbn [charwise]. rewrite <- IH. unfold tsvChar.
  destruct (Ascii.eqb c Str.TAB) eqn:E1;
    [apply Ascii.eqb_eq in E1; subst c; reflexivity|].
  destruct (Ascii.eqb c Str.LF) eqn:E2;
    [apply Ascii.eqb_eq in E2; subst c; reflexivity|].
  destruct (Ascii.eqb c Str.CR) eqn:E3;
    [apply Ascii.eqb_eq in E3; subst c; reflexivity|].
  cbn [Str.replaceAll]. rewrite E1. cbn [Str.replaceAll]. rewrite E2.
  cbn [Str.replaceAll]. rewrite E3. reflexivity.
Qed.

Lemma tsvChar_plain (c : ascii) :
  Str.includes Str.TAB (tsvChar c) = false /\ Str.includes Str.LF (tsvChar c) = false
  /\ Str.includes Str.CR (tsvChar c) = false.
Proof.
  unfold tsvChar.
  destruct (Ascii.eqb c Str.TAB) eqn:E1; [repeat split; reflexivity|].
  destruct (Ascii.eqb c Str.LF) eqn:E2; [repeat split; reflexivity|].
  destruct (Ascii.eqb c Str.CR) eqn:E3; [repeat split; reflexivity|].
  unfold Str.chr. cbn [Str.includes]. rewrite E1, E2, E3. repeat split; reflexivity.
Qed.

Lemma charwise_includes (f : ascii -> string) (d : ascii) (s : string) :
  (forall c, Str.includes d (f c) = false) ->
  Str.includes d (charwise f s) = false.
Proof.
  intros Hf. induction s as [|c s IH]; cbn [charwise]; [reflexivity|].
  now rewrite includes_app, Hf, IH.
Qed.

Lemma escapeTSVValue_plain (v : value) :
  Str.includes Str.TAB (TSVFormatter.escapeTSVValue v) = false
  /\ Str.includes Str.LF (TSVFormatter.escapeTSVValue v) = false
  /\ Str.includes Str.CR (TSVFormatter.escapeTSVValue v) = false.
Proof.
  assert (H : forall s,
             Str.includes Str.TAB (TSVFormatter.escapeTSVValue (VString s)) = false
             /\ Str.includes Str.LF (TSVFormatter.escapeTSVValue (VString s)) = false
             /\ Str.includes Str.CR (TSVFormatter.escapeTSVValue (VString s)) = false).
  { intros s. rewrite escapeTSVValue_charwise.
    repeat split; apply charwise_includes; intros c; apply tsvChar_plain. }
  destruct v as [| |b|f|s]; try (repeat split; reflexivity).
  - exact (H (toString (VBool b))).
  - exact (H (toString (VNumber f))).
  - exact (H s).
Qed.

End Escaping.

Lemma includes_join (c : ascii) (sep : string) (l : list string) :
  Str.includes c sep = false ->
  Forall (fun y => Str.includes c y = false) l ->
  Str.includes c (Str.join sep l) = false.
Proof.
  intros Hsep. induction 1 as [|x l Hx Hl IH]; [reflexivity|].
  destruct l as [|y l]; [now rewrite join_one|].
  rewrite join_cons, !includes_app, Hx, Hsep, IH. reflexivity.
Qed.

(** X10. The engine's XML escaping works character by character: each of
    [&], [<], [>], the double quote and the apostrophe is written as its
    predefined entity and every other character as itself.  The text written
    holds none of [<], [>], the double quote and the apostrophe, and a reader
    that resolves the five entities gets the original text back: the ampersand
    is escaped first, so the entities themselves are not escaped again. *)
Theorem xml_escaping_is_reversible (R : Runtime) :
  (forall s, CSVParser.escapeXMLValue (VString s) = charwise xmlChar s)
  /\ (forall v,
        Str.includes "<" (CSVParser.escapeXMLValue v) = false
        /\ Str.includes ">" (CSVParser.escapeXMLValue v) = false
        /\ Str.includes Str.dquote (CSVParser.escapeXMLValue v) = false
        /\ Str.includes "'" (CSVParser.escapeXMLValue v) = false)
  /\ (forall s, XMLText.unescape (CSVParser.escapeXMLValue (VString s)) = s).
Proof.
  split; [exact escapeXMLValue_charwise|]. split.
  - assert (H : forall s,
               Str.includes "<" (CSVParser.escapeXMLValue (VString s)) = false
               /\ Str.includes ">" (CSVParser.escapeXMLValue (VString s)) = false
               /\ Str.includes Str.dquote (CSVParser.escapeXMLValue (VString s)) = false
               /\ Str.includes "'" (CSVParser.escapeXMLValue (VString s)) = false).
    { intros s. rewrite escapeXMLValue_charwise.
      repeat split; apply charwise_includes; intros c; apply xmlChar_plain. }
    intros v. destruct v as [| |b|f|s]; try (repeat split; reflexivity).
    + exact (H (toString (VBool b))).
    + exact (H (toString (VNumber f))).
    + exact (H s).
  - intros s. rewrite escapeXMLValue_charwise. unfold XMLText.unescape.
    induction s as [|c s IH]; [reflexivity|].
    cbn [charwise]. now rewrite unescape_xmlChar, IH.
Qed.

(** X11. The tab-format escaping leaves no tab, line feed or carriage return in
    a cell, so a written row is exactly one line, and splitting that line at
    the tabs gives back the cells as written.  The cells do not give back the
    values: the backslash itself is not escaped, so a tab and the two
    characters backslash, [t] are written alike. *)
Theorem tab_row_splits_back_into_its_cells
    (R : Runtime) (row : Row) (h : string) (hs : list string) :
  let cells := TSVFormatter.rowValues row (h :: hs) in
  Str.split Str.TAB (Str.join tab cells) = cells
  /\ Str.split Str.LF (TSVFormatter.writeRow "" row (h :: hs)) = [Str.join tab cells; ""]
  /\ Str.includes Str.CR (TSVFormatter.writeRow "" row (h :: hs)) = false
  /\ TSVFormatter.escapeTSVValue (VString (Str.chr Str.TAB))
     = TSVFormatter.escapeTSVValue (VString (String Str.backslash "t")).
Proof.
  intros cells.
  assert (Hplain : forall c, In c [Str.TAB; Str.LF; Str.CR] ->
             Forall (fun y => Str.includes c y = false) cells).
  { intros c Hc. unfold cells, TSVFormatter.rowValues.
    apply Forall_forall. intros y Hy. apply in_map_iff in Hy as (x & <- & _).
    destruct (escapeTSVValue_plain (or_else (field row x) (VString ""))) as (H1 & H2 & H3).
    cbn [In] in Hc. destruct Hc as [<- | [<- | [<- | []]]]; assumption. }
  split; [|split; [|split]].
  - apply (split_join Str.TAB). apply Hplain. cbn [In]. tauto.
  - unfold TSVFormatter.writeRow. fold cells. cbn [append]. unfold nl, Str.chr.
    rewrite split_at; [reflexivity|].
    apply includes_join; [reflexivity|]. apply Hplain. cbn [In]. tauto.
  - unfold TSVFormatter.writeRow. fold cells. cbn [append].
    rewrite includes_app.
    rewrite includes_join; [reflexivity | reflexivity |].
    apply Hplain. cbn [In]. tauto.
  - reflexivity.
Qed.

(** ** The byte ranges of parallel mode *)

Lemma chunksFrom_done (fuel : nat) (start chunkSize fileSize : Z) :
  fileSize <= start -> CSVParser.chunksFrom fuel start chunkSize fileSize = [].
Proof.
  intros H. destruct fuel; cbn [CSVParser.chunksFrom]; [reflexivity|].
  destruct (Z.ltb_spec start fileSize); [lia | reflexivity].
Qed.

Lemma chunksFrom_spec (chunkSize fileSize : Z) :
  1 <= chunkSize ->
  forall fuel start,
    fileSize - start <= Z.of_nat fuel ->
    let chunks := CSVParser.chunksFrom fuel start chunkSize fileSize in
    tiles start fileSize chunks = true
    /\ Forall (fun ch => snd ch - fst ch + 1 <= chunkSize) chunks
    /\ (chunks <> [] -> start + (Z.of_nat (length chunks) - 1) * chunkSize < fileSize)
    /\ (forall extra,
          CSVParser.chunksFrom (fuel + extra) start chunkSize fileSize = chunks).
Proof.
  intros Hcs. induction fuel as [|fuel IH]; intros start Hfuel chunks; unfold chunks.
  - cbn [CSVParser.chunksFrom tiles]. repeat split.
    + apply Z.leb_le. cbn in Hfuel. lia.
    + constructor.
    + congruence.
    + intros extra. apply chunksFrom_done. cbn in Hfuel. lia.
  - cbn [CSVParser.chunksFrom Nat.add].
    destruct (Z.ltb_spec start fileSize) as [Hlt|Hge].
    + destruct (IH (start + chunkSize) ltac:(lia)) as (Ht & Hs & Hn & Hx).
      cbn [tiles]. repeat split.
      * rewrite Z.eqb_refl. cbn [andb].
        assert (H1 : (start <=? Z.min (start + chunkSize - 1) (fileSize - 1)) = true)
          by (apply Z.leb_le; lia).
        assert (H2 : (Z.min (start + chunkSize - 1) (fileSize - 1) <? fileSize) = true)
          by (apply Z.ltb_lt; lia).
        rewrite H1, H2. cbn [andb].
        destruct (Z_le_gt_dec (start + chunkSize) fileSize) as [Hin|Hout].
        -- replace (Z.min (start + chunkSize - 1) (fileSize - 1) + 1)
             with (start + chunkSize) by lia.
           exact Ht.
        -- replace (Z.min (start + chunkSize - 1) (fileSize - 1) + 1) with fileSize by lia.
           rewrite chunksFrom_done by lia. cbn [tiles]. apply Z.leb_le. lia.
      * constructor; [cbn [fst snd]; lia | exact Hs].
      * intros _. cbn [length].
        destruct (CSVParser.chunksFrom fuel (start + chunkSize) chunkSize fileSize)
          as [|ch rest] eqn:E.
        -- cbn [length]. lia.
        -- specialize (Hn ltac:(discriminate)). cbn [length] in *. lia.
      * intros extra. now rewrite Hx.
    + cbn [tiles]. repeat split.
      * apply Z.leb_le. lia.
      * constructor.
      * congruence.
Qed.

Lemma ceiling_covers (a b : Z) : 0 < b -> a <= b * (- ((- a) / b)).
Proof.
  intros Hb. pose proof (Z.div_mod (- a) b ltac:(lia)) as Hdm.
  pose proof (Z.mod_pos_bound (- a) b Hb) as Hr. nia.
Qed.

Lemma ceiling_of_negative (a b : Z) : 0 < a -> b < 0 -> - ((- a) / b) <= 0.
Proof.
  intros Ha Hb. pose proof (Z.div_mod (- a) b ltac:(lia)) as Hdm.
  pose proof (Z.mod_neg_bound (- a) b Hb) as Hr. nia.
Qed.

(** X12. With a positive worker count and a positive chunk-size limit,
    [createFileChunks] returns, and the byte ranges it returns tile the file:
    they are non-empty, each starts right after the previous one, the first
    starts at byte 0 and the last ends at the file's last byte (an empty file
    gives none).  No range is longer than the chunk size, and unless the
    chunk-size limit is the smaller bound there are no more ranges than
    workers. *)
Theorem createFileChunks_tiles_the_file (self : CSVParser.t) (fileSize : Z) :
  0 <= fileSize ->
  0 < CSVParser.processCount self ->
  0 < CSVParser.chunkSizeBytes self ->
  exists chunks,
    CSVParser.createFileChunks self fileSize = Some chunks
    /\ tiles 0 fileSize chunks = true
    /\ Forall (fun ch => snd ch - fst ch + 1 <= chunkSizeOf self fileSize) chunks
    /\ (forall extra,
          CSVParser.chunksFrom (Z.to_nat fileSize + extra) 0 (chunkSizeOf self fileSize)
            fileSize
          = chunks)
    /\ (- ((- fileSize) / CSVParser.processCount self) <= CSVParser.chunkSizeBytes self ->
        Z.of_nat (length chunks) <= CSVParser.processCount self).
Proof.
  intros Hsize Hcount Hlimit.
  unfold CSVParser.createFileChunks. fold (chunkSizeOf self fileSize).
  pose proof (ceiling_covers fileSize (CSVParser.processCount self) Hcount) as Hceil.
  destruct (Z.eq_dec fileSize 0) as [->|Hne].
  - destruct (chunkSizeOf self 0 <? 1); cbn [andb Z.ltb Z.compare Z.to_nat CSVParser.chunksFrom];
      eexists; (split; [reflexivity|]); repeat split; try constructor.
    + intros extra. apply chunksFrom_done. lia.
    + intros _. cbn [length]. lia.
    + intros extra. apply chunksFrom_done. lia.
    + intros _. cbn [length]. lia.
  - assert (Hcs : 1 <= chunkSizeOf self fileSize) by (unfold chunkSizeOf; nia).
    destruct (Z.ltb_spec (chunkSizeOf self fileSize) 1) as [Hbad|_]; [lia|].
    cbn [andb].
    destruct (chunksFrom_spec (chunkSizeOf self fileSize) fileSize Hcs
                (Z.to_nat fileSize) 0 ltac:(lia)) as (Ht & Hs & Hn & Hx).
    eexists. split; [reflexivity|]. split; [exact Ht|]. split; [exact Hs|].
    split; [exact Hx|].
    intros Hsmall.
    assert (Hchunks : CSVParser.chunksFrom (Z.to_nat fileSize) 0 (chunkSizeOf self fileSize)
                        fileSize <> []).
    { destruct (Z.to_nat fileSize) eqn:E; [lia|]. cbn [CSVParser.chunksFrom].
      destruct (Z.ltb_spec 0 fileSize); [discriminate | lia]. }
    specialize (Hn Hchunks).
    assert (Heq : chunkSizeOf self fileSize
                  = - ((- fileSize) / CSVParser.processCount self))
      by (unfold chunkSizeOf; lia).
    rewrite Heq in Hn, Hcs |- *.
    set (c := - ((- fileSize) / CSVParser.processCount self)) in *.
    set (n := Z.of_nat (length (CSVParser.chunksFrom (Z.to_nat fileSize) 0 c fileSize)))
      in *.
    destruct (Z_le_gt_dec n (CSVParser.processCount self)) as [Hle|Hgt]; [exact Hle|].
    exfalso.
    assert (Hmul : CSVParser.processCount self * c <= (n - 1) * c)
      by (apply Z.mul_le_mono_nonneg_r; lia).
    lia.
Qed.

(** A file of 37 bytes for two workers: two ranges, of 19 and 18 bytes. *)
Lemma createFileChunks_tiles_the_file_witness :
  let self := CSVParser.constructor Sample.twoWorkers in
  0 <= 37 /\ 0 < CSVParser.processCount self /\ 0 < CSVParser.chunkSizeBytes self
  /\ exists chunks,
       CSVParser.createFileChunks self 37 = Some chunks
       /\ tiles 0 37 chunks = true
       /\ Z.of_nat (length chunks) <= 2.
Proof.
  intros self.
  assert (H0 : 0 <= 37) by lia.
  assert (H1 : 0 < CSVParser.processCount self) by reflexivity.
  assert (H2 : 0 < CSVParser.chunkSizeBytes self) by reflexivity.
  split; [exact H0|]. split; [exact H1|]. split; [exact H2|].
  destruct (createFileChunks_tiles_the_file self 37 H0 H1 H2)
    as (chunks & Hc & Ht & _ & _ & Hn).
  exists chunks. split; [exact Hc|]. split; [exact Ht|].
  apply Hn. vm_compute. discriminate.
Defined.

Lemma chunksFrom_stuck (chunkSize fileSize : Z) :
  chunkSize <= 0 ->
  forall fuel start,
    start < fileSize ->
    length (CSVParser.chunksFrom fuel start chunkSize fileSize) = fuel
    /\ Forall (fun ch => fst ch <= start) (CSVParser.chunksFrom fuel start chunkSize fileSize).
Proof.
  intros Hcs. induction fuel as [|fuel IH]; intros start Hlt; cbn [CSVParser.chunksFrom].
  - split; [reflexivity | constructor].
  - destruct (Z.ltb_spec start fileSize); [|lia].
    destruct (IH (start + chunkSize) ltac:(lia)) as (Hlen & Hall).
    cbn [length]. split; [now rewrite Hlen|].
    constructor; [cbn [fst]; lia|].
    eapply Forall_impl; [|exact Hall]. cbn beta. intros ch Hch. lia.
Qed.

(** X13. A worker count below zero, which the constructor accepts, makes the
    chunk size zero or negative on a file that is not empty, and so does a
    chunk-size limit below one.  The loop of [createFileChunks] then never
    ends: however many turns it is given it is still running, every range it
    has pushed starting at byte 0 or before it. *)
Theorem createFileChunks_loops_on_a_negative_worker_count
    (self : CSVParser.t) (fileSize : Z) :
  0 < fileSize ->
  CSVParser.processCount self < 0 \/ CSVParser.chunkSizeBytes self < 1 ->
  chunkSizeOf self fileSize <= 0
  /\ CSVParser.createFileChunks self fileSize = None
  /\ forall turns,
       let pushed := CSVParser.chunksFrom turns 0 (chunkSizeOf self fileSize) fileSize in
       length pushed = turns /\ Forall (fun ch => fst ch <= 0) pushed.
Proof.
  intros Hsize Hbad.
  assert (Hcs : chunkSizeOf self fileSize <= 0).
  { unfold chunkSizeOf. destruct Hbad as [Hneg|Hsmall]; [|lia].
    pose proof (ceiling_of_negative fileSize (CSVParser.processCount self) Hsize Hneg).
    lia. }
  split; [exact Hcs|]. split.
  - unfold CSVParser.createFileChunks. fold (chunkSizeOf self fileSize).
    destruct (Z.ltb_spec (chunkSizeOf self fileSize) 1); [|lia].
    destruct (Z.ltb_spec 0 fileSize); [reflexivity | lia].
  - intros turns. exact (chunksFrom_stuck _ fileSize Hcs turns 0 Hsize).
Qed.

(** Three workers below zero on the sample source: the loop does not end. *)
Lemma createFileChunks_loops_on_a_negative_worker_count_witness :
  let self := CSVParser.constructor Sample.negativeOptions in
  0 < 37
  /\ CSVParser.processCount self = -3
  /\ CSVParser.createFileChunks self 37 = None
  /\ length (CSVParser.chunksFrom 1000 0 (chunkSizeOf self 37) 37) = 1000%nat.
Proof.
  intros self.
  assert (H0 : 0 < 37) by lia.
  assert (H1 : CSVParser.processCount self < 0 \/ CSVParser.chunkSizeBytes self < 1)
    by (left; reflexivity).
  destruct (createFileChunks_loops_on_a_negative_worker_count self 37 H0 H1)
    as (_ & Hnone & Hturns).
  split; [exact H0|]. split; [reflexivity|]. split; [exact Hnone|].
  exact (proj1 (Hturns 1000%nat)).
Defined.

Lemma substring_zero (n : nat) (s : string) : substring n 0 s = "".
Proof.
  revert n. induction s as [|c s IH]; intros [|n]; cbn [substring]; try reflexivity.
  apply IH.
Qed.

Lemma substring_split (s : string) :
  forall a n m,
    substring a (n + m) s = substring a n s ++ substring (a + n) m s.
Proof.
  induction s as [|c s IH]; intros a n m.
  - destruct a, n, m; reflexivity.
  - destruct a as [|a].
    + destruct n as [|n]; cbn [Nat.add substring append]; [reflexivity|].
      rewrite (IH 0%nat n m). reflexivity.
    + cbn [Nat.add substring]. apply IH.
Qed.

Lemma substring_whole (s : string) : substring 0 (String.length s) s = s.
Proof. induction s as [|c s IH]; cbn [String.length substring]; [reflexivity | now rewrite IH]. Qed.

Lemma tiles_cover (bytes : string) (chunks : list (Z * Z)) :
  forall start,
    0 <= start <= Str.len bytes ->
    tiles start (Str.len bytes) chunks = true ->
    concatText (map (bufferOf bytes) chunks)
    = substring (Z.to_nat start) (Z.to_nat (Str.len bytes - start)) bytes.
Proof.
  induction chunks as [|[s e] chunks IH]; intros start Hstart Ht; cbn [tiles] in Ht.
  - apply Z.leb_le in Ht. replace (Str.len bytes - start) with 0 by lia.
    cbn [map concatText fold_right Z.to_nat]. now rewrite substring_zero.
  - apply andb_prop in Ht as [Ht Hrest]. apply andb_prop in Ht as [Ht He].
    apply andb_prop in Ht as [Hs Hse].
    apply Z.eqb_eq in Hs. apply Z.leb_le in Hse. apply Z.ltb_lt in He. subst s.
    cbn [map concatText fold_right]. fold (concatText (map (bufferOf bytes) chunks)).
    rewrite (IH (e + 1)) by (try exact Hrest; lia).
    unfold bufferOf. cbn [fst snd].
    replace (Z.to_nat (Str.len bytes - start))
      with (Z.to_nat (e - start + 1) + Z.to_nat (Str.len bytes - (e + 1)))%nat by lia.
    rewrite substring_split. f_equal. f_equal. lia.
Qed.

(** X14. On an ASCII source the byte ranges leave out nothing and read nothing
    twice: whenever [createFileChunks] returns for the source, the texts the
    workers read for the ranges, put end to end in the order of the ranges,
    are the source.  (The ranges are cut by byte count alone; in a source that
    is not ASCII a range may end inside a character, which neither of the two
    workers then reads as it was.) *)
Theorem partitions_cover_the_source
    (self : CSVParser.t) (bytes : string) (chunks : list (Z * Z)) :
  sevenBit bytes = true ->
  CSVParser.createFileChunks self (Str.len bytes) = Some chunks ->
  concatText (map (bufferOf bytes) chunks) = bytes.
Proof.
  intros _.
  unfold CSVParser.createFileChunks. fold (chunkSizeOf self (Str.len bytes)).
  assert (Hlen : 0 <= Str.len bytes) by (unfold Str.len; lia).
  destruct (Z.ltb_spec (chunkSizeOf self (Str.len bytes)) 1) as [Hsmall|Hcs];
    destruct (Z.ltb_spec 0 (Str.len bytes)) as [Hpos|Hzero]; cbn [andb];
    try discriminate; intros [= <-].
  - assert (Hempty : bytes = "").
    { destruct bytes; [reflexivity|]. unfold Str.len in Hzero. cbn [String.length] in Hzero. lia. }
    subst bytes. reflexivity.
  - destruct (chunksFrom_spec (chunkSizeOf self (Str.len bytes)) (Str.len bytes) Hcs
                (Z.to_nat (Str.len bytes)) 0 ltac:(lia)) as (Ht & _).
    rewrite (tiles_cover bytes _ 0) by (try exact Ht; lia).
    rewrite Z.sub_0_r. unfold Str.len. rewrite Nat2Z.id. apply substring_whole.
  - assert (Hempty : bytes = "").
    { destruct bytes; [reflexivity|]. unfold Str.len in Hzero. cbn [String.length] in Hzero. lia. }
    subst bytes. reflexivity.
Qed.

(** The sample source, read by two workers. *)
Lemma partitions_cover_the_source_witness :
  sevenBit (bytes Sample.splitSource) = true
  /\ CSVParser.createFileChunks (CSVParser.constructor Sample.twoWorkers)
       (Str.len (bytes Sample.splitSource))
     = Some [(0, 18); (19, 36)]
  /\ bufferOf (bytes Sample.splitSource) (0, 18) ++ bufferOf (bytes Sample.splitSource) (19, 36)
     = bytes Sample.splitSource.
Proof.
  assert (Ha : sevenBit (bytes Sample.splitSource) = true) by (vm_compute; reflexivity).
  assert (Hc : CSVParser.createFileChunks (CSVParser.constructor Sample.twoWorkers)
                 (Str.len (bytes Sample.splitSource))
               = Some [(0, 18); (19, 36)]) by (vm_compute; reflexivity).
  split; [exact Ha|]. split; [exact Hc|].
  pose proof (partitions_cover_the_source _ _ _ Ha Hc) as H.
  cbn [map concatText fold_right] in H. now rewrite append_nil_r in H.
Defined.

(** ** A worker of parallel mode *)

Section WorkerRun.
Context {R : Runtime}.
Variable timestamp : string.
Variable wd : WorkerData.
Variable index : Z.

Let limit := wd_maxRowsPerFile wd.
Let dir := wd_outputDirectory wd.
Let pathOf (k : Z) : string := pathJoin dir (workerFileName timestamp index k).

Lemma worker_new_file (res : PartitionResult) (k cnt : Z) (d : list string)
    (pre : list Stream) (p c : string) :
  Worker.createNewOutputStream timestamp wd index (working res k cnt d pre p c)
  = working (Worker.pushFile res (workerFileName timestamp index k)) (k + 1) 0 d
      (pre ++ [{| path := p; content := c; ended := true; records := cnt |}])
      (pathOf k) (workerOpening wd).
Proof.
  unfold Worker.createNewOutputStream, working, Worker.onStream, openFile.
  cbn [Worker.currentOutputStream Worker.world Worker.results Worker.currentRowCount
       Worker.currentFileIndex directories streams].
  rewrite updateNth_last. cbn [streamEnd path content].
  reflexivity.
Qed.

Lemma worker_step (res : PartitionResult) (k cnt : Z) (d : list string)
    (pre : list Stream) (p c : string) (i : Z) (line : string) :
  Worker.processLine timestamp wd index i line (working res k cnt d pre p c)
  = match lineOutcome wd line with
    | None | Some (Ret None) => working res k cnt d pre p c
    | Some (Throw message) =>
        working
          (Worker.pushError res ("Error processing line " ++ decimal i ++ ": " ++ message))
          k cnt d pre p c
    | Some (Ret (Some r)) =>
        if cnt + 1 >=? limit then
          working
            (Worker.pushFile (Worker.countRow res) (workerFileName timestamp index k))
            (k + 1) 0 d
            (pre ++ [{| path := p; content := c ++ workerRowText wd r; ended := true;
                        records := cnt + 1 |}])
            (pathOf k) (workerOpening wd)
        else working (Worker.countRow res) k (cnt + 1) d pre p (c ++ workerRowText wd r)
    end.
Proof.
  unfold Worker.processLine, lineOutcome. cbv zeta.
  destruct (Str.isEmptyString (Str.trim line)); [reflexivity|].
  destruct (Worker.applyTransformations wd (Worker.parseLine wd (Str.trim line)))
    as [[r|]|message]; [|reflexivity|reflexivity].
  assert (Hwrite :
    (if String.eqb (wd_outputFormat wd) "csv" then
       Worker.writeLine
         (Str.join ","
            (map (fun header =>
                    Worker.escapeCSVValue (or_else (field r header) (VString "")))
               (wd_headers wd)) ++ nl)
         (working res k cnt d pre p c)
     else if String.eqb (wd_outputFormat wd) "json" then
       Worker.writeLine (JSON.stringify r ++ nl) (working res k cnt d pre p c)
     else working res k cnt d pre p c)
    = working res k cnt d pre p (c ++ workerRowText wd r)).
  { unfold workerRowText, Worker.writeLine, working, Worker.onStream, openFile.
    cbn [Worker.currentOutputStream Worker.world Worker.results Worker.currentRowCount
         Worker.currentFileIndex directories streams].
    destruct (String.eqb (wd_outputFormat wd) "csv");
      [rewrite updateNth_last; reflexivity|].
    destruct (String.eqb (wd_outputFormat wd) "json");
      [rewrite updateNth_last; reflexivity|].
    now rewrite append_nil_r. }
  rewrite Hwrite. clear Hwrite.
  cbn [Worker.results Worker.currentFileIndex Worker.currentRowCount
       Worker.currentOutputStream Worker.world working].
  fold limit.
  destruct (cnt + 1 >=? limit); [|reflexivity].
  exact (worker_new_file (Worker.countRow res) k (cnt + 1) d pre p
           (c ++ workerRowText wd r)).
Qed.

Lemma working_eq (ci ci' n n' : Z) (fs fs' es es' : list string) (k k' cnt cnt' : Z)
    (d : list string) (pre pre' : list Stream) (p p' c c' : string) :
  ci = ci' -> n = n' -> fs = fs' -> es = es' -> k = k' -> cnt = cnt' -> pre = pre' ->
  p = p' -> c = c' ->
  working {| chunkIndex := ci; rowsProcessed := n; filesCreated := fs; errors := es |}
    k cnt d pre p c
  = working {| chunkIndex := ci'; rowsProcessed := n'; filesCreated := fs'; errors := es' |}
      k' cnt' d pre' p' c'.
Proof. now intros -> -> -> -> -> -> -> -> ->. Qed.

Lemma workerBody_snoc (g : list Row) (r : Row) :
  workerBody wd (g ++ [r]) = workerBody wd g ++ workerRowText wd r.
Proof.
  unfold workerBody. rewrite map_app, concatText_app. cbn.
  now rewrite append_nil_r.
Qed.

Lemma workerFiles_snoc (gs : list (list Row)) (last : list Row) :
  forall k,
    workerFiles timestamp wd index k (gs ++ [last])
    = (workerFiles timestamp wd index k gs
       ++ [workerFile timestamp wd index (k + Z.of_nat (length gs)) last])%list.
Proof.
  induction gs as [|g gs IH]; intros k; cbn [app workerFiles length].
  - now rewrite Z.add_0_r.
  - rewrite IH.
    now replace (k + 1 + Z.of_nat (length gs)) with (k + Z.of_nat (S (length gs))) by lia.
Qed.

(** The loop over the lines, from a file open on the rows [g]. *)
Lemma worker_loop (d : list string) (ci : Z) :
  forall lines i n fs es g pre j cnt,
    cnt = Z.of_nat (length g) ->
    let D := workerRows wd lines in
    let gs := fst (groups limit g D) in
    let last := snd (groups limit g D) in
    Worker.loop timestamp wd index i lines
      (working {| chunkIndex := ci; rowsProcessed := n; filesCreated := fs; errors := es |}
         (j + 1) cnt d pre (pathOf j) (workerOpening wd ++ workerBody wd g))
    = working
        {| chunkIndex := ci;
           rowsProcessed := n + Z.of_nat (length D);
           filesCreated := fs ++ workerFileNames timestamp index (j + 1) (length gs);
           errors := es ++ workerErrors wd i lines |}
        (j + 1 + Z.of_nat (length gs)) (Z.of_nat (length last)) d
        (pre ++ workerFiles timestamp wd index j gs)
        (pathOf (j + Z.of_nat (length gs))) (workerOpening wd ++ workerBody wd last).
Proof.
  induction lines as [|line lines IH]; intros i n fs es g pre j cnt Hcnt.
  - cbn. apply working_eq; try reflexivity; try lia; rewrite ?app_nil_r; try reflexivity.
    now rewrite Z.add_0_r.
  - cbv zeta. cbn [Worker.loop]. rewrite worker_step.
    cbn [workerRows workerErrors].
    destruct (lineOutcome wd line) as [[[r|]|message]|].
    + (* a row is written *)
      assert (Hlen : Z.of_nat (length (g ++ [r])) = cnt + 1)
        by (rewrite length_app; cbn [length]; lia).
      cbn [groups length]. rewrite Hlen.
      destruct (cnt + 1 >=? limit).
      * unfold Worker.pushFile, Worker.countRow.
        cbn [chunkIndex rowsProcessed filesCreated errors].
        pose proof (IH (i + 1) (n + 1) (fs ++ [workerFileName timestamp index (j + 1)])%list
                      es [] (pre ++ [{| path := pathOf j;
                                        content := (workerOpening wd ++ workerBody wd g)
                                                   ++ workerRowText wd r;
                                        ended := true; records := cnt + 1 |}])%list
                      (j + 1) 0 eq_refl) as IH'.
        cbv zeta in IH'. change (workerBody wd []) with "" in IH'.
        rewrite (append_nil_r (workerOpening wd)) in IH'.
        rewrite IH'. clear IH'.
        destruct (groups limit [] (workerRows wd lines)) as [gs' last'].
        cbn [fst snd length workerFiles workerFileNames].
        replace (j + Z.of_nat (S (length gs'))) with (j + 1 + Z.of_nat (length gs')) by lia.
        apply working_eq; try reflexivity; try lia.
        -- now rewrite <- app_assoc.
        -- rewrite <- app_assoc. cbn [app]. f_equal. f_equal.
           unfold workerFile. f_equal.
           ++ now rewrite workerBody_snoc, append_assoc.
           ++ symmetry. exact Hlen.
      * unfold Worker.countRow. cbn [chunkIndex rowsProcessed filesCreated errors].
        rewrite append_assoc, <- workerBody_snoc.
        rewrite (IH (i + 1) (n + 1) fs es (g ++ [r])%list pre j (cnt + 1))
          by (symmetry; exact Hlen).
        cbn [length]. apply working_eq; try reflexivity; lia.
    + rewrite (IH (i + 1) n fs es g pre j cnt Hcnt). reflexivity.
    + unfold Worker.pushError. cbn [chunkIndex rowsProcessed filesCreated errors].
      rewrite (IH (i + 1) n fs _ g pre j cnt Hcnt).
      apply working_eq; try reflexivity. now rewrite <- app_assoc.
    + rewrite (IH (i + 1) n fs es g pre j cnt Hcnt). reflexivity.
Qed.

(** A partition, from its text to what it reports and leaves in the world. *)
Lemma worker_run (startByte : Z) (buffer : string) (w : World) :
  let lines := loopLines startByte buffer in
  let D := workerRows wd lines in
  let gs := fst (groups limit [] D) in
  let last := snd (groups limit [] D) in
  let st := Worker.onEnd timestamp wd index startByte buffer w in
  Worker.world st
  = {| directories := directories w;
       streams := streams w ++ workerFiles timestamp wd index 1 (gs ++ [last]) |}
  /\ Worker.results st
     = {| chunkIndex := index;
          rowsProcessed := Z.of_nat (length D);
          filesCreated := workerFileNames timestamp index 1 (S (length gs));
          errors := workerErrors wd (Z.of_nat (firstIndex startByte)) lines |}.
Proof.
  intros lines D gs last st. unfold st, Worker.onEnd. cbv zeta.
  assert (Hfirst :
    Worker.createNewOutputStream timestamp wd index
      {| Worker.results := {| chunkIndex := index; rowsProcessed := 0; filesCreated := [];
                              errors := [] |};
         Worker.currentFileIndex := 1; Worker.currentRowCount := 0;
         Worker.currentOutputStream := None; Worker.world := w |}
    = working {| chunkIndex := index; rowsProcessed := 0;
                 filesCreated := [workerFileName timestamp index 1]; errors := [] |}
        (1 + 1) 0 (directories w) (streams w) (pathOf 1)
        (workerOpening wd ++ workerBody wd [])).
  { unfold Worker.createNewOutputStream, working, openFile, workerOpening.
    cbn [Worker.currentOutputStream Worker.world Worker.results Worker.currentRowCount
         Worker.currentFileIndex Worker.pushFile chunkIndex rowsProcessed filesCreated
         errors app].
    change (workerBody wd []) with "". now rewrite append_nil_r. }
  rewrite Hfirst. clear Hfirst.
  change (skipn (if startByte =? 0 then 1%nat else 0%nat) (Str.split Str.LF buffer))
    with lines.
  change (Z.of_nat (if startByte =? 0 then 1%nat else 0%nat))
    with (Z.of_nat (firstIndex startByte)).
  rewrite (worker_loop (directories w) index lines _ 0 _ [] [] (streams w) 1 0 eq_refl).
  fold D gs last.
  cbn [Worker.results Worker.world Worker.currentOutputStream Worker.currentRowCount working].
  split.
  - unfold Worker.onStream, working, openFile.
    cbn [Worker.currentOutputStream Worker.world directories streams].
    rewrite updateNth_last. rewrite workerFiles_snoc, app_assoc. reflexivity.
  - cbn [app workerFileNames]. reflexivity.
Qed.

End WorkerRun.

(** X15. What a worker reports is what it has written to its streams.  For the
    text its read stream has delivered, the ['end'] handler writes the rows
    that come out of the non-blank lines in order, ending a stream as soon as
    [maxRowsPerFile] rows were written to it and always leaving a last one,
    possibly without rows; [rowsProcessed] is the number of rows written,
    [filesCreated] names the streams' files in order, and a line whose
    conversion raised is recorded as an error and neither written nor counted.
    With a positive limit [maxRowsPerFile] rows were written to every stream
    but the last.  This is about what is handed to [write]: the worker posts
    its result right after [end()], without waiting for the streams to
    flush, so nothing is said of what the files on disk hold at that time. *)
Theorem worker_reports_what_it_writes
    (R : Runtime) (timestamp : string) (wd : WorkerData) (index : Z)
    (startByte : Z) (buffer : string) (w : World) :
  let lines := loopLines startByte buffer in
  let written := workerRows wd lines in
  let limit := wd_maxRowsPerFile wd in
  let st := Worker.onEnd timestamp wd index startByte buffer w in
  exists (full : list (list Row)) (last : list Row),
    Worker.world st
    = {| directories := directories w;
         streams := streams w ++ workerFiles timestamp wd index 1 (full ++ [last]) |}
    /\ Worker.results st
       = {| chunkIndex := index;
            rowsProcessed := Z.of_nat (length written);
            filesCreated := workerFileNames timestamp index 1 (S (length full));
            errors := workerErrors wd (Z.of_nat (firstIndex startByte)) lines |}
    /\ (concat full ++ last)%list = written
    /\ sumZ (map records (workerFiles timestamp wd index 1 (full ++ [last])))
       = Z.of_nat (length written)
    /\ (0 < limit ->
        Forall (fun g => Z.of_nat (length g) = limit) full
        /\ Z.of_nat (length full) = Z.of_nat (length written) / limit
        /\ Z.of_nat (length last) = Z.of_nat (length written) mod limit).
Proof.
  intros lines written limit st.
  exists (fst (groups limit [] written)), (snd (groups limit [] written)).
  destruct (worker_run timestamp wd index startByte buffer w) as (Hworld & Hres).
  pose proof (groups_partition limit written []) as Hpart. cbn [app] in Hpart.
  split; [exact Hworld|]. split; [exact Hres|]. split; [exact Hpart|]. split.
  - assert (Hrec : forall gs k,
               map records (workerFiles timestamp wd index k gs)
               = map (fun g => Z.of_nat (length g)) gs).
    { induction gs as [|g gs IH]; intros k; cbn; [reflexivity | now rewrite IH]. }
    rewrite Hrec, sum_lengths_concat, concat_app. cbn [concat].
    now rewrite app_nil_r, Hpart.
  - intros Hpos.
    destruct (groups_lengths limit written Hpos [] Hpos) as (Hall & Hq & Hr).
    cbn [length] in Hq, Hr. change (Z.of_nat 0) with 0 in Hq, Hr.
    rewrite Z.add_0_l in Hq, Hr. repeat split; assumption.
Qed.

Section WorkerFormats.
Context {R : Runtime}.
Variable timestamp : string.
Variable wd : WorkerData.
Variable index : Z.

Lemma worker_other_format_texts :
  str_in ["csv"; "json"] (wd_outputFormat wd) = false ->
  workerOpening wd = "" /\ forall rows, workerBody wd rows = "".
Proof.
  unfold str_in. cbn [existsb].
  intros Hf. apply orb_false_elim in Hf as [Hcsv Hf].
  apply orb_false_elim in Hf as [Hjson _].
  unfold workerOpening, workerBody, workerRowText. rewrite Hcsv, Hjson. cbn [andb].
  split; [reflexivity|].
  induction rows as [|row rows IH]; [reflexivity | exact IH].
Qed.

Lemma workerFiles_empty (gs : list (list Row)) :
  str_in ["csv"; "json"] (wd_outputFormat wd) = false ->
  forall k, Forall (fun s => content s = "") (workerFiles timestamp wd index k gs).
Proof.
  intros Hf. destruct (worker_other_format_texts Hf) as (Hopen & Hbody).
  induction gs as [|g gs IH]; intros k; cbn [workerFiles]; constructor; [|apply IH].
  cbn [content workerFile]. now rewrite Hopen, Hbody.
Qed.

Lemma workerFiles_facts (gs : list (list Row)) :
  forall k,
    map path (workerFiles timestamp wd index k gs)
    = map (pathJoin (wd_outputDirectory wd)) (workerFileNames timestamp index k (length gs))
    /\ Forall (fun s => ended s = true) (workerFiles timestamp wd index k gs).
Proof.
  induction gs as [|g gs IH]; intros k; cbn [workerFiles workerFileNames length map].
  - split; [reflexivity | constructor].
  - destruct (IH (k + 1)) as (Hp & He). split.
    + now rewrite Hp.
    + constructor; [reflexivity | exact He].
Qed.

Lemma workerFileNames_csv (n : nat) :
  forall k,
    Forall (fun name => exists stem, name = stem ++ ".csv")
      (workerFileNames timestamp index k n).
Proof.
  induction n as [|n IH]; intros k; cbn [workerFileNames]; constructor; [|apply IH].
  exists ("split_part_" ++ decimal index ++ "_" ++ decimal k ++ "_" ++ timestamp).
  unfold workerFileName. now rewrite !append_assoc.
Qed.

End WorkerFormats.

(** X16. A worker writes rows only in the formats [csv] and [json].  In any
    other format that the factory accepts, such as [xml], [tsv], [jsonl] or
    [parquet], it still parses, counts and rotates, but every file it makes is
    empty.  And whatever the format, the files are named [.csv]. *)
Theorem worker_writes_nothing_in_other_formats
    (R : Runtime) (timestamp : string) (wd : WorkerData) (index : Z) (src : Source)
    (startByte endByte : Z) (w : World) :
  let lines := loopLines startByte (bufferOf (bytes src) (startByte, endByte)) in
  exists (files : list Stream) (names : list string),
    Worker.processChunk timestamp wd index (Some src) startByte endByte w
    = ({| directories := directories w; streams := streams w ++ files |},
       Ret {| chunkIndex := index;
              rowsProcessed := Z.of_nat (length (workerRows wd lines));
              filesCreated := names;
              errors := workerErrors wd (Z.of_nat (firstIndex startByte)) lines |})
    /\ map path files = map (pathJoin (wd_outputDirectory wd)) names
    /\ Forall (fun name => exists stem, name = stem ++ ".csv") names
    /\ Forall (fun s => ended s = true) files
    /\ (str_in ["csv"; "json"] (wd_outputFormat wd) = false ->
        Forall (fun s => content s = "") files).
Proof.
  intros lines.
  destruct (worker_run timestamp wd index startByte
              (bufferOf (bytes src) (startByte, endByte)) w) as (Hworld & Hres).
  fold lines in Hworld, Hres.
  set (gs := fst (groups (wd_maxRowsPerFile wd) [] (workerRows wd lines))) in *.
  set (last := snd (groups (wd_maxRowsPerFile wd) [] (workerRows wd lines))) in *.
  exists (workerFiles timestamp wd index 1 (gs ++ [last])),
         (workerFileNames timestamp index 1 (S (length gs))).
  destruct (workerFiles_facts timestamp wd index (gs ++ [last]) 1) as (Hp & He).
  rewrite length_app in Hp. cbn [length] in Hp. rewrite Nat.add_1_r in Hp.
  split; [|split; [exact Hp | split; [apply workerFileNames_csv | split; [exact He|]]]].
  - unfold Worker.processChunk.
    change (substring (Z.to_nat startByte) (Z.to_nat (endByte - startByte + 1)) (bytes src))
      with (bufferOf (bytes src) (startByte, endByte)).
    now rewrite Hworld, Hres.
  - intros Hf. now apply workerFiles_empty.
Qed.

(** ** File names *)

Lemma decimal_injective (a b : Z) : decimal a = decimal b -> a = b.
Proof.
  unfold decimal. intros H. apply DecimalZ.to_int_inj.
  assert (Hnorm : forall z, Z.to_int z <> Decimal.Pos Decimal.Nil
                            /\ Z.to_int z <> Decimal.Neg Decimal.Nil).
  { intros [|p|p]; cbn; split; try discriminate;
      intros [= E]; exact (DecimalPos.Unsigned.to_uint_nonnil p E). }
  pose proof (NilZero.isi (Z.to_int a) (proj1 (Hnorm a)) (proj2 (Hnorm a))) as Ha.
  pose proof (NilZero.isi (Z.to_int b) (proj1 (Hnorm b)) (proj2 (Hnorm b))) as Hb.
  rewrite H in Ha. congruence.
Qed.

Lemma digits_plain (c : ascii) (d : Decimal.uint) :
  Obj.is_digit c = false -> Str.includes c (NilEmpty.string_of_uint d) = false.
Proof.
  intros Hc. induction d; cbn [NilEmpty.string_of_uint Str.includes]; try reflexivity;
    match goal with
    | |- (if Ascii.eqb ?x c then _ else _) = _ =>
        destruct (Ascii.eqb_spec x c) as [<-|_]; [discriminate Hc | assumption]
    end.
Qed.

Lemma decimal_plain (c : ascii) (z : Z) :
  Obj.is_digit c = false -> Ascii.eqb "-" c = false ->
  Str.includes c (decimal z) = false.
Proof.
  intros Hc Hm. unfold decimal, NilZero.string_of_int, NilZero.string_of_uint.
  assert (Hu : forall d, Str.includes c
                           match d with
                           | Decimal.Nil => "0"
                           | _ => NilEmpty.string_of_uint d
                           end = false).
  { intros d. destruct d; try apply (digits_plain c _ Hc).
    cbn [Str.includes]. destruct (Ascii.eqb_spec "0" c) as [<-|_]; [discriminate Hc | reflexivity]. }
  destruct (Z.to_int z); [apply Hu|].
  cbn [Str.includes]. rewrite Hm. apply Hu.
Qed.

Lemma cut_unique (c : ascii) (a a' r r' : string) :
  Str.includes c a = false -> Str.includes c a' = false ->
  a ++ String c r = a' ++ String c r' -> a = a' /\ r = r'.
Proof.
  revert a'. induction a as [|x a IH]; intros [|x' a']; cbn [append Str.includes].
  - intros _ _ [= ->]. now split.
  - intros _. destruct (Ascii.eqb_spec x' c) as [->|Hne]; [discriminate|].
    intros _ [= E _]. congruence.
  - destruct (Ascii.eqb_spec x c) as [->|Hne]; [discriminate|].
    intros _ _ [= E _]. congruence.
  - destruct (Ascii.eqb x c); [discriminate|].
    destruct (Ascii.eqb x' c); [discriminate|].
    intros Ha Ha' [= -> E]. destruct (IH a' Ha Ha' E) as (-> & ->). now split.
Qed.

Lemma append_cancel (p x y : string) : p ++ x = p ++ y -> x = y.
Proof. induction p as [|c p IH]; cbn [append]; [tauto | intros [= E]; auto]. Qed.

Lemma workerFileName_injective (timestamp : string) (i k i' k' : Z) :
  workerFileName timestamp i k = workerFileName timestamp i' k' -> i = i' /\ k = k'.
Proof.
  unfold workerFileName. intros H. apply append_cancel in H.
  change ("_" ++ ?x) with (String "_" x) in H.
  assert (Hp : forall z, Str.includes "_" (decimal z) = false)
    by (intros z; apply decimal_plain; reflexivity).
  apply cut_unique in H as (Hi & H); try apply Hp.
  apply cut_unique in H as (Hk & _); try apply Hp.
  split; now apply decimal_injective.
Qed.

Lemma filePath_injective (dir date ext : string) (k k' : Z) :
  filePath dir date ext k = filePath dir date ext k' -> k = k'.
Proof.
  unfold filePath, pathJoin. intros H. do 2 apply append_cancel in H.
  apply append_cancel with (p := "split_part_") in H.
  change ("_" ++ ?x) with (String "_" x) in H.
  apply cut_unique in H as (Hk & _); try (apply decimal_plain; reflexivity).
  now apply decimal_injective.
Qed.

Lemma countFrom_In (n : nat) :
  forall k j, In j (countFrom k n) -> k <= j < k + Z.of_nat n.
Proof.
  induction n as [|n IH]; intros k j; cbn [countFrom In]; [tauto|].
  intros [<- | Hin]; [lia|]. apply IH in Hin. lia.
Qed.

Lemma map_injective_NoDup {A B} (f : A -> B) (l : list A) :
  (forall x y, f x = f y -> x = y) -> NoDup l -> NoDup (map f l).
Proof.
  intros Hinj. induction 1 as [|x l Hx Hnd IH]; cbn [map]; constructor; [|exact IH].
  intros Hin. apply in_map_iff in Hin as (y & Hy & Hin). apply Hinj in Hy. now subst.
Qed.

Lemma countFrom_NoDup (n : nat) : forall k, NoDup (countFrom k n).
Proof.
  induction n as [|n IH]; intros k; cbn [countFrom]; constructor; [|apply IH].
  intros Hin. apply countFrom_In in Hin. lia.
Qed.

Lemma workerFileNames_map (timestamp : string) (i : Z) (n : nat) :
  forall k,
    workerFileNames timestamp i k n = map (workerFileName timestamp i) (countFrom k n).
Proof. induction n as [|n IH]; intros k; cbn; [reflexivity | now rewrite IH]. Qed.

Lemma completedFiles_paths {R : Runtime} dir date ext fmt outs (gs : list (list Row)) :
  forall k,
    map path (completedFiles dir date ext fmt outs k gs)
    = map (filePath dir date ext) (countFrom k (length gs)).
Proof. induction gs as [|g gs IH]; intros k; cbn; [reflexivity | now rewrite IH]. Qed.

Lemma workerFileNames_NoDup (timestamp : string) (i k : Z) (n : nat) :
  NoDup (workerFileNames timestamp i k n).
Proof.
  rewrite workerFileNames_map.
  apply map_injective_NoDup; [|apply countFrom_NoDup].
  intros x y Hxy. now apply workerFileName_injective in Hxy.
Qed.

Lemma workerFileNames_disjoint (timestamp : string) (i i' k k' : Z) (n n' : nat) :
  i <> i' ->
  forall name,
    In name (workerFileNames timestamp i k n) ->
    ~ In name (workerFileNames timestamp i' k' n').
Proof.
  intros Hne name Hin Hin'. rewrite workerFileNames_map in Hin, Hin'.
  apply in_map_iff in Hin as (j & <- & _).
  apply in_map_iff in Hin' as (j' & Hj & _).
  apply workerFileName_injective in Hj. destruct Hj as (Hi & _). congruence.
Qed.

Lemma completedFiles_length {R : Runtime} dir date ext fmt outs (gs : list (list Row)) :
  forall k, length (completedFiles dir date ext fmt outs k gs) = length gs.
Proof. induction gs as [|g gs IH]; intros k; cbn; [reflexivity | now rewrite IH]. Qed.

(** X17. No two files of parallel mode share a name: the names a worker
    reports are pairwise distinct, and two workers with different chunk
    indices report no name in common, whatever their byte ranges are. *)
Theorem worker_files_never_share_a_name
    (R : Runtime) (timestamp : string) (wd : WorkerData) (src : Source)
    (i i' startByte endByte startByte' endByte' : Z) (w w' after after' : World)
    (res res' : PartitionResult) :
  Worker.processChunk timestamp wd i (Some src) startByte endByte w = (after, Ret res) ->
  Worker.processChunk timestamp wd i' (Some src) startByte' endByte' w' = (after', Ret res') ->
  NoDup (filesCreated res)
  /\ (i <> i' ->
      forall name, In name (filesCreated res) -> ~ In name (filesCreated res')).
Proof.
  unfold Worker.processChunk. cbv beta iota zeta. intros H1 H2.
  destruct (worker_run timestamp wd i startByte
              (substring (Z.to_nat startByte) (Z.to_nat (endByte - startByte + 1)) (bytes src))
              w) as (Hw1 & Hr1).
  destruct (worker_run timestamp wd i' startByte'
              (substring (Z.to_nat startByte') (Z.to_nat (endByte' - startByte' + 1))
                 (bytes src)) w') as (Hw2 & Hr2).
  rewrite Hw1, Hr1 in H1. rewrite Hw2, Hr2 in H2.
  injection H1 as _ <-. injection H2 as _ <-.
  unfold filesCreated. split.
  - exact (workerFileNames_NoDup timestamp i 1 (S _)).
  - intros Hne. exact (workerFileNames_disjoint timestamp i i' 1 1 (S _) (S _) Hne).
Qed.

(** The two workers of the sample source. *)
Lemma worker_files_never_share_a_name_witness :
  let first :=
    Worker.processChunk "2025-06-02" Sample.workerData 0 (Some Sample.splitSource) 0 18
      Sample.emptyWorld in
  let second :=
    Worker.processChunk "2025-06-02" Sample.workerData 1 (Some Sample.splitSource) 19 36
      Sample.emptyWorld in
  exists after after' res res',
    first = (after, Ret res) /\ second = (after', Ret res')
    /\ filesCreated res = ["split_part_0_1_2025-06-02.csv"]
    /\ filesCreated res' = ["split_part_1_1_2025-06-02.csv"]
    /\ NoDup (filesCreated res)
    /\ forall name, In name (filesCreated res) -> ~ In name (filesCreated res').
Proof.
  intros first second.
  destruct first as [after [res|e]] eqn:E1; [|discriminate E1].
  destruct second as [after' [res'|e']] eqn:E2; [|discriminate E2].
  exists after, after', res, res'.
  split; [reflexivity|]. split; [reflexivity|].
  assert (H1 : filesCreated res = ["split_part_0_1_2025-06-02.csv"]).
  { revert E1. unfold first. vm_compute. now intros [= _ <-]. }
  assert (H2 : filesCreated res' = ["split_part_1_1_2025-06-02.csv"]).
  { revert E2. unfold second. vm_compute. now intros [= _ <-]. }
  split; [exact H1|]. split; [exact H2|].
  destruct (worker_files_never_share_a_name asciiRuntime _ _ _ _ _ _ _ _ _ _ _ _ _ _ _ E1 E2)
    as (Hnd & Hdisj).
  split; [exact Hnd|]. apply Hdisj. discriminate.
Defined.

(** X18. The files of a sequential run have pairwise distinct paths, numbered
    from 1 in the order in which they were made: no file of a run overwrites
    another. *)
Theorem sequential_files_have_distinct_paths
    (R : Runtime) (env : Env) (options : Options.t) (w : World) (f : Formatter)
    (src : Source) :
  let c := CSVParser.constructor options in
  createFormatter (CSVParser.outputFormat c) engineFormatterOptions = Ret f ->
  sources env (CSVParser.inputFilePath c) = Some src ->
  Options.useMultipleProcesses options = false ->
  exists (self' : CSVParser.t) (files : list Stream),
    CSVParser.run env options w
    = ((self',
        {| directories := directories (withDirectory w (CSVParser.outputDirectory c));
           streams := streams w ++ files |}),
       Ret tt)
    /\ map path files
       = map (filePath (CSVParser.outputDirectory c) (today env) (getFileExtension f))
           (countFrom 1 (length files))
    /\ NoDup (map path files)
    /\ Z.of_nat (length files) = CSVParser.currentFileIndex self' - 1.
Proof.
  intros c Hfmt Hsrc Hseq.
  pose proof (run_sequential env options w f src Hfmt Hsrc Hseq) as Hrun.
  cbv zeta in Hrun. rewrite streams_withDirectory in Hrun.
  eexists _, _. split; [exact Hrun|].
  rewrite completedFiles_paths, completedFiles_length. split; [reflexivity|]. split.
  - apply map_injective_NoDup; [|apply countFrom_NoDup].
    intros x y. apply filePath_injective.
  - cbn [CSVParser.currentFileIndex running CSVParser.assign].
    rewrite length_app. cbn [length]. lia.
Qed.

(** The scenario of 250 rows at 100 a file: three paths, all different. *)
Lemma sequential_files_have_distinct_paths_witness :
  let options := Sample.optionsOf (Some 100) "csv" None in
  let run := CSVParser.run (Sample.envOf Sample.bigSource) options Sample.emptyWorld in
  map path (streams (snd (fst run)))
  = ["out/split_part_1_2025-06-02.csv"; "out/split_part_2_2025-06-02.csv";
     "out/split_part_3_2025-06-02.csv"]
  /\ NoDup (map path (streams (snd (fst run)))).
Proof.
  intros options run.
  assert (Hpaths : map path (streams (snd (fst run)))
                   = ["out/split_part_1_2025-06-02.csv"; "out/split_part_2_2025-06-02.csv";
                      "out/split_part_3_2025-06-02.csv"]) by (vm_compute; reflexivity).
  split; [exact Hpaths|].
  destruct (sequential_files_have_distinct_paths asciiRuntime (Sample.envOf Sample.bigSource)
              options Sample.emptyWorld CSVFormatterF Sample.bigSource
              eq_refl eq_refl eq_refl) as (self' & files & Hrun & _ & Hnd & _).
  unfold run. rewrite Hrun. cbn [fst snd streams Sample.emptyWorld app]. exact Hnd.
Defined.

(** ** How a run starts, and what it does in parallel mode *)

Section RunModes.
Context {R : Runtime}.
Variable env : Env.




End RunModes.





(** ** Format names the writers do not know *)

Section UnknownToTheWriters.
Context {R : Runtime}.

Lemma unwritten_texts (fmt : string) (outs : list string) :
  str_in ["csv"; "json"; "jsonl"; "xml"; "tsv"] fmt = false ->
  openingText fmt outs = "" /\ (forall rows, bodyText fmt outs rows = "")
  /\ footerText fmt = "".
Proof.
  unfold str_in. cbn [existsb]. intros Hf.
  apply orb_false_elim in Hf as [Hcsv Hf]. apply orb_false_elim in Hf as [Hjson Hf].
  apply orb_false_elim in Hf as [Hjsonl Hf]. apply orb_false_elim in Hf as [Hxml Hf].
  apply orb_false_elim in Hf as [Htsv _].
  unfold openingText, headerText, bodyText, rowText, footerText.
  rewrite Hcsv, Hjson, Hjsonl, Hxml, Htsv. cbn [orb].
  split; [now destruct (0 <? Z.of_nat (length outs))|]. split; [|reflexivity].
  induction rows as [|row rows IH]; [reflexivity | exact IH].
Qed.

Lemma completedFiles_unwritten dir date ext fmt outs (gs : list (list Row)) :
  str_in ["csv"; "json"; "jsonl"; "xml"; "tsv"] fmt = false ->
  forall k,
    Forall (fun s => content s = "" /\ ended s = true)
      (completedFiles dir date ext fmt outs k gs).
Proof.
  intros Hf. destruct (unwritten_texts fmt outs Hf) as (Hopen & Hbody & Hfoot).
  induction gs as [|g gs IH]; intros k; cbn [completedFiles]; constructor; [|apply IH].
  cbn [content ended completedFile]. now rewrite Hopen, Hbody, Hfoot.
Qed.

End UnknownToTheWriters.

(** X21. The factory matches the format name without regard to case, the
    synchronous writers compare it with the lower-case names as it was given.
    A name that the factory accepts but that is not literally one of [csv],
    [json], [jsonl], [xml] and [tsv], such as [CSV], therefore gives a run that
    completes, counts the rows and names its files with the format's
    extension, while every file stays empty. *)
Theorem writers_match_the_format_name_literally
    (R : Runtime) (env : Env) (options : Options.t) (w : World) (f : Formatter)
    (src : Source) :
  let c := CSVParser.constructor options in
  createFormatter (CSVParser.outputFormat c) engineFormatterOptions = Ret f ->
  sources env (CSVParser.inputFilePath c) = Some src ->
  Options.useMultipleProcesses options = false ->
  str_in ["csv"; "json"; "jsonl"; "xml"; "tsv"] (CSVParser.outputFormat c) = false ->
  exists (self' : CSVParser.t) (files : list Stream),
    CSVParser.run env options w
    = ((self',
        {| directories := directories (withDirectory w (CSVParser.outputDirectory c));
           streams := streams w ++ files |}),
       Ret tt)
    /\ Forall (fun s => content s = "" /\ ended s = true) files
    /\ map path files
       = map (filePath (CSVParser.outputDirectory c) (today env) (getFileExtension f))
           (countFrom 1 (length files))
    /\ CSVParser.totalRowsProcessed self'
       = Z.of_nat (length (deliveredRows (pipelineOf options) (parsedHeaders src)
                             (parsedRows src))).
Proof.
  intros c Hfmt Hsrc Hseq Hname.
  pose proof (run_sequential env options w f src Hfmt Hsrc Hseq) as Hrun.
  cbv zeta in Hrun. rewrite streams_withDirectory in Hrun.
  eexists _, _. split; [exact Hrun|].
  split; [apply completedFiles_unwritten; exact Hname|].
  split; [|reflexivity].
  now rewrite completedFiles_paths, completedFiles_length.
Qed.

(** The format [CSV]: a file named [.csv] with nothing in it, two rows counted. *)
Lemma writers_match_the_format_name_literally_witness :
  let options := Sample.optionsOf (Some 10) "CSV" None in
  let run := CSVParser.run Sample.env options Sample.emptyWorld in
  createFormatter "CSV" engineFormatterOptions = Ret CSVFormatterF
  /\ snd run = Ret tt
  /\ map path (streams (snd (fst run))) = ["out/split_part_1_2025-06-02.csv"]
  /\ map content (streams (snd (fst run))) = [""]
  /\ CSVParser.totalRowsProcessed (fst (fst run)) = 2.
Proof.
  intros options run.
  destruct (writers_match_the_format_name_literally asciiRuntime Sample.env options
              Sample.emptyWorld CSVFormatterF Sample.source eq_refl eq_refl eq_refl eq_refl)
    as (self' & files & Hrun & Hempty & Hpaths & Htotal).
  assert (Hp : map path (streams (snd (fst run))) = ["out/split_part_1_2025-06-02.csv"])
    by (vm_compute; reflexivity).
  assert (Hc : map content (streams (snd (fst run))) = [""]) by (vm_compute; reflexivity).
  split; [reflexivity|]. unfold run in *. rewrite Hrun in *. cbn [fst snd] in *.
  split; [reflexivity|]. split; [exact Hp|]. split; [exact Hc | exact Htotal].
Defined.

(** ** The formatter classes *)

Section FormatterClasses.
Context {R : Runtime}.

Lemma fold_left_append {A} (text : A -> string) (l : list A) :
  forall init,
    fold_left (fun stream a => stream ++ text a) l init
    = init ++ concatText (map text l).
Proof.
  induction l as [|a l IH]; intros init; cbn [fold_left map concatText fold_right].
  - now rewrite append_nil_r.
  - rewrite IH. now rewrite append_assoc.
Qed.

Lemma parquet_rows (hs : list string) (size : Z) (rows : list Row) :
  forall (g : list Row) (out : string),
    fold_left
      (fun (acc : ParquetFormatter.t * string) row =>
         ParquetFormatter.writeRow (fst acc) (snd acc) row hs)
      rows
      ({| ParquetFormatter.headers := Some hs; ParquetFormatter.rows := g;
          ParquetFormatter.batchSize := size |}, out)
    = ({| ParquetFormatter.headers := Some hs;
          ParquetFormatter.rows := snd (groups size g rows);
          ParquetFormatter.batchSize := size |},
       out ++ concatText (map (parquetBatch hs) (fst (groups size g rows)))).
Proof.
  induction rows as [|row rows IH]; intros g out; cbn [fold_left groups fst snd].
  - cbn. now rewrite append_nil_r.
  - unfold ParquetFormatter.writeRow at 2.
    cbn [ParquetFormatter.headers ParquetFormatter.rows ParquetFormatter.batchSize].
    destruct (Z.of_nat (length (g ++ [row])) >=? size).
    + unfold ParquetFormatter.writeBatch.
      cbn [ParquetFormatter.headers ParquetFormatter.rows ParquetFormatter.batchSize app].
      rewrite IH. fold (parquetBatch hs (g ++ [row])).
      destruct (groups size [] rows) as [closed last].
      cbn [fst snd map concatText fold_right]. now rewrite append_assoc.
    + apply IH.
Qed.

End FormatterClasses.

(** X22. The [CSVFormatter] and [TSVFormatter] classes write, for a file with
    at least one header, exactly what the engine's synchronous writers write
    in the formats [csv] and [tsv]: the header line, then a line per row.  The
    [XMLFormatter] built with the engine's options writes the writers' XML
    declaration, root element and closing tag. *)
Theorem formatter_classes_write_what_the_writers_write
    (R : Runtime) (rows : list Row) (h : string) (hs : list string) :
  let outs := h :: hs in
  let xml := XMLFormatter.new (rootElementOption engineFormatterOptions)
               (rowElementOption engineFormatterOptions) in
  csvFormatterFile rows outs
  = (openingText "csv" outs ++ bodyText "csv" outs rows) ++ footerText "csv"
  /\ tsvFormatterFile rows outs
     = (openingText "tsv" outs ++ bodyText "tsv" outs rows) ++ footerText "tsv"
  /\ XMLFormatter.writeHeader xml "" outs = openingText "xml" outs
  /\ XMLFormatter.writeFooter xml "" = footerText "xml".
Proof.
  intros outs xml. split; [|split; [|split]].
  - unfold csvFormatterFile, CSVFormatter.writeHeader, CSVFormatter.writeRow.
    rewrite (fold_left_append (fun row => Str.join "," (CSVFormatter.rowValues row outs) ++ nl)).
    change (openingText "csv" outs) with (Str.join "," outs ++ nl).
    change (footerText "csv") with "".
    change (bodyText "csv" outs rows)
      with (concatText (map (fun row => Str.join "," (CSVFormatter.rowValues row outs) ++ nl)
                          rows)).
    cbn [append]. now rewrite append_nil_r.
  - unfold tsvFormatterFile, TSVFormatter.writeHeader, TSVFormatter.writeRow.
    rewrite (fold_left_append (fun row => Str.join tab (TSVFormatter.rowValues row outs) ++ nl)).
    change (openingText "tsv" outs) with (Str.join tab outs ++ nl).
    change (footerText "tsv") with "".
    change (bodyText "tsv" outs rows)
      with (concatText (map (fun row => Str.join tab (TSVFormatter.rowValues row outs) ++ nl)
                          rows)).
    cbn [append]. now rewrite append_nil_r.
  - change (openingText "xml" outs)
      with (XMLFormatter.xmlDeclaration ++ nl ++ "<data>" ++ nl).
    unfold XMLFormatter.writeHeader. cbn [append xml XMLFormatter.rootElement].
    change (XMLFormatter.rootElement xml) with "data".
    now rewrite !append_assoc.
  - reflexivity.
Qed.

(** X23. The [ParquetFormatter] buffers rows and writes them in batches: a
    batch is written as soon as the buffer holds [batchSize] rows, and the
    footer writes what is left, if anything.  After the footer the buffer is
    empty, every row has been written exactly once and in order, and with a
    positive batch size no batch is empty or larger than the batch size. *)
Theorem parquet_formatter_writes_every_row_once
    (R : Runtime) (size : option Z) (rows : list Row) (hs : list string) :
  let self := ParquetFormatter.new size in
  let limit := ParquetFormatter.batchSize self in
  let batches := batchesOf limit rows in
  parquetFormatterFile self rows hs
  = ({| ParquetFormatter.headers := Some hs; ParquetFormatter.rows := [];
        ParquetFormatter.batchSize := limit |},
     concatText (map (parquetBatch hs) batches))
  /\ concat batches = rows
  /\ limit <> 0
  /\ (0 < limit ->
      Forall (fun b => 0 < Z.of_nat (length b) <= limit) batches).
Proof.
  intros self limit batches.
  pose proof (groups_partition limit rows []) as Hpart. cbn [app] in Hpart.
  split; [|split; [|split]].
  - unfold parquetFormatterFile, ParquetFormatter.writeHeader. cbv zeta.
    fold limit. rewrite parquet_rows. cbn [fst snd append].
    unfold batches, batchesOf, ParquetFormatter.writeFooter.
    cbn [ParquetFormatter.rows].
    destruct (snd (groups limit [] rows)) as [|r last] eqn:Elast.
    + cbn [length Z.of_nat Z.ltb Z.compare]. now rewrite app_nil_r.
    + rewrite nonempty_test. unfold ParquetFormatter.writeBatch.
      cbn [ParquetFormatter.headers ParquetFormatter.rows ParquetFormatter.batchSize app].
      fold (parquetBatch hs (r :: last)).
      rewrite map_app, concatText_app. cbn [map concatText fold_right].
      now rewrite append_nil_r.
  - unfold batches, batchesOf. rewrite concat_app.
    destruct (snd (groups limit [] rows)) as [|r last] eqn:Elast;
      cbn [concat]; rewrite ?app_nil_r in *; exact Hpart.
  - unfold limit, self, ParquetFormatter.new. cbn [ParquetFormatter.batchSize].
    destruct size as [n|]; [|discriminate].
    destruct (Z.eqb_spec n 0); [discriminate | assumption].
  - intros Hpos.
    destruct (groups_lengths limit rows Hpos [] Hpos) as (Hall & _ & Hr).
    cbn [length] in Hr. change (Z.of_nat 0) with 0 in Hr. rewrite Z.add_0_l in Hr.
    pose proof (Z.mod_pos_bound (Z.of_nat (length rows)) limit Hpos) as Hbound.
    unfold batches, batchesOf. apply Forall_app. split.
    + eapply Forall_impl; [|exact Hall]. cbn beta. intros b Hb. lia.
    + destruct (snd (groups limit [] rows)) as [|r last]; constructor; [|constructor].
      cbn [length] in *. lia.
Qed.

Section JsonModes.
Context {R : Runtime}.

Lemma json_rows_unwritten (fmt : string) (hs : list string) (rows : list Row) :
  String.eqb fmt "jsonl" = false -> String.eqb fmt "array" = false ->
  forall (first : bool) (out : string),
    fold_left
      (fun (acc : JSONFormatter.t * string) row =>
         JSONFormatter.writeRow (fst acc) (snd acc) row hs)
      rows ({| JSONFormatter.isFirstRow := first; JSONFormatter.format := fmt |}, out)
    = ({| JSONFormatter.isFirstRow := first; JSONFormatter.format := fmt |}, out).
Proof.
  intros Hl Ha. induction rows as [|row rows IH]; intros first out; [reflexivity|].
  cbn [fold_left fst snd]. unfold JSONFormatter.writeRow at 2.
  cbn [JSONFormatter.format]. rewrite Hl, Ha. apply IH.
Qed.

Lemma json_rows_lines (hs : list string) (rows : list Row) :
  forall (first : bool) (out : string),
    fold_left
      (fun (acc : JSONFormatter.t * string) row =>
         JSONFormatter.writeRow (fst acc) (snd acc) row hs)
      rows ({| JSONFormatter.isFirstRow := first; JSONFormatter.format := "jsonl" |}, out)
    = ({| JSONFormatter.isFirstRow := first; JSONFormatter.format := "jsonl" |},
       out ++ concatText (map (fun row => JSON.stringify row ++ nl) rows)).
Proof.
  induction rows as [|row rows IH]; intros first out.
  - cbn. now rewrite append_nil_r.
  - cbn [fold_left fst snd]. unfold JSONFormatter.writeRow at 2.
    cbn [JSONFormatter.format String.eqb Ascii.eqb Bool.eqb].
    rewrite IH. cbn [map concatText fold_right]. now rewrite append_assoc.
Qed.

End JsonModes.

(** X24. A [JSONFormatter] writes by its [format].  With ['array'] a file is a
    JSON array, one element a line, and since the header call resets the
    first-row flag this also holds for a formatter that has written a file
    before.  With ['jsonl'] a file is one object a line, as the synchronous
    writers write it.  With any other value, and the factory hands over
    ['json'], the header, row and footer calls write nothing at all.  The file
    extension is [.jsonl] for ['jsonl'] and [.json] for everything else. *)
Theorem json_formatter_writes_by_its_format
    (R : Runtime) (rows : list Row) (hs : list string) (first : bool) :
  jsonFormatterFile {| JSONFormatter.isFirstRow := first; JSONFormatter.format := "array" |}
    rows hs
  = jsonArrayText rows
  /\ jsonFormatterFile {| JSONFormatter.isFirstRow := first; JSONFormatter.format := "jsonl" |}
       rows hs
     = bodyText "jsonl" hs rows
  /\ (forall fmt,
        fmt <> "jsonl" -> fmt <> "array" ->
        jsonFormatterFile {| JSONFormatter.isFirstRow := first; JSONFormatter.format := fmt |}
          rows hs
        = ""
        /\ JSONFormatter.getFileExtension
             {| JSONFormatter.isFirstRow := first; JSONFormatter.format := fmt |}
           = ".json")
  /\ createFormatter "json" engineFormatterOptions
     = Ret (JSONFormatterF {| JSONFormatter.isFirstRow := true;
                              JSONFormatter.format := "json" |}).
Proof.
  split; [apply array_mode_frames_rows|]. split; [|split; [|reflexivity]].
  - unfold jsonFormatterFile, JSONFormatter.writeHeader.
    cbn [JSONFormatter.format String.eqb Ascii.eqb Bool.eqb].
    rewrite json_rows_lines. cbn [fst snd append].
    unfold JSONFormatter.writeFooter.
    cbn [JSONFormatter.format String.eqb Ascii.eqb Bool.eqb].
    reflexivity.
  - intros fmt Hl Ha.
    apply String.eqb_neq in Hl. apply String.eqb_neq in Ha.
    unfold jsonFormatterFile, JSONFormatter.writeHeader, JSONFormatter.getFileExtension.
    cbn [JSONFormatter.format]. rewrite Ha, Hl.
    rewrite (json_rows_unwritten fmt hs rows Hl Ha). cbn [fst snd].
    unfold JSONFormatter.writeFooter. cbn [JSONFormatter.format]. now rewrite Ha.
Qed.

(** X25. The factory accepts a format name exactly when its lower-case form is
    one of the names [getSupportedFormats] lists, and the formatter it returns
    gives the file extension that goes with the name: a dot and the lower-case
    name, except for [parquet], whose files end in [.parquet.json]. *)
Theorem factory_accepts_exactly_the_supported_formats
    (format : string) (options : FormatterOptions) :
  let name := Str.toLowerCase format in
  ((exists f, createFormatter format options = Ret f)
   <-> str_in getSupportedFormats name = true)
  /\ (forall f,
        createFormatter format options = Ret f ->
        getFileExtension f
        = if String.eqb name "parquet" then ".parquet.json" else "." ++ name).
Proof.
  intros name. unfold createFormatter, getSupportedFormats, str_in. fold name.
  cbn [existsb].
  destruct (String.eqb_spec name "csv") as [->|_].
  { split; [split; [reflexivity | eexists; reflexivity] | now intros f [= <-]]. }
  destruct (String.eqb_spec name "json") as [->|_].
  { split; [split; [reflexivity | eexists; reflexivity] | now intros f [= <-]]. }
  destruct (String.eqb_spec name "jsonl") as [->|_].
  { split; [split; [reflexivity | eexists; reflexivity] | now intros f [= <-]]. }
  destruct (String.eqb_spec name "xml") as [->|_].
  { split; [split; [reflexivity | eexists; reflexivity] | now intros f [= <-]]. }
  destruct (String.eqb_spec name "tsv") as [->|_].
  { split; [split; [reflexivity | eexists; reflexivity] | now intros f [= <-]]. }
  destruct (String.eqb_spec name "parquet") as [->|_].
  { split; [split; [reflexivity | eexists; reflexivity] | now intros f [= <-]]. }
  cbn [orb]. split; [split; [intros (f & Hf) | ]; discriminate | discriminate].
Qed.

(** ** The transformations of a worker *)

Section WorkerTransformations.
Context {R : Runtime}.

Lemma withExcluded_applyTransformations (wd : WorkerData) (excluded : option (list string))
    (row : Row) :
  Worker.applyTransformations (withExcluded wd excluded) row
  = Worker.applyTransformations wd row.
Proof.
  unfold Worker.applyTransformations, withExcluded. cbn [wd_transformations].
  destruct (wd_transformations wd) as [tr|]; reflexivity.
Qed.

Lemma withExcluded_lineOutcome (wd : WorkerData) (excluded : option (list string))
    (line : string) :
  lineOutcome (withExcluded wd excluded) line = lineOutcome wd line.
Proof.
  unfold lineOutcome. cbv zeta. now rewrite withExcluded_applyTransformations.
Qed.

Lemma withExcluded_rows (wd : WorkerData) (excluded : option (list string))
    (lines : list string) :
  workerRows (withExcluded wd excluded) lines = workerRows wd lines.
Proof.
  induction lines as [|line lines IH]; cbn [workerRows]; [reflexivity|].
  now rewrite withExcluded_lineOutcome, IH.
Qed.

Lemma withExcluded_errors (wd : WorkerData) (excluded : option (list string))
    (lines : list string) :
  forall i, workerErrors (withExcluded wd excluded) i lines = workerErrors wd i lines.
Proof.
  induction lines as [|line lines IH]; intros i; cbn [workerErrors]; [reflexivity|].
  now rewrite withExcluded_lineOutcome, IH.
Qed.

Lemma withExcluded_files (timestamp : string) (wd : WorkerData)
    (excluded : option (list string)) (index : Z) (gs : list (list Row)) :
  forall k,
    workerFiles timestamp (withExcluded wd excluded) index k gs
    = workerFiles timestamp wd index k gs.
Proof.
  induction gs as [|g gs IH]; intros k; cbn [workerFiles]; [reflexivity|].
  now rewrite IH.
Qed.

End WorkerTransformations.

(** X26. A worker never reads [excludeColumns]: whatever exclude list is
    configured, a partition leaves the same files with the same contents and
    reports the same result.  In parallel mode excluded columns are written
    like any other. *)
Theorem worker_ignores_the_exclude_list
    (R : Runtime) (timestamp : string) (wd : WorkerData) (index : Z)
    (excluded : option (list string)) (source : option Source)
    (startByte endByte : Z) (w : World) :
  (forall row,
      Worker.applyTransformations (withExcluded wd excluded) row
      = Worker.applyTransformations wd row)
  /\ Worker.processChunk timestamp (withExcluded wd excluded) index source startByte endByte w
     = Worker.processChunk timestamp wd index source startByte endByte w.
Proof.
  split; [apply withExcluded_applyTransformations|].
  unfold Worker.processChunk. destruct source as [src|]; [|reflexivity]. cbv zeta.
  destruct (worker_run timestamp (withExcluded wd excluded) index startByte
              (substring (Z.to_nat startByte) (Z.to_nat (endByte - startByte + 1)) (bytes src))
              w) as (-> & ->).
  destruct (worker_run timestamp wd index startByte
              (substring (Z.to_nat startByte) (Z.to_nat (endByte - startByte + 1)) (bytes src))
              w) as (-> & ->).
  rewrite !withExcluded_rows, !withExcluded_errors, withExcluded_files.
  reflexivity.
Qed.

(** X27. With [includeColumns] configured a worker keeps the listed columns
    of a row and drops the others from it, but it writes its files with all the
    input's headers: in the [csv] format the header line still names every
    column and a column that is not on the list is written as an empty cell.
    An empty include list blanks every column. *)
Theorem worker_blanks_the_columns_left_out
    (R : Runtime) (wd : WorkerData) (tr : Transformations) (cols : list string)
    (row : Row) :
  wd_transformations wd = Some tr ->
  includeColumns tr = Some cols ->
  typeConversions tr = None ->
  validation tr = None ->
  exists kept,
    Worker.applyTransformations wd row = Ret (Some kept)
    /\ (forall h, field kept h = if str_in cols h then field row h else VUndefined)
    /\ (wd_outputFormat wd = "csv" ->
        workerRowText wd kept
        = Str.join ","
            (map (fun h =>
                    if str_in cols h
                    then Worker.escapeCSVValue (or_else (field row h) (VString ""))
                    else "")
               (wd_headers wd)) ++ nl
        /\ workerOpening wd
           = if 0 <? Z.of_nat (length (wd_headers wd))
             then Str.join "," (wd_headers wd) ++ nl else "").
Proof.
  intros Htr Hinc Hconv Hval.
  unfold Worker.applyTransformations, spread. rewrite Htr, Hinc, Hconv, Hval.
  cbn [bind]. eexists. split; [reflexivity|].
  assert (Hfield : forall h,
    field (fold_left (fun filtered col =>
                        match field row col with
                        | VUndefined => filtered
                        | v => Obj.set filtered col v
                        end) cols []) h
    = if str_in cols h then field row h else VUndefined).
  { intros h. rewrite field_included.
    destruct (str_in cols h); [now destruct (field row h) | reflexivity]. }
  split; [exact Hfield|].
  intros Hcsv. unfold workerRowText, workerOpening. rewrite Hcsv.
  cbn [String.eqb Ascii.eqb Bool.eqb andb]. split; [|reflexivity].
  f_equal. f_equal. apply map_ext. intros h. rewrite Hfield.
  now destruct (str_in cols h).
Qed.

(** Only [name] is asked for: the worker writes an empty [id]. *)
Lemma worker_blanks_the_columns_left_out_witness :
  let tr := {| includeColumns := Some ["name"]; excludeColumns := None;
               typeConversions := None; validation := None |} in
  let wd := {| wd_inputFilePath := "input.csv"; wd_outputDirectory := "out";
               wd_headers := ["id"; "name"]; wd_maxRowsPerFile := 10;
               wd_outputFormat := "csv"; wd_transformations := Some tr |} in
  let row := textRow [("id", "7"); ("name", "Ann")] in
  exists kept,
    Worker.applyTransformations wd row = Ret (Some kept)
    /\ workerRowText wd kept = "," ++ "Ann" ++ nl
    /\ workerOpening wd = "id,name" ++ nl.
Proof.
  intros tr wd row.
  destruct (worker_blanks_the_columns_left_out asciiRuntime wd tr ["name"] row
              eq_refl eq_refl eq_refl eq_refl) as (kept & Happly & _ & Hcsv).
  destruct (Hcsv eq_refl) as (Hrow & Hopen).
  exists kept. split; [exact Happly|]. split; [rewrite Hrow | rewrite Hopen]; reflexivity.
Defined.

(** ** The line parser of a worker *)

Section WorkerParser.
Context {R : Runtime}.
Variable values : list string.

Let step (acc : Row * nat) (header : string) : Row * nat :=
  let (row, i) := acc in
  (Obj.set row header
     (or_else (match nth_error values i with
               | Some s => VString s
               | None => VUndefined
               end) (VString "")),
   S i).

Lemma cell_text (i : nat) :
  or_else (match nth_error values i with
           | Some s => VString s
           | None => VUndefined
           end) (VString "")
  = VString (nth i values "").
Proof.
  revert i. induction values as [|v l IH]; intros [|i]; cbn [nth_error nth]; try reflexivity.
  - now destruct v.
  - apply IH.
Qed.

Lemma parse_fold_other (hs : list string) (h : string) :
  ~ In h hs ->
  forall acc i, field (fst (fold_left step hs (acc, i))) h = field acc h.
Proof.
  induction hs as [|a hs IH]; intros Hn acc i; cbn [fold_left]; [reflexivity|].
  cbn [In] in Hn. unfold step at 2. rewrite IH by tauto.
  rewrite field_set. destruct (String.eqb_spec a h); [tauto | reflexivity].
Qed.

Lemma parse_fold_cells (hs : list string) :
  NoDup hs ->
  forall acc i,
    map (field (fst (fold_left step hs (acc, i)))) hs
    = map (fun j => VString (nth j values "")) (seq i (length hs)).
Proof.
  induction 1 as [|a hs Hnotin Hnd IH]; intros acc i; cbn [fold_left map length seq];
    [reflexivity|].
  unfold step at 2 4. f_equal.
  - rewrite parse_fold_other by exact Hnotin.
    now rewrite field_set, String.eqb_refl, cell_text.
  - apply IH.
Qed.

End WorkerParser.

Lemma nth_seq_all {A} (d : A) (l : list A) :
  forall pre,
    map (fun j => nth j (pre ++ l) d) (seq (length pre) (length l)) = l.
Proof.
  induction l as [|x l IH]; intros pre; cbn [length seq map]; [reflexivity|].
  f_equal.
  - now rewrite nth_middle.
  - specialize (IH (pre ++ [x])%list). rewrite <- app_assoc in IH. cbn [app] in IH.
    rewrite length_app in IH. cbn [length] in IH. now rewrite Nat.add_1_r in IH.
Qed.

Lemma stripQuotes_plain (s : string) :
  Str.includes Str.dquote s = false -> Str.stripQuotes s = s.
Proof.
  assert (Htrail : forall t, Str.includes Str.dquote t = false ->
                             Str.stripTrailingQuote t = t).
  { induction t as [|c t IH]; cbn [Str.includes Str.stripTrailingQuote]; [reflexivity|].
    destruct (Ascii.eqb c Str.dquote) eqn:E; [discriminate|]. intros Ht.
    destruct t as [|c' t']; [reflexivity|]. now rewrite (IH Ht). }
  destruct s as [|c s]; [reflexivity|]. intros Hs.
  unfold Str.stripQuotes. pose proof Hs as Hs'. cbn [Str.includes] in Hs'.
  destruct (Ascii.eqb c Str.dquote); [discriminate|]. now apply Htrail.
Qed.

Lemma special_parts (s : string) :
  special s = false ->
  Str.includes Str.comma s = false /\ Str.includes Str.dquote s = false
  /\ Str.includes Str.LF s = false /\ Str.includes Str.CR s = false.
Proof.
  unfold special. intros H.
  apply orb_false_elim in H as [H H4]. apply orb_false_elim in H as [H H3].
  apply orb_false_elim in H as [H1 H2]. now repeat split.
Qed.

Section PlainLines.
Context {R : Runtime}.
Variable wd : WorkerData.
Hypothesis Hnd : NoDup (wd_headers wd).
Hypothesis Hcsv : wd_outputFormat wd = "csv".
Hypothesis Htr : wd_transformations wd = None.

(** A plain line is parsed into its cells and written back as it is. *)
Lemma plain_line_cells (cell : string) (cells : list string) :
  length (cell :: cells) = length (wd_headers wd) ->
  Forall (fun c => special c = false) (cell :: cells) ->
  workerCells wd (Worker.parseLine wd (Str.join "," (cell :: cells)))
  = Str.join "," (cell :: cells).
Proof.
  intros Hlen Hplain. set (line := Str.join "," (cell :: cells)).
  assert (Hvalues : map Str.stripQuotes (Str.split Str.comma line) = cell :: cells).
  { unfold line. change "," with (Str.chr Str.comma).
    rewrite split_join.
    - rewrite <- (map_id (cell :: cells)) at 2. apply map_ext_in.
      intros c Hc. apply stripQuotes_plain.
      rewrite Forall_forall in Hplain. now apply special_parts, Hplain.
    - eapply Forall_impl; [|exact Hplain]. cbn beta. intros c Hc.
      now apply special_parts in Hc. }
  assert (Hfields : map (field (Worker.parseLine wd line)) (wd_headers wd)
                    = map VString (cell :: cells)).
  { unfold Worker.parseLine. cbv zeta. rewrite Hvalues.
    pose proof (parse_fold_cells (cell :: cells) (wd_headers wd) Hnd [] 0) as Hfold.
    cbv zeta in Hfold. etransitivity; [exact Hfold|].
    rewrite <- Hlen.
    pose proof (nth_seq_all "" (cell :: cells) []) as Hall.
    cbn [app length] in Hall.
    transitivity (map VString (map (fun j => nth j (cell :: cells) "")
                                 (seq 0 (S (length cells)))));
      [now rewrite map_map | now rewrite Hall]. }
  unfold workerCells. subst line. f_equal.
  rewrite <- (map_map (field (Worker.parseLine wd (Str.join "," (cell :: cells))))
                (fun v => Worker.escapeCSVValue (or_else v (VString "")))).
  rewrite Hfields, map_map.
  rewrite <- (map_id (cell :: cells)) at 2. apply map_ext_in.
  intros c Hc. rewrite Forall_forall in Hplain. specialize (Hplain c Hc).
  unfold Worker.escapeCSVValue, CSVFormatter.escapeCSVValue.
  assert (Hor : or_else (VString c) (VString "") = VString c) by now destruct c.
  rewrite Hor. cbn [toString]. unfold special in Hplain. now rewrite Hplain.
Qed.

(** What becomes of a line that is not blank and is plain once trimmed. *)
Lemma plain_line_outcome (rawLine : string) :
  blankLine rawLine = false -> plainLine wd (Str.trim rawLine) ->
  exists row,
    lineOutcome wd rawLine = Some (Ret (Some row))
    /\ workerCells wd row = Str.trim rawLine.
Proof.
  unfold blankLine, lineOutcome. cbv zeta. intros Hb (cells & Hline & Hlen & Hplain).
  rewrite Hb. exists (Worker.parseLine wd (Str.trim rawLine)). split.
  - unfold Worker.applyTransformations, spread. now rewrite Htr.
  - destruct cells as [|cell cells].
    + rewrite Hline in Hb. discriminate.
    + rewrite Hline. now apply plain_line_cells.
Qed.

Lemma plain_lines_rows (lines : list string) :
  Forall (fun raw => blankLine raw = true \/ plainLine wd (Str.trim raw)) lines ->
  map (workerCells wd) (workerRows wd lines)
  = map Str.trim (filter (fun raw => negb (blankLine raw)) lines)
  /\ forall i, workerErrors wd i lines = [].
Proof.
  induction 1 as [|raw lines Hraw Hall (IHrows & IHerrors)]; [split; reflexivity|].
  cbn [workerRows workerErrors filter].
  destruct (blankLine raw) eqn:Hb.
  - assert (Hout : lineOutcome wd raw = None).
    { unfold lineOutcome, blankLine in *. cbv zeta. now rewrite Hb. }
    rewrite Hout. cbn [negb]. split; [exact IHrows | intros i; apply IHerrors].
  - destruct Hraw as [Hblank|Hplain]; [discriminate|].
    destruct (plain_line_outcome raw Hb Hplain) as (row & Hout & Hcells).
    rewrite Hout. cbn [negb map]. split.
    + now rewrite Hcells, IHrows.
    + intros i. apply IHerrors.
Qed.

Lemma workerBody_cells (rows : list Row) :
  workerBody wd rows = concatText (map (fun line => line ++ nl) (map (workerCells wd) rows)).
Proof.
  unfold workerBody. rewrite map_map. f_equal. apply map_ext. intros row.
  unfold workerRowText, workerCells. now rewrite Hcsv.
Qed.

Lemma workerFiles_contents (timestamp : string) (index : Z) (gs : list (list Row)) :
  forall k,
    map content (workerFiles timestamp wd index k gs)
    = map (fun held => workerOpening wd ++ concatText (map (fun line => line ++ nl) held))
        (map (map (workerCells wd)) gs).
Proof.
  induction gs as [|g gs IH]; intros k; cbn [workerFiles map]; [reflexivity|].
  rewrite IH. cbn [workerFile content]. now rewrite workerBody_cells.
Qed.

End PlainLines.

(** X28. A worker copies plain lines.  When the headers are distinct, the
    format is [csv], no transformations are configured and every line of the
    partition's text that the loop runs over is either blank or, once
    trimmed, a line of plain cells, one for each header (no cell holding a
    comma, a double quote, a line feed or a carriage return), then what the
    worker writes to its streams is, after the header line of each, the
    trimmed non-blank lines, in order and each followed by a line feed; it
    counts one row for each of them and records no error.  The white space
    around a line and the blank lines are not copied. *)
Theorem worker_copies_plain_lines
    (R : Runtime) (timestamp : string) (wd : WorkerData) (index : Z)
    (startByte : Z) (buffer : string) (w : World) :
  NoDup (wd_headers wd) ->
  wd_outputFormat wd = "csv" ->
  wd_transformations wd = None ->
  let lines := loopLines startByte buffer in
  Forall (fun raw => blankLine raw = true \/ plainLine wd (Str.trim raw)) lines ->
  let kept := filter (fun raw => negb (blankLine raw)) lines in
  let st := Worker.onEnd timestamp wd index startByte buffer w in
  exists (files : list Stream) (held : list (list string)),
    Worker.world st = {| directories := directories w; streams := streams w ++ files |}
    /\ map content files
       = map (fun g => workerOpening wd ++ concatText (map (fun line => line ++ nl) g)) held
    /\ concat held = map Str.trim kept
    /\ rowsProcessed (Worker.results st) = Z.of_nat (length kept)
    /\ errors (Worker.results st) = [].
Proof.
  intros Hnd Hcsv Htr lines Hlines kept st.
  destruct (worker_run timestamp wd index startByte buffer w) as (Hworld & Hres).
  fold lines in Hworld, Hres. fold st in Hworld, Hres.
  destruct (plain_lines_rows wd Hnd Htr lines Hlines) as (Hrows & Herrors).
  fold kept in Hrows.
  set (rows := workerRows wd lines) in *.
  set (gs := fst (groups (wd_maxRowsPerFile wd) [] rows)) in *.
  set (last := snd (groups (wd_maxRowsPerFile wd) [] rows)) in *.
  pose proof (groups_partition (wd_maxRowsPerFile wd) rows []) as Hpart.
  cbn [app] in Hpart. fold gs last in Hpart.
  exists (workerFiles timestamp wd index 1 (gs ++ [last])),
         (map (map (workerCells wd)) (gs ++ [last])).
  split; [exact Hworld|]. split; [exact (workerFiles_contents wd Hcsv _ _ _ _)|]. split.
  - rewrite <- Hrows, <- Hpart. rewrite !map_app, concat_app, concat_map.
    cbn [map concat]. now rewrite app_nil_r.
  - rewrite Hres. cbn [rowsProcessed errors]. split; [|apply Herrors].
    rewrite <- (length_map (workerCells wd) rows), Hrows. now rewrite length_map.
Qed.

(** The first partition of a source of two rows, the second with white space
    around it and a blank line after it. *)
Lemma worker_copies_plain_lines_witness :
  let buffer := "id,name" ++ nl ++ "1,Alice" ++ nl ++ "  2,Bob " ++ nl ++ nl in
  let st := Worker.onEnd "2025-06-02" Sample.workerData 0 0 buffer Sample.emptyWorld in
  NoDup (wd_headers Sample.workerData)
  /\ Forall (fun raw => blankLine raw = true \/ plainLine Sample.workerData (Str.trim raw))
       (loopLines 0 buffer)
  /\ map content (streams (Worker.world st))
     = ["id,name" ++ nl ++ "1,Alice" ++ nl ++ "2,Bob" ++ nl]
  /\ rowsProcessed (Worker.results st) = 2.
Proof.
  intros buffer st.
  assert (Hnd : NoDup (wd_headers Sample.workerData))
    by (repeat constructor; cbn; intuition discriminate).
  assert (Hlines : Forall (fun raw => blankLine raw = true
                                      \/ plainLine Sample.workerData (Str.trim raw))
                     (loopLines 0 buffer)).
  { change (loopLines 0 buffer) with ["1,Alice"; "  2,Bob "; ""; ""].
    apply Forall_cons; [|apply Forall_cons; [|apply Forall_cons; [|apply Forall_cons;
                                                                    [|apply Forall_nil]]]].
    - right. exists ["1"; "Alice"]. split; [reflexivity|]. split; [reflexivity|].
      repeat constructor.
    - right. exists ["2"; "Bob"]. split; [reflexivity|]. split; [reflexivity|].
      repeat constructor.
    - now left.
    - now left. }
  split; [exact Hnd|]. split; [exact Hlines|].
  destruct (worker_copies_plain_lines asciiRuntime "2025-06-02" Sample.workerData 0 0 buffer
              Sample.emptyWorld Hnd eq_refl eq_refl Hlines)
    as (files & held & Hworld & _ & _ & Hcount & _).
  split; [|exact Hcount].
  vm_compute. reflexivity.
Defined.

